(** * hydrology_api.py: the Hydrology API client, embedded and verified

    A shallow embedding of [HydrologyAPI] (src/hydrology_api.py): the
    request executor [_make_request], the five read accessors and the
    batch submit-and-poll workflow [get_batch_readings].

    The Python code talks to the outside through [requests.Session],
    [time.time], [time.sleep] and [logging]. Here these are the primitive
    operations of a small state-and-exception monad: what the network and
    the clock answer comes from a [world] of oracles, indexed by how many
    calls of each kind were made before, and every effect is appended to a
    trace of [event]s. The polling loop [while True] takes fuel.

    Modelling choices, where Python leaves the source file:
    - times are rational numbers of seconds and [elapsed] is their exact
      difference. The source subtracts two floats; the two agree whenever
      the readings lie on one binary grid ([on_grid]), and a statement
      that concludes a timeout from the clock assumes that they do: the
      difference is then a float itself ([binary64_exact]) and the
      subtraction returns it. A statement that assumes
      [elapsed <= max_wait_time] needs no such assumption, rounding
      being monotone and the deadline a whole number of seconds;
    - [requests] is taken at version 2.27 or later: [Response.json()]
      raises [requests.exceptions.JSONDecodeError], which
      [except RequestException] catches. Whether
      [except json.JSONDecodeError] catches it depends on the
      installation: [requests] derives the class from
      [simplejson.JSONDecodeError] when [simplejson] can be imported and
      from [json.JSONDecodeError] otherwise. The world says which
      ([w_simplejson]);
    - [strftime] hands [%Y] to the C library, which on Linux (glibc)
      writes the year without padding: the year 999 is written as three
      digits. This is what is modelled; where the platform pads the year
      to four digits the two agree from the year 1000 on;
    - an f-string is kept as its pieces, so that a message shows the
      values it was built from;
    - a [dict] of parameters is a finite map: the claims proved here do
      not depend on the order of its keys. *)

From Stdlib Require Import ZArith QArith Lia Lqa List Ascii String.
From stdpp Require Import gmap strings.

Set Warnings "-register-all".

Local Open Scope Z_scope.
Local Open Scope string_scope.

(** ** Values *)

(** What [response.json()] yields. A decoded object keeps its items in
    order; its keys are pairwise distinct, as in a Python [dict]. *)
Inductive json :=
| JNull
| JBool (b : bool)
| JInt (z : Z)
| JFloat (q : Q)
| JStr (s : string)
| JList (l : list json)
| JDict (items : list (string * json)).

(** A value stored in a query-parameter or form-data dict. *)
Inductive pval :=
| PStr (s : string)
| PInt (z : Z)
| PFloat (q : Q)
| PList (l : list string).

(** [datetime.datetime], as far as [strftime] reads it. *)
Record datetime := {
  year : Z; month : Z; day : Z;
  hour : Z; minute : Z; second : Z
}.

(** The constructor of [datetime] accepts exactly these (MINYEAR = 1,
    MAXYEAR = 9999); the day is further bounded by the month. *)
Definition valid_datetime (d : datetime) : Prop :=
  1 <= year d <= 9999 /\ 1 <= month d <= 12 /\ 1 <= day d <= 31 /\
  0 <= hour d < 24 /\ 0 <= minute d < 60 /\ 0 <= second d < 60.

(** ** Exceptions and messages *)

(** [requests.exceptions.RequestException] and the subclasses the client
    can meet. [JSONDecodeError] is [requests.exceptions.JSONDecodeError],
    raised by [Response.json()]: it inherits from [RequestException]
    (through [InvalidJSONError]) and from the decode error of the JSON
    module [requests] found, [simplejson.JSONDecodeError] or
    [json.JSONDecodeError]. *)
Inductive requests_exception :=
| ConnectionError (detail : string)
| Timeout (detail : string)
| HTTPError (status : Z)
| JSONDecodeError
| OtherRequestException (detail : string).

(** An f-string, kept as its pieces: literal text and the values it
    formats, not yet rendered with [str()]. *)
Inductive frag :=
| Lit (s : string)
| FStr (s : string)
| FInt (z : Z)
| FJson (j : json)
| FExc (e : requests_exception).

Inductive exn :=
| Requests (e : requests_exception)
| AttributeError (detail : string)
| ValueError (detail : string)
| HydrologyAPIError (msg : list frag).

(** [isinstance(e, json.JSONDecodeError)]: true of [requests]' decode
    error only when [simplejson] could not be imported. *)
Definition is_json_JSONDecodeError (simplejson : bool)
    (e : requests_exception) : bool :=
  match e with JSONDecodeError => negb simplejson | _ => false end.

(** ** The HTTP layer *)

(** [requests.Response]: [resp_json] is what [.json()] does on the body,
    [None] when the body is not decodable JSON. *)
Record response := {
  status_code : Z;
  headers : list (string * string);
  text : string;
  resp_json : option json
}.

Inductive event :=
| EGet (url : string) (params : option (gmap string pval)) (timeout : Z)
| EPost (url : string) (data : gmap string pval) (timeout : Z)
| ETime
| ESleep (secs : Z)
| EWarning (msg : list frag)
| EInfo (msg : list frag).

(** What the network and the clock answer, and what is installed. The
    first argument of each oracle is the number of earlier calls of the
    same kind. [w_simplejson] says whether [simplejson] can be imported. *)
Record world := {
  w_get : nat -> string -> option (gmap string pval) -> requests_exception + response;
  w_post : nat -> string -> gmap string pval -> requests_exception + response;
  w_time : nat -> Q;
  w_simplejson : bool
}.

Record state := {
  gets : nat;
  posts : nat;
  clock_reads : nat;
  trace : list event
}.

Definition initial : state :=
  {| gets := 0; posts := 0; clock_reads := 0; trace := [] |}.

(** The client object: [self.base_url] and [self.timeout]. *)
Record HydrologyAPI := {
  base_url : string;
  self_timeout : Z
}.

Definition BASE_URL : string := "http://environment.data.gov.uk/hydrology".

Definition new_client : HydrologyAPI :=
  {| base_url := BASE_URL; self_timeout := 30 |}.

Definition OBSERVED_PROPERTIES : list string :=
  [ "waterFlow"; "waterLevel"; "rainfall"; "groundwaterLevel";
    "dissolved-oxygen"; "fdom"; "bga"; "turbidity"; "chlorophyll";
    "conductivity"; "temperature"; "ammonium"; "nitrate"; "ph" ].

Definition OBSERVATION_TYPES : list string := [ "Qualified"; "Measured" ].
Definition STATION_STATUSES : list string := [ "Active"; "Suspended"; "Closed" ].
Definition QUALITY_FLAGS : list string :=
  [ "Good"; "Estimated"; "Suspect"; "Unchecked"; "Missing" ].

(** ** The monad *)

Inductive outcome (A : Type) :=
| Ret (a : A)
| Raise (e : exn)
| OutOfFuel.
Arguments Ret {A} a.
Arguments Raise {A} e.
Arguments OutOfFuel {A}.

Definition M (A : Type) : Type := state -> outcome A * state.

Definition ret {A} (a : A) : M A := fun s => (Ret a, s).
Definition raise {A} (e : exn) : M A := fun s => (Raise e, s).
Definition out_of_fuel {A} : M A := fun s => (OutOfFuel, s).

Definition bind {A B} (m : M A) (k : A -> M B) : M B :=
  fun s =>
    match m s with
    | (Ret a, s') => k a s'
    | (Raise e, s') => (Raise e, s')
    | (OutOfFuel, s') => (OutOfFuel, s')
    end.

(** [try: m except ...: handler]; the handler answers [None] for an
    exception its [except] clause does not match. *)
Definition try_except {A} (m : M A) (handler : exn -> option (M A)) : M A :=
  fun s =>
    match m s with
    | (Raise e, s') =>
        match handler e with
        | Some h => h s'
        | None => (Raise e, s')
        end
    | r => r
    end.

Declare Scope py_scope.
Delimit Scope py_scope with py.
Notation "x <- m ;; k" := (bind m (fun x => k))
  (at level 100, m at next level, right associativity) : py_scope.
Notation "m ;;; k" := (bind m (fun _ => k))
  (at level 100, right associativity) : py_scope.
Local Open Scope py_scope.

Definition emit (e : event) : M unit :=
  fun s => (Ret tt, {| gets := gets s; posts := posts s;
                       clock_reads := clock_reads s;
                       trace := trace s ++ [e] |}).

(** ** Python's truth tests *)

Definition nonempty (s : string) : bool := negb (String.eqb s "").

(** [if x:] for [x : Optional[str]]. *)
Definition truthy_str (x : option string) : bool :=
  match x with Some s => nonempty s | None => false end.

(** [if x:] for [x : Optional[float]]. *)
Definition truthy_float (x : option Q) : bool :=
  match x with Some q => negb (Qeq_bool q 0) | None => false end.

(** [if x:] for [x : Optional[int]]. *)
Definition truthy_int (x : option Z) : bool :=
  match x with Some z => negb (Z.eqb z 0) | None => false end.

(** [if x:] for [x : Optional[Union[str, datetime]]]: a [datetime] is
    always true. *)
Definition truthy_date (x : option (string + datetime)) : bool :=
  match x with
  | Some (inl s) => nonempty s
  | Some (inr _) => true
  | None => false
  end.

(** [x > y] on numbers. *)
Definition Qgtb (x y : Q) : bool := negb (Qle_bool x y).

(** A client (4xx) or server (5xx) error status. *)
Definition error_status (r : response) : bool :=
  (400 <=? status_code r)%Z && (status_code r <? 600)%Z.

(** [x in xs] on a list of strings. *)
Definition py_in (x : string) (xs : list string) : bool :=
  existsb (String.eqb x) xs.

(** ** strftime *)

Definition digit (n : Z) : ascii := ascii_of_nat (Z.to_nat (48 + n mod 10)).

Definition pad2 (n : Z) : string :=
  String (digit (n / 10)) (String (digit n) "").

(** Four digits, zero-padded: what [%Y] comes to for the years 1000 to
    9999. *)
Definition pad4 (n : Z) : string :=
  String (digit (n / 1000)) (String (digit (n / 100))
    (String (digit (n / 10)) (String (digit n) ""))).

(** The decimal digits of [n], most significant first, before [acc]. *)
Fixpoint decimal_from (fuel : nat) (n : Z) (acc : string) : string :=
  match fuel with
  | O => acc
  | S fuel' =>
      if (n <? 10)%Z then String (digit n) acc
      else decimal_from fuel' (n / 10) (String (digit n) acc)
  end.

(** A number from 0 up as C's [%d] writes it, without padding; the fuel
    is enough for twenty digits. *)
Definition decimal (n : Z) : string := decimal_from 20 n "".

(** [d.strftime(fmt)] for the directives [%Y %m %d %H %M %S %%], as
    glibc writes them: the year in as many digits as it has, the others
    in two, zero-padded. Any other character is copied. *)
Fixpoint strftime (d : datetime) (fmt : string) : string :=
  match fmt with
  | "" => ""
  | String "%" (String c rest) =>
      (if Ascii.eqb c "Y" then decimal (year d)
       else if Ascii.eqb c "m" then pad2 (month d)
       else if Ascii.eqb c "d" then pad2 (day d)
       else if Ascii.eqb c "H" then pad2 (hour d)
       else if Ascii.eqb c "M" then pad2 (minute d)
       else if Ascii.eqb c "S" then pad2 (second d)
       else if Ascii.eqb c "%" then "%"
       else String "%" (String c ""))
      +:+ strftime d rest
  | String c rest => String c (strftime d rest)
  end.

(** The nested helper of [get_readings] and [get_batch_readings]. *)
Definition _format_date (d : string + datetime) : string :=
  match d with
  | inr dt => strftime dt "%Y-%m-%d"
  | inl s => s
  end.

(** ** Dict helpers *)

(** [if x: params[k] = x] for an optional string. *)
Definition set_str (k : string) (x : option string)
    (params : gmap string pval) : gmap string pval :=
  match x with
  | Some s => if nonempty s then <[k := PStr s]> params else params
  | None => params
  end.

(** [if x: params[k] = _format_date(x)]. *)
Definition set_date (k : string) (x : option (string + datetime))
    (params : gmap string pval) : gmap string pval :=
  match x with
  | Some d => if truthy_date x then <[k := PStr (_format_date d)]> params
              else params
  | None => params
  end.

(** [if x: params[k] = x] for an optional float. *)
Definition set_float (k : string) (x : option Q)
    (params : gmap string pval) : gmap string pval :=
  match x with
  | Some q => if truthy_float x then <[k := PFloat q]> params else params
  | None => params
  end.

(** [if x: params[k] = x] for an optional int. *)
Definition set_int (k : string) (x : option Z)
    (params : gmap string pval) : gmap string pval :=
  match x with
  | Some z => if truthy_int x then <[k := PInt z]> params else params
  | None => params
  end.

(** [if a is not None and b is not None:
       params[ka] = a; params[kb] = b
       if distance: params["dist"] = distance]. *)
Definition set_point (ka kb : string) (a b distance : option Q)
    (params : gmap string pval) : gmap string pval :=
  match a, b with
  | Some qa, Some qb =>
      set_float "dist" distance (<[kb := PFloat qb]> (<[ka := PFloat qa]> params))
  | _, _ => params
  end.

(** [d.get(k)] on a decoded object: Python's [None] for a missing key is
    the same value as a decoded [null]. *)
Fixpoint items_get (items : list (string * json)) (k : string) : json :=
  match items with
  | [] => JNull
  | (k', v) :: rest => if String.eqb k' k then v else items_get rest k
  end.

(** ASCII lower-casing, for the case-insensitive header dict. *)
Definition lower_ascii (c : ascii) : ascii :=
  let n := nat_of_ascii c in
  if (65 <=? n)%nat && (n <=? 90)%nat then ascii_of_nat (n + 32) else c.

Fixpoint lower (s : string) : string :=
  match s with
  | "" => ""
  | String c rest => String (lower_ascii c) (lower rest)
  end.

(** [response.headers.get(name)]; [requests] keeps headers in a
    [CaseInsensitiveDict], whose keys are distinct up to case. *)
Fixpoint headers_get (hs : list (string * string)) (name : string) : option string :=
  match hs with
  | [] => None
  | (k, v) :: rest =>
      if String.eqb (lower k) (lower name) then Some v else headers_get rest name
  end.

(** ** Arguments of the accessors

    Each accessor takes keyword arguments with defaults; a record holds
    them, and [defaults] is the call with no argument given. *)

Module Stations.
Record args := {
  station_id : option string;
  rloi_id : option string;
  wiski_id : option string;
  station_guid : option string;
  observed_property : option string;
  status : option string;
  search : option string;
  latitude : option Q;
  longitude : option Q;
  distance : option Q;
  easting : option Q;
  northing : option Q;
  view : string;
  limit : Z;
  offset : Z;
  format : string
}.
Definition defaults : args :=
  {| station_id := None; rloi_id := None; wiski_id := None;
     station_guid := None; observed_property := None; status := None;
     search := None; latitude := None; longitude := None;
     distance := None; easting := None; northing := None;
     view := "default"; limit := 100; offset := 0; format := "json" |}.
End Stations.

Module OpenStations.
Record args := {
  from_date : string + datetime;
  to_date : string + datetime;
  observed_property : option string;
  status : option string;
  search : option string;
  latitude : option Q;
  longitude : option Q;
  distance : option Q;
  limit : Z;
  offset : Z;
  format : string
}.
Definition defaults (from_date to_date : string + datetime) : args :=
  {| from_date := from_date; to_date := to_date;
     observed_property := None; status := None; search := None;
     latitude := None; longitude := None; distance := None;
     limit := 100; offset := 0; format := "json" |}.
End OpenStations.

Module Measures.
Record args := {
  measure_id : option string;
  station_guid : option string;
  station_wiski_id : option string;
  observed_property : option string;
  observation_type : option string;
  view : string;
  limit : Z;
  format : string
}.
Definition defaults : args :=
  {| measure_id := None; station_guid := None; station_wiski_id := None;
     observed_property := None; observation_type := None;
     view := "default"; limit := 100; format := "json" |}.
End Measures.

Module StationMeasures.
Record args := {
  station_guid : string;
  observed_property : option string;
  observation_type : option string;
  view : string;
  format : string
}.
Definition defaults (station_guid : string) : args :=
  {| station_guid := station_guid; observed_property := None;
     observation_type := None; view := "default"; format := "json" |}.
End StationMeasures.

Module Readings.
Record args := {
  measure_id : option string;
  station_guid : option string;
  station_rloi_id : option string;
  station_wiski_id : option string;
  observed_property : option string;
  observation_type : option string;
  date : option (string + datetime);
  min_date : option (string + datetime);
  max_date : option (string + datetime);
  min_inclusive_date : option (string + datetime);
  max_inclusive_date : option (string + datetime);
  earliest : bool;
  latest : bool;
  period : option Z;
  view : string;
  limit : Z;
  format : string
}.
Definition defaults : args :=
  {| measure_id := None; station_guid := None; station_rloi_id := None;
     station_wiski_id := None; observed_property := None;
     observation_type := None; date := None; min_date := None;
     max_date := None; min_inclusive_date := None;
     max_inclusive_date := None; earliest := false; latest := false;
     period := None; view := "default"; limit := 100; format := "json" |}.
End Readings.

Module Batch.
Record args := {
  measure_ids : option (list string);
  station_guid : option string;
  station_rloi_id : option string;
  station_wiski_id : option string;
  observed_property : option string;
  observation_type : option string;
  min_date : option (string + datetime);
  max_date : option (string + datetime);
  min_inclusive_date : option (string + datetime);
  max_inclusive_date : option (string + datetime);
  format : string;
  poll_interval : Z;
  max_wait_time : Z
}.
Definition defaults : args :=
  {| measure_ids := None; station_guid := None; station_rloi_id := None;
     station_wiski_id := None; observed_property := None;
     observation_type := None; min_date := None; max_date := None;
     min_inclusive_date := None; max_inclusive_date := None;
     format := "csv"; poll_interval := 5; max_wait_time := 3600 |}.
End Batch.

(** What an accessor returns: a decoded document or the raw body. *)
Inductive result :=
| RJson (j : json)
| RText (s : string).

(** ** The client *)

Section Client.
Context (w : world) (self : HydrologyAPI).

(** *** Primitive effects *)

(** [self.session.get(url, params=params, timeout=timeout)]. *)
Definition session_get (url : string) (params : option (gmap string pval))
    (timeout : Z) : M response :=
  fun s =>
    let s' := {| gets := S (gets s); posts := posts s;
                 clock_reads := clock_reads s;
                 trace := trace s ++ [EGet url params timeout] |} in
    match w_get w (gets s) url params with
    | inl e => (Raise (Requests e), s')
    | inr r => (Ret r, s')
    end.

(** [self.session.post(url, data=data, timeout=timeout)]. *)
Definition session_post (url : string) (data : gmap string pval)
    (timeout : Z) : M response :=
  fun s =>
    let s' := {| gets := gets s; posts := S (posts s);
                 clock_reads := clock_reads s;
                 trace := trace s ++ [EPost url data timeout] |} in
    match w_post w (posts s) url data with
    | inl e => (Raise (Requests e), s')
    | inr r => (Ret r, s')
    end.

(** [response.raise_for_status()]: [HTTPError] on 4xx and 5xx. *)
Definition raise_for_status (r : response) : M unit :=
  if error_status r
  then raise (Requests (HTTPError (status_code r)))
  else ret tt.

(** [response.json()]. *)
Definition response_json (r : response) : M json :=
  match resp_json r with
  | Some j => ret j
  | None => raise (Requests JSONDecodeError)
  end.

(** [time.time()]. *)
Definition time_time : M Q :=
  fun s => (Ret (w_time w (clock_reads s)),
            {| gets := gets s; posts := posts s;
               clock_reads := S (clock_reads s);
               trace := trace s ++ [ETime] |}).

(** [time.sleep(secs)]: a negative length is a [ValueError]. *)
Definition time_sleep (secs : Z) : M unit :=
  if (secs <? 0)%Z then raise (ValueError "sleep length must be non-negative")
  else emit (ESleep secs).

Definition logger_warning (msg : list frag) : M unit := emit (EWarning msg).
Definition logger_info (msg : list frag) : M unit := emit (EInfo msg).

(** [except requests.exceptions.RequestException as e:
       raise HydrologyAPIError(f"<prefix>{e}")]. *)
Definition except_RequestException {A} (prefix : string) (e : exn) : option (M A) :=
  match e with
  | Requests e => Some (raise (HydrologyAPIError [Lit prefix; FExc e]))
  | _ => None
  end.

(** [except json.JSONDecodeError as e:
       raise HydrologyAPIError(f"<prefix>{e}")]. *)
Definition except_JSONDecodeError {A} (prefix : string) (e : exn) : option (M A) :=
  match e with
  | Requests e =>
      if is_json_JSONDecodeError (w_simplejson w) e
      then Some (raise (HydrologyAPIError [Lit prefix; FExc e]))
      else None
  | _ => None
  end.

(** *** The request executor *)

(** [f"{self.base_url}{endpoint}.{format}"]. *)
Definition request_url (endpoint format : string) : string :=
  base_url self +:+ endpoint +:+ "." +:+ format.

(** [_make_request(endpoint, format, params)]; no caller passes
    [**kwargs], so they are left out. *)
Definition _make_request (endpoint format : string)
    (params : option (gmap string pval)) : M result :=
  let url := request_url endpoint format in
  response <-
    try_except
      (response <- session_get url params (self_timeout self) ;;
       raise_for_status response ;;;
       ret response)
      (except_RequestException "API request failed: ") ;;
  if String.eqb format "json" then
    try_except
      (j <- response_json response ;; ret (RJson j))
      (except_JSONDecodeError "Failed to parse JSON response: ")
  else if String.eqb format "csv" then
    ret (RText (text response))
  else
    ret (RText (text response)).

(** *** Parameter assembly shared by the accessors *)

(** [if x:
       if x not in KNOWN: logger.warning(f"<label>{x}")
       params[k] = x]. *)
Definition set_checked (k : string) (x : option string) (known : list string)
    (label : string) (params : gmap string pval) : M (gmap string pval) :=
  match x with
  | Some s =>
      if nonempty s then
        (if negb (py_in s known) then logger_warning [Lit label; FStr s]
         else ret tt) ;;;
        ret (<[k := PStr s]> params)
      else ret params
  | None => ret params
  end.

(** *** Read accessors *)

Definition get_stations (a : Stations.args) : M result :=
  let params : gmap string pval :=
    <["_view" := PStr (Stations.view a)]>
      (<["_offset" := PInt (Stations.offset a)]>
        (<["_limit" := PInt (Stations.limit a)]> ∅)) in
  ep <-
    (if truthy_str (Stations.station_id a) then
       ret ("/id/stations/" +:+ default "" (Stations.station_id a), params)
     else
       let params := set_str "RLOIid" (Stations.rloi_id a) params in
       let params := set_str "wiskiID" (Stations.wiski_id a) params in
       let params := set_str "stationGuid" (Stations.station_guid a) params in
       params <- set_checked "observedProperty" (Stations.observed_property a)
                   OBSERVED_PROPERTIES "Unknown observed property: " params ;;
       params <- set_checked "status.label" (Stations.status a)
                   STATION_STATUSES "Unknown status: " params ;;
       let params := set_str "search" (Stations.search a) params in
       let params := set_point "lat" "long" (Stations.latitude a)
                       (Stations.longitude a) (Stations.distance a) params in
       let params := set_point "easting" "northing" (Stations.easting a)
                       (Stations.northing a) (Stations.distance a) params in
       ret ("/id/stations", params)) ;;
  let endpoint := fst ep in
  let params := snd ep in
  _make_request endpoint (Stations.format a)
    (if String.eqb endpoint "/id/stations" then Some params else None).

Definition get_open_stations (a : OpenStations.args) : M result :=
  let from_date_str := _format_date (OpenStations.from_date a) in
  let to_date_str := _format_date (OpenStations.to_date a) in
  let params : gmap string pval :=
    <["_offset" := PInt (OpenStations.offset a)]>
      (<["_limit" := PInt (OpenStations.limit a)]>
        (<["to" := PStr to_date_str]>
          (<["from" := PStr from_date_str]> ∅))) in
  let params := set_str "observedProperty" (OpenStations.observed_property a) params in
  let params := set_str "status.label" (OpenStations.status a) params in
  let params := set_str "search" (OpenStations.search a) params in
  let params := set_point "lat" "long" (OpenStations.latitude a)
                  (OpenStations.longitude a) (OpenStations.distance a) params in
  _make_request "/id/open/stations" (OpenStations.format a) (Some params).

Definition get_measures (a : Measures.args) : M result :=
  if truthy_str (Measures.measure_id a) then
    let endpoint := "/id/measures/" +:+ default "" (Measures.measure_id a) in
    _make_request endpoint (Measures.format a) None
  else
    let params : gmap string pval :=
      <["_view" := PStr (Measures.view a)]>
        (<["_limit" := PInt (Measures.limit a)]> ∅) in
    let params := set_str "station" (Measures.station_guid a) params in
    let params := set_str "station.wiskiID" (Measures.station_wiski_id a) params in
    let params := set_str "observedProperty" (Measures.observed_property a) params in
    let params := set_str "observationType" (Measures.observation_type a) params in
    _make_request "/id/measures" (Measures.format a) (Some params).

Definition get_station_measures (a : StationMeasures.args) : M result :=
  let params : gmap string pval :=
    <["_view" := PStr (StationMeasures.view a)]> ∅ in
  let params := set_str "observedProperty" (StationMeasures.observed_property a) params in
  let params := set_str "observationType" (StationMeasures.observation_type a) params in
  let endpoint := "/id/stations/" +:+ StationMeasures.station_guid a +:+ "/measures" in
  _make_request endpoint (StationMeasures.format a) (Some params).

(** The query parameters [get_readings] assembles. *)
Definition readings_params (a : Readings.args) : gmap string pval :=
  let params : gmap string pval :=
    <["_view" := PStr (Readings.view a)]>
      (<["_limit" := PInt (Readings.limit a)]> ∅) in
  let params := set_str "measure" (Readings.measure_id a) params in
  let params := set_str "station" (Readings.station_guid a) params in
  let params := set_str "station.RLOIid" (Readings.station_rloi_id a) params in
  let params := set_str "station.wiskiID" (Readings.station_wiski_id a) params in
  let params := set_str "observedProperty" (Readings.observed_property a) params in
  let params := set_str "observationType" (Readings.observation_type a) params in
  let params := set_date "date" (Readings.date a) params in
  let params := set_date "min-date" (Readings.min_date a) params in
  let params := set_date "max-date" (Readings.max_date a) params in
  let params := set_date "mineq-date" (Readings.min_inclusive_date a) params in
  let params := set_date "maxeq-date" (Readings.max_inclusive_date a) params in
  let params := if Readings.earliest a then <["earliest" := PStr ""]> params else params in
  let params := if Readings.latest a then <["latest" := PStr ""]> params else params in
  let params := set_int "period" (Readings.period a) params in
  params.

Definition get_readings (a : Readings.args) : M result :=
  _make_request "/data/readings" (Readings.format a) (Some (readings_params a)).

(** *** Batch submission and polling *)

(** One turn of [for mid in measure_ids]. *)
Definition append_measure (params : gmap string pval) (mid : string)
    : gmap string pval :=
  let params :=
    match params !! "measure" with
    | None => <["measure" := PList []]> params
    | Some _ => params
    end in
  alter (fun v => match v with PList l => PList (l ++ [mid]) | _ => v end)
        "measure" params.

(** The form data [get_batch_readings] assembles. *)
Definition batch_params (a : Batch.args) : gmap string pval :=
  let params : gmap string pval := ∅ in
  let params :=
    match Batch.measure_ids a with
    | Some (mid :: mids) => fold_left append_measure (mid :: mids) params
    | _ => params
    end in
  let params := set_str "station" (Batch.station_guid a) params in
  let params := set_str "station.RLOIid" (Batch.station_rloi_id a) params in
  let params := set_str "station.wiskiID" (Batch.station_wiski_id a) params in
  let params := set_str "observedProperty" (Batch.observed_property a) params in
  let params := set_str "observationType" (Batch.observation_type a) params in
  let params := set_date "min-date" (Batch.min_date a) params in
  let params := set_date "max-date" (Batch.max_date a) params in
  let params := set_date "mineq-date" (Batch.min_inclusive_date a) params in
  let params := set_date "maxeq-date" (Batch.max_inclusive_date a) params in
  params.

(** [status_data.get(k)]: only a decoded object has [get]. *)
Definition json_get (j : json) (k : string) : M json :=
  match j with
  | JDict items => ret (items_get items k)
  | _ => raise (AttributeError "object has no attribute 'get'")
  end.

(** [v == s] for a decoded value and a string literal. *)
Definition json_eq_str (v : json) (s : string) : bool :=
  match v with JStr s' => String.eqb s' s | _ => false end.

(** The body of [while True:], [fuel] iterations of it.
    [status_data.get("status")] is read once here and three times in the
    source; it reads a value that does not change, or fails the first
    time. *)
Fixpoint poll_loop (fuel : nat) (status_url : string) (start_time : Q)
    (poll_interval max_wait_time : Z) : M json :=
  match fuel with
  | O => out_of_fuel
  | S fuel' =>
      now <- time_time ;;
      let elapsed := (now - start_time)%Q in
      if Qgtb elapsed (inject_Z max_wait_time) then
        raise (HydrologyAPIError
                 [Lit "Batch request timed out after "; FInt max_wait_time;
                  Lit " seconds"])
      else
        status_data <-
          try_except
            (status_response <- session_get status_url None (self_timeout self) ;;
             raise_for_status status_response ;;;
             response_json status_response)
            (except_RequestException "Failed to check batch status: ") ;;
        st <- json_get status_data "status" ;;
        if json_eq_str st "Completed" then
          ret status_data
        else if json_eq_str st "Failed" then
          raise (HydrologyAPIError [Lit "Batch request failed: "; FJson status_data])
        else
          pos <- json_get status_data "positionInQueue" ;;
          logger_info [Lit "Batch request status: "; FJson st;
                       Lit " (position: "; FJson pos; Lit ")"] ;;;
          time_sleep poll_interval ;;;
          poll_loop fuel' status_url start_time poll_interval max_wait_time
  end.

(** [f"{self.base_url}/data/batch.json"]. *)
Definition batch_url : string := base_url self +:+ "/data/batch.json".

Definition get_batch_readings (fuel : nat) (a : Batch.args) : M json :=
  let params := batch_params a in
  let url := batch_url in
  response <-
    try_except
      (response <- session_post url params (self_timeout self) ;;
       raise_for_status response ;;;
       ret response)
      (except_RequestException "Failed to submit batch request: ") ;;
  let status_url := headers_get (headers response) "Location" in
  if negb (truthy_str status_url) then
    raise (HydrologyAPIError [Lit "No status URL provided in batch response"])
  else
    let status_url := default "" status_url in
    start_time <- time_time ;;
    poll_loop fuel status_url start_time
      (Batch.poll_interval a) (Batch.max_wait_time a).

Definition download_batch_results (download_url : string) : M string :=
  try_except
    (response <- session_get download_url None (self_timeout self) ;;
     raise_for_status response ;;;
     ret (text response))
    (except_RequestException "Failed to download batch results: ").

End Client.

(** ** Vocabulary of the statements *)

(** The state after [g] more GETs, [p] more POSTs, [c] more clock
    readings, with the events [evs] appended to the trace. *)
Definition after (s : state) (g p c : nat) (evs : list event) : state :=
  {| gets := gets s + g; posts := posts s + p;
     clock_reads := clock_reads s + c; trace := trace s ++ evs |}.

(** The submission is accepted and names [status_url]. *)
Definition submitted (w : world) (self : HydrologyAPI) (a : Batch.args)
    (s : state) (status_url : string) : Prop :=
  exists r,
    w_post w (posts s) (batch_url self) (batch_params a) = inr r /\
    error_status r = false /\
    headers_get (headers r) "Location" = Some status_url /\
    nonempty status_url = true.

(** The submission is not accepted: the POST fails in transport, or
    answers an error status, or answers without a [Location]. *)
Definition submission_fails (w : world) (self : HydrologyAPI) (a : Batch.args)
    (s : state) : Prop :=
  match w_post w (posts s) (batch_url self) (batch_params a) with
  | inl _ => True
  | inr r =>
      error_status r = true \/
      truthy_str (headers_get (headers r) "Location") = false
  end.

(** The [k]-th GET, of [url], answers the decoded object [items]. *)
Definition poll_reports (w : world) (k : nat) (url : string)
    (items : list (string * json)) : Prop :=
  exists r,
    w_get w k url None = inr r /\
    error_status r = false /\
    resp_json r = Some (JDict items).

(** The [k]-th GET, of [url], fails with [e]: in transport, by an error
    status, or by a body that is not JSON. *)
Definition poll_fails (w : world) (k : nat) (url : string)
    (e : requests_exception) : Prop :=
  match w_get w k url None with
  | inl e' => e = e'
  | inr r =>
      (error_status r = true /\ e = HTTPError (status_code r)) \/
      (error_status r = false /\ resp_json r = None /\ e = JSONDecodeError)
  end.

Definition status_is (items : list (string * json)) (v : string) : Prop :=
  items_get items "status" = JStr v.

(** Neither of the two terminal states. *)
Definition pending (items : list (string * json)) : Prop :=
  ~ status_is items "Completed" /\ ~ status_is items "Failed".

(** The elapsed time at the [k]-th clock reading, for a loop that took
    [start] as its [start_time]. *)
Definition elapsed_at (w : world) (start : Q) (k : nat) : Q :=
  (w_time w k - start)%Q.

(** [q] is a float (IEEE 754 binary64): a significand of at most 53
    bits over a power of two no finer than the smallest subnormal. *)
Definition binary64_exact (q : Q) : Prop :=
  exists (m : Z) (e : nat),
    (e <= 1074)%nat /\ Z.abs m < 2 ^ 53
    /\ (q * inject_Z (2 ^ Z.of_nat e) == inject_Z m)%Q.

(** [q] is a reading of [time.time()] on the grid of step [2^-e]: a
    float that is not negative and a multiple of the step. Readings of
    one binade share such a grid (for the seconds since 1970 of these
    decades, [e = 22]). *)
Definition on_grid (e : nat) (q : Q) : Prop :=
  (e <= 1074)%nat
  /\ exists m : Z, 0 <= m < 2 ^ 53
       /\ (q * inject_Z (2 ^ Z.of_nat e) == inject_Z m)%Q.

(** What one pending iteration of the loop appends to the trace. *)
Definition pending_events (self : HydrologyAPI) (url : string)
    (poll_interval : Z) (items : list (string * json)) : list event :=
  [ ETime;
    EGet url None (self_timeout self);
    EInfo [Lit "Batch request status: "; FJson (items_get items "status");
           Lit " (position: "; FJson (items_get items "positionInQueue");
           Lit ")"];
    ESleep poll_interval ].

(** The trace of the first [n] iterations, all pending. *)
Fixpoint polling_trace (self : HydrologyAPI) (url : string)
    (poll_interval : Z) (pend : nat -> list (string * json)) (n : nat)
    : list event :=
  match n with
  | O => []
  | S n' =>
      polling_trace self url poll_interval pend n'
      ++ pending_events self url poll_interval (pend n')
  end.

(** The first [n] polls of a loop all find the batch pending, none of
    them past the deadline: the loop took [start] as its [start_time],
    its first clock reading is the [c0]-th and its first GET the
    [g0]-th. *)
Definition pending_run (w : world) (url : string) (start : Q)
    (max_wait_time : Z) (g0 c0 : nat) (pend : nat -> list (string * json))
    (n : nat) : Prop :=
  forall i, (i < n)%nat ->
    (elapsed_at w start (c0 + i) <= inject_Z max_wait_time)%Q /\
    poll_reports w (g0 + i) url (pend i) /\
    pending (pend i).

(** The events of an accepted submission: the POST and the reading of
    [start_time]. *)
Definition submit_events (self : HydrologyAPI) (a : Batch.args) : list event :=
  [ EPost (batch_url self) (batch_params a) (self_timeout self); ETime ].

(** [s'] is [s] after more effects: no GET is forgotten and the trace
    only grows. *)
Definition extends (s s' : state) : Prop :=
  (gets s <= gets s')%nat /\ exists evs : list event, trace s' = (trace s ++ evs)%list.

(** Every run of [m] only adds effects. *)
Definition grows {A} (m : M A) : Prop :=
  forall s, extends s (snd (m s)).

(** The messages of the poll loop. *)
Definition timed_out (max_wait_time : Z) : exn :=
  HydrologyAPIError
    [Lit "Batch request timed out after "; FInt max_wait_time; Lit " seconds"].

Definition batch_failed (status_data : json) : exn :=
  HydrologyAPIError [Lit "Batch request failed: "; FJson status_data].

Definition status_check_failed (e : requests_exception) : exn :=
  HydrologyAPIError [Lit "Failed to check batch status: "; FExc e].

Definition is_sleep (e : event) : bool :=
  match e with ESleep _ => true | _ => false end.

Definition is_get (e : event) : bool :=
  match e with EGet _ _ _ => true | _ => false end.

Definition is_warning (e : event) : bool :=
  match e with EWarning _ => true | _ => false end.

(** *** Dates on the wire *)

Definition is_digit (c : ascii) : bool :=
  (48 <=? nat_of_ascii c)%nat && (nat_of_ascii c <=? 57)%nat.

Definition digit_value (c : ascii) : Z := Z.of_nat (nat_of_ascii c) - 48.

(** The layout YYYY-MM-DD: ten characters, digits around two hyphens. *)
Definition is_YYYY_MM_DD (s : string) : bool :=
  match s with
  | String y1 (String y2 (String y3 (String y4 (String h1
      (String m1 (String m2 (String h2 (String d1 (String d2 ""))))))))) =>
      is_digit y1 && is_digit y2 && is_digit y3 && is_digit y4
      && Ascii.eqb h1 "-" && is_digit m1 && is_digit m2
      && Ascii.eqb h2 "-" && is_digit d1 && is_digit d2
  | _ => false
  end.

(** The year, month and day a string in that layout denotes. *)
Definition ymd_of (s : string) : option (Z * Z * Z) :=
  match s with
  | String y1 (String y2 (String y3 (String y4 (String _
      (String m1 (String m2 (String _ (String d1 (String d2 ""))))))))) =>
      Some (1000 * digit_value y1 + 100 * digit_value y2
            + 10 * digit_value y3 + digit_value y4,
            10 * digit_value m1 + digit_value m2,
            10 * digit_value d1 + digit_value d2)
  | _ => None
  end.

(** The year of [d] has four digits. *)
Definition four_digit_year (d : datetime) : Prop := 1000 <= year d <= 9999.


(** What a date argument puts on the wire: nothing when it is [None] or
    the empty string, else its text. *)
Definition date_param (x : option (string + datetime)) : option pval :=
  match x with
  | Some d => if truthy_date x then Some (PStr (_format_date d)) else None
  | None => None
  end.

(** *** The list endpoint of [get_stations] *)

(** The warning [set_checked] logs, if any. *)
Definition unknown_warning (x : option string) (known : list string)
    (label : string) : list event :=
  match x with
  | Some v =>
      if nonempty v && negb (py_in v known)
      then [EWarning [Lit label; FStr v]]
      else []
  | None => []
  end.

(** The query parameters [get_stations] has assembled when it leaves its
    [else] branch. *)
Definition stations_params (a : Stations.args) : gmap string pval :=
  let params : gmap string pval :=
    <["_view" := PStr (Stations.view a)]>
      (<["_offset" := PInt (Stations.offset a)]>
        (<["_limit" := PInt (Stations.limit a)]> ∅)) in
  let params := set_str "RLOIid" (Stations.rloi_id a) params in
  let params := set_str "wiskiID" (Stations.wiski_id a) params in
  let params := set_str "stationGuid" (Stations.station_guid a) params in
  let params := set_str "observedProperty" (Stations.observed_property a) params in
  let params := set_str "status.label" (Stations.status a) params in
  let params := set_str "search" (Stations.search a) params in
  let params := set_point "lat" "long" (Stations.latitude a)
                  (Stations.longitude a) (Stations.distance a) params in
  let params := set_point "easting" "northing" (Stations.easting a)
                  (Stations.northing a) (Stations.distance a) params in
  params.

(** The warnings it has logged by then. *)
Definition stations_warnings (a : Stations.args) : list event :=
  unknown_warning (Stations.observed_property a) OBSERVED_PROPERTIES
    "Unknown observed property: "
  ++ unknown_warning (Stations.status a) STATION_STATUSES "Unknown status: ".

(** ** Worlds for the examples *)

(** A world whose POST answers [post], whose [k]-th GET answers
    [polls k] and whose [k]-th clock reading is [clock k], in an
    installation without [simplejson]. *)
Definition scripted (post : requests_exception + response)
    (polls : nat -> requests_exception + response) (clock : nat -> Q) : world :=
  {| w_get := fun k _ _ => polls k;
     w_post := fun _ _ _ => post;
     w_time := clock;
     w_simplejson := false |}.

(** The same world in an installation where [simplejson] can be
    imported. *)
Definition with_simplejson (w : world) : world :=
  {| w_get := w_get w; w_post := w_post w; w_time := w_time w;
     w_simplejson := true |}.

Definition example_status_url : string :=
  "http://environment.data.gov.uk/hydrology/data/batch-response/1".

(** The answer to an accepted submission. *)
Definition accepted : response :=
  {| status_code := 202;
     headers := [("Location", example_status_url)];
     text := "";
     resp_json := None |}.

(** An answer to a submission that names no status URL. *)
Definition accepted_without_location : response :=
  {| status_code := 202; headers := []; text := ""; resp_json := None |}.

Definition status_items (st : string) : list (string * json) :=
  [("status", JStr st); ("positionInQueue", JInt 3)].

(** A status document, as the status URL serves it. *)
Definition status_response (st : string) : response :=
  {| status_code := 200; headers := []; text := "";
     resp_json := Some (JDict (status_items st)) |}.

(** A 200 answer whose body is CSV, hence not JSON. *)
Definition csv_response : response :=
  {| status_code := 200; headers := [];
     text := "dateTime,value";
     resp_json := None |}.

(** A batch request for two measures that waits twelve seconds at most. *)
Definition two_measures_short_wait : Batch.args :=
  {| Batch.measure_ids := Some ["measure-1"; "measure-2"];
     Batch.station_guid := None; Batch.station_rloi_id := None;
     Batch.station_wiski_id := None; Batch.observed_property := None;
     Batch.observation_type := None; Batch.min_date := None;
     Batch.max_date := None; Batch.min_inclusive_date := None;
     Batch.max_inclusive_date := None; Batch.format := "csv";
     Batch.poll_interval := 5; Batch.max_wait_time := 12 |}.

(** A batch request that allows no waiting at all. *)
Definition no_wait : Batch.args :=
  {| Batch.measure_ids := Some ["measure-1"];
     Batch.station_guid := None; Batch.station_rloi_id := None;
     Batch.station_wiski_id := None; Batch.observed_property := None;
     Batch.observation_type := None; Batch.min_date := None;
     Batch.max_date := None; Batch.min_inclusive_date := None;
     Batch.max_inclusive_date := None; Batch.format := "csv";
     Batch.poll_interval := 5; Batch.max_wait_time := 0 |}.

(** A readings request with a [datetime] for [date] and a string for
    [min_inclusive_date]. *)
Definition example_readings : Readings.args :=
  {| Readings.measure_id := Some "measure-1";
     Readings.station_guid := None; Readings.station_rloi_id := None;
     Readings.station_wiski_id := None; Readings.observed_property := None;
     Readings.observation_type := None;
     Readings.date :=
       Some (inr {| year := 2024; month := 3; day := 9;
                    hour := 14; minute := 30; second := 0 |});
     Readings.min_date := None; Readings.max_date := None;
     Readings.min_inclusive_date := Some (inl "2024-01-01");
     Readings.max_inclusive_date := None;
     Readings.earliest := false; Readings.latest := true;
     Readings.period := Some 900;
     Readings.view := "default"; Readings.limit := 100;
     Readings.format := "json" |}.


(** A station lookup by identifier that also names an observed property
    outside [OBSERVED_PROPERTIES], a status outside [STATION_STATUSES]
    and a page size. *)
Definition single_station_with_filters : Stations.args :=
  {| Stations.station_id := Some "SS92F014";
     Stations.rloi_id := None; Stations.wiski_id := None;
     Stations.station_guid := None;
     Stations.observed_property := Some "snowfall";
     Stations.status := Some "Dormant";
     Stations.search := None; Stations.latitude := None;
     Stations.longitude := None; Stations.distance := None;
     Stations.easting := None; Stations.northing := None;
     Stations.view := "default"; Stations.limit := 5; Stations.offset := 0;
     Stations.format := "json" |}.

(** The same filters on the list endpoint. *)
Definition stations_with_unknown_filters : Stations.args :=
  {| Stations.station_id := None;
     Stations.rloi_id := None; Stations.wiski_id := None;
     Stations.station_guid := None;
     Stations.observed_property := Some "snowfall";
     Stations.status := Some "Dormant";
     Stations.search := None; Stations.latitude := None;
     Stations.longitude := None; Stations.distance := None;
     Stations.easting := None; Stations.northing := None;
     Stations.view := "default"; Stations.limit := 5; Stations.offset := 0;
     Stations.format := "json" |}.

(** A clock that advances five seconds between two readings. *)
Definition five_second_clock (k : nat) : Q := inject_Z (5 * Z.of_nat k).

(** A clock that advances a millisecond between two readings. *)
Definition millisecond_clock (k : nat) : Q := (Z.of_nat k # 1000).

(** A world that answers every request with a status document. *)
Definition quiet_world : world :=
  scripted (inr accepted) (fun _ => inr (status_response "Queued"))
    five_second_clock.

(** ** Vocabulary of the further properties *)

(** What an optional string argument puts on the wire: nothing when it
    is [None] or the empty string. *)
Definition str_param (x : option string) : option pval :=
  match x with
  | Some v => if nonempty v then Some (PStr v) else None
  | None => None
  end.

(** What an optional number puts on the wire: nothing when it is [None]
    or zero. *)
Definition float_param (x : option Q) : option pval :=
  match x with
  | Some q => if truthy_float x then Some (PFloat q) else None
  | None => None
  end.

Definition int_param (x : option Z) : option pval :=
  match x with
  | Some z => if truthy_int x then Some (PInt z) else None
  | None => None
  end.

(** Both coordinates of a point are given. *)
Definition both (a b : option Q) : bool :=
  match a, b with Some _, Some _ => true | _, _ => false end.

(** Every key of [params] is one of [keys]. *)
Definition keys_within (params : gmap string pval) (keys : list string) : Prop :=
  forall k, is_Some (params !! k) -> In k keys.

(** The query parameters [get_open_stations] assembles. *)
Definition open_stations_params (a : OpenStations.args) : gmap string pval :=
  let from_date_str := _format_date (OpenStations.from_date a) in
  let to_date_str := _format_date (OpenStations.to_date a) in
  let params : gmap string pval :=
    <["_offset" := PInt (OpenStations.offset a)]>
      (<["_limit" := PInt (OpenStations.limit a)]>
        (<["to" := PStr to_date_str]>
          (<["from" := PStr from_date_str]> ∅))) in
  let params := set_str "observedProperty" (OpenStations.observed_property a) params in
  let params := set_str "status.label" (OpenStations.status a) params in
  let params := set_str "search" (OpenStations.search a) params in
  let params := set_point "lat" "long" (OpenStations.latitude a)
                  (OpenStations.longitude a) (OpenStations.distance a) params in
  params.

(** The query parameters [get_measures] assembles on the list endpoint. *)
Definition measures_params (a : Measures.args) : gmap string pval :=
  let params : gmap string pval :=
    <["_view" := PStr (Measures.view a)]>
      (<["_limit" := PInt (Measures.limit a)]> ∅) in
  let params := set_str "station" (Measures.station_guid a) params in
  let params := set_str "station.wiskiID" (Measures.station_wiski_id a) params in
  let params := set_str "observedProperty" (Measures.observed_property a) params in
  let params := set_str "observationType" (Measures.observation_type a) params in
  params.

(** The query parameters [get_station_measures] assembles. *)
Definition station_measures_params (a : StationMeasures.args)
    : gmap string pval :=
  let params : gmap string pval :=
    <["_view" := PStr (StationMeasures.view a)]> ∅ in
  let params := set_str "observedProperty" (StationMeasures.observed_property a) params in
  let params := set_str "observationType" (StationMeasures.observation_type a) params in
  params.

(** The optional string filters of each accessor, each with the query
    parameter it is sent as. *)
Definition stations_filters (a : Stations.args) : list (string * option string) :=
  [ ("RLOIid", Stations.rloi_id a);
    ("wiskiID", Stations.wiski_id a);
    ("stationGuid", Stations.station_guid a);
    ("observedProperty", Stations.observed_property a);
    ("status.label", Stations.status a);
    ("search", Stations.search a) ].

Definition open_stations_filters (a : OpenStations.args)
    : list (string * option string) :=
  [ ("observedProperty", OpenStations.observed_property a);
    ("status.label", OpenStations.status a);
    ("search", OpenStations.search a) ].

Definition measures_filters (a : Measures.args) : list (string * option string) :=
  [ ("station", Measures.station_guid a);
    ("station.wiskiID", Measures.station_wiski_id a);
    ("observedProperty", Measures.observed_property a);
    ("observationType", Measures.observation_type a) ].

Definition station_measures_filters (a : StationMeasures.args)
    : list (string * option string) :=
  [ ("observedProperty", StationMeasures.observed_property a);
    ("observationType", StationMeasures.observation_type a) ].

Definition readings_filters (a : Readings.args) : list (string * option string) :=
  [ ("measure", Readings.measure_id a);
    ("station", Readings.station_guid a);
    ("station.RLOIid", Readings.station_rloi_id a);
    ("station.wiskiID", Readings.station_wiski_id a);
    ("observedProperty", Readings.observed_property a);
    ("observationType", Readings.observation_type a) ].

Definition batch_filters (a : Batch.args) : list (string * option string) :=
  [ ("station", Batch.station_guid a);
    ("station.RLOIid", Batch.station_rloi_id a);
    ("station.wiskiID", Batch.station_wiski_id a);
    ("observedProperty", Batch.observed_property a);
    ("observationType", Batch.observation_type a) ].

(** The four date filters of [get_batch_readings]. *)
Definition batch_date_filters (a : Batch.args)
    : list (string * option (string + datetime)) :=
  [ ("min-date", Batch.min_date a);
    ("max-date", Batch.max_date a);
    ("mineq-date", Batch.min_inclusive_date a);
    ("maxeq-date", Batch.max_inclusive_date a) ].

(** The keys each accessor can send. *)
Definition stations_keys : list string :=
  [ "_limit"; "_offset"; "_view"; "RLOIid"; "wiskiID"; "stationGuid";
    "observedProperty"; "status.label"; "search"; "lat"; "long"; "dist";
    "easting"; "northing" ].

Definition open_stations_keys : list string :=
  [ "from"; "to"; "_limit"; "_offset"; "observedProperty"; "status.label";
    "search"; "lat"; "long"; "dist" ].

Definition measures_keys : list string :=
  [ "_limit"; "_view"; "station"; "station.wiskiID"; "observedProperty";
    "observationType" ].

Definition station_measures_keys : list string :=
  [ "_view"; "observedProperty"; "observationType" ].

Definition readings_keys : list string :=
  [ "_limit"; "_view"; "measure"; "station"; "station.RLOIid";
    "station.wiskiID"; "observedProperty"; "observationType"; "date";
    "min-date"; "max-date"; "mineq-date"; "maxeq-date"; "earliest";
    "latest"; "period" ].

Definition batch_keys : list string :=
  [ "measure"; "station"; "station.RLOIid"; "station.wiskiID";
    "observedProperty"; "observationType"; "min-date"; "max-date";
    "mineq-date"; "maxeq-date" ].

(** The [k]-th GET, of [url] with [params], fails with [e]: in transport
    or by an error status. *)
Definition request_fails (w : world) (k : nat) (url : string)
    (params : option (gmap string pval)) (e : requests_exception) : Prop :=
  match w_get w k url params with
  | inl e' => e = e'
  | inr r => error_status r = true /\ e = HTTPError (status_code r)
  end.

(** The [k]-th GET, of [url] with [params], is answered with [r], which
    is no error status. *)
Definition request_answered (w : world) (k : nat) (url : string)
    (params : option (gmap string pval)) (r : response) : Prop :=
  w_get w k url params = inr r /\ error_status r = false.

(** [x] is absent, empty or one of [known]: [set_checked] logs nothing. *)
Definition recognised (x : option string) (known : list string) : bool :=
  match x with
  | Some v => negb (nonempty v) || py_in v known
  | None => true
  end.

(** The call [m] is one run of the request executor on [endpoint] with
    the query parameters [p], after warnings at most: the one GET it
    makes carries [p]. *)
Definition requests_with (w : world) (self : HydrologyAPI) (m : M result)
    (endpoint format : string) (p : gmap string pval) : Prop :=
  forall s, exists evs : list event,
    forallb is_warning evs = true
    /\ m s = _make_request w self endpoint format (Some p) (after s 0 0 0 evs)
    /\ trace (snd (m s))
       = (trace s ++ evs
          ++ [EGet (base_url self +:+ endpoint +:+ "." +:+ format) (Some p)
                (self_timeout self)])%list.

(** Every run of [get_batch_readings] on [a] begins with the POST of the
    form data [p] to /data/batch.json. *)
Definition submits_form (w : world) (self : HydrologyAPI) (a : Batch.args)
    (p : gmap string pval) : Prop :=
  forall fuel s, exists evs : list event,
    trace (snd (get_batch_readings w self fuel a s))
    = (trace s ++ EPost (base_url self +:+ "/data/batch.json") p
                    (self_timeout self) :: evs)%list.

(** [m] makes exactly one GET and ends in a value, in the client's own
    error or, only where [simplejson] can be imported, in the decode
    error of [requests]. *)
Definition one_request {A} (w : world) (m : M A) : Prop :=
  (forall s, match fst (m s) with
             | Ret _ => True
             | Raise e =>
                 (exists msg, e = HydrologyAPIError msg)
                 \/ (w_simplejson w = true /\ e = Requests JSONDecodeError)
             | OutOfFuel => False
             end)
  /\ forall s, gets (snd (m s)) = (gets s + 1)%nat.

(** The [k]-th GET, of [url], answers decodable JSON that is not an
    object. *)
Definition poll_reports_no_object (w : world) (k : nat) (url : string)
    (j : json) : Prop :=
  (exists r,
     w_get w k url None = inr r /\
     error_status r = false /\
     resp_json r = Some j)
  /\ match j with JDict _ => False | _ => True end.

(** The number of sleeps in a trace. *)
Definition sleeps (evs : list event) : nat :=
  length (List.filter is_sleep evs).

(** Every event [m] adds to the trace satisfies [P]. *)
Definition emits {A} (P : event -> Prop) (m : M A) : Prop :=
  forall s, exists evs : list event,
    trace (snd (m s)) = (trace s ++ evs)%list /\ Forall P evs.

(** Every exception [m] ends in satisfies [P]. *)
Definition raises {A} (P : exn -> Prop) (m : M A) : Prop :=
  forall s, match fst (m s) with Raise e => P e | _ => True end.

(** Anything but an exception of [requests]. *)
Definition not_requests_exception (e : exn) : Prop :=
  match e with Requests _ => False | _ => True end.

(** The events of the poll loop: readings of the clock, GETs of the
    status URL alone, without parameters and with the client's timeout,
    progress messages, and sleeps of the poll interval. *)
Definition poll_event (self : HydrologyAPI) (url : string)
    (poll_interval : Z) (e : event) : Prop :=
  match e with
  | ETime => True
  | EInfo _ => True
  | EGet u params t => u = url /\ params = None /\ t = self_timeout self
  | ESleep secs => secs = poll_interval
  | EPost _ _ _ => False
  | EWarning _ => False
  end.

Definition is_post (e : event) : bool :=
  match e with EPost _ _ _ => true | _ => false end.

(** A status document that is decodable JSON but not an object. *)
Definition status_list_response : response :=
  {| status_code := 200; headers := []; text := "";
     resp_json := Some (JList [JStr "Queued"]) |}.

(** A clock that stands still. *)
Definition frozen_clock (k : nat) : Q := 0%Q.

(** A batch request with a negative poll interval. *)
Definition negative_interval : Batch.args :=
  {| Batch.measure_ids := Some ["measure-1"];
     Batch.station_guid := None; Batch.station_rloi_id := None;
     Batch.station_wiski_id := None; Batch.observed_property := None;
     Batch.observation_type := None; Batch.min_date := None;
     Batch.max_date := None; Batch.min_inclusive_date := None;
     Batch.max_inclusive_date := None; Batch.format := "csv";
     Batch.poll_interval := -1; Batch.max_wait_time := 3600 |}.

(** A measures lookup by identifier that also passes filters. *)
Definition single_measure_with_filters : Measures.args :=
  {| Measures.measure_id := Some "measure-1";
     Measures.station_guid := Some "station-1";
     Measures.station_wiski_id := None;
     Measures.observed_property := Some "waterFlow";
     Measures.observation_type := Some "Qualified";
     Measures.view := "full"; Measures.limit := 5;
     Measures.format := "json" |}.


(** A search for stations around a point. *)
Definition stations_near_point : Stations.args :=
  {| Stations.station_id := None;
     Stations.rloi_id := None; Stations.wiski_id := None;
     Stations.station_guid := None;
     Stations.observed_property := None;
     Stations.status := None;
     Stations.search := None; Stations.latitude := Some (515 # 10);
     Stations.longitude := Some (- 1 # 10); Stations.distance := Some 10%Q;
     Stations.easting := Some 530000%Q; Stations.northing := None;
     Stations.view := "default"; Stations.limit := 100; Stations.offset := 0;
     Stations.format := "json" |}.

(** A batch request with dates of both kinds. *)
Definition batch_with_dates : Batch.args :=
  {| Batch.measure_ids := Some ["measure-1"; "measure-2"];
     Batch.station_guid := None; Batch.station_rloi_id := None;
     Batch.station_wiski_id := None; Batch.observed_property := None;
     Batch.observation_type := None;
     Batch.min_date :=
       Some (inr {| year := 2023; month := 12; day := 31;
                    hour := 23; minute := 59; second := 59 |});
     Batch.max_date := Some (inl "2024-06-30");
     Batch.min_inclusive_date := None;
     Batch.max_inclusive_date := None; Batch.format := "csv";
     Batch.poll_interval := 5; Batch.max_wait_time := 3600 |}.

(** ** The monad and the primitive effects *)

Lemma bind_ret {A B} (a : A) (k : A -> M B) s : bind (ret a) k s = k a s.
Proof. reflexivity. Qed.

Lemma bind_run {A B} (m : M A) (k : A -> M B) s a s' :
  m s = (Ret a, s') -> bind m k s = k a s'.
Proof. intros H. unfold bind. now rewrite H. Qed.

Lemma json_eq_str_spec v t : json_eq_str v t = true <-> v = JStr t.
Proof.
  destruct v; simpl; try (split; [discriminate | intros [=]]).
  rewrite String.eqb_eq. split; [intros -> | intros [=]]; congruence.
Qed.

Lemma json_eq_str_false v t : v <> JStr t -> json_eq_str v t = false.
Proof.
  intros H. destruct (json_eq_str v t) eqn:E; [|reflexivity].
  apply json_eq_str_spec in E. contradiction.
Qed.

Lemma Qgtb_true x y : Qgtb x y = true <-> (y < x)%Q.
Proof.
  unfold Qgtb. rewrite negb_true_iff, <- not_true_iff_false, Qle_bool_iff.
  split; [apply Qnot_le_lt | apply Qlt_not_le].
Qed.

Lemma Qgtb_false x y : Qgtb x y = false <-> (x <= y)%Q.
Proof. unfold Qgtb. now rewrite negb_false_iff, Qle_bool_iff. Qed.

(** ** The request executor *)

Section RequestExecutor.
Context (w : world) (self : HydrologyAPI).

(** The [try] block of [_make_request], when the GET is answered with a
    non-error status. *)
Lemma make_request_answered endpoint format params s r :
  w_get w (gets s) (request_url self endpoint format) params = inr r ->
  error_status r = false ->
  _make_request w self endpoint format params s
  = (if String.eqb format "json"
     then try_except (bind (response_json r) (fun j => ret (RJson j)))
            (except_JSONDecodeError w "Failed to parse JSON response: ")
     else ret (RText (text r)))
      (after s 1 0 0 [EGet (request_url self endpoint format) params
                        (self_timeout self)]).
Proof.
  intros Hget Hok.
  assert (Hs : {| gets := S (gets s); posts := posts s;
                  clock_reads := clock_reads s;
                  trace := trace s ++ [EGet (request_url self endpoint format)
                                         params (self_timeout self)] |}
               = after s 1 0 0 [EGet (request_url self endpoint format) params
                                  (self_timeout self)]).
  { unfold after. f_equal; lia. }
  unfold _make_request.
  erewrite bind_run; cycle 1.
  { unfold try_except, bind, session_get, raise_for_status, ret.
    rewrite Hget, Hok. cbn. rewrite Hs. reflexivity. }
  destruct (String.eqb format "json"); [reflexivity|].
  destruct (String.eqb format "csv"); reflexivity.
Qed.

(** A transport failure or an error status is raised as the client's
    own error, whatever the format. *)
Lemma make_request_transport_failure endpoint format params s e :
  w_get w (gets s) (request_url self endpoint format) params = inl e ->
  fst (_make_request w self endpoint format params s)
  = Raise (HydrologyAPIError [Lit "API request failed: "; FExc e]).
Proof.
  intros Hget. unfold _make_request, bind, try_except, session_get.
  rewrite Hget. reflexivity.
Qed.

End RequestExecutor.

(** Where [simplejson] cannot be imported, and the GET is answered (no
    transport failure, no error status): with format "json" and a body
    that is not decodable JSON the call raises the client's error with
    the message "Failed to parse JSON response: ..." (the spec's
    DecodeError; the code has the one class HydrologyAPIError); with
    format "csv" it returns the text of the response, unchanged. *)
Lemma make_request_json_malformed_csv_unchanged
    (w : world) (self : HydrologyAPI) (endpoint : string)
    (params : option (gmap string pval)) (s : state) (rj rc : response) :
  w_simplejson w = false ->
  w_get w (gets s) (request_url self endpoint "json") params = inr rj ->
  error_status rj = false ->
  resp_json rj = None ->
  w_get w (gets s) (request_url self endpoint "csv") params = inr rc ->
  error_status rc = false ->
  fst (_make_request w self endpoint "json" params s)
  = Raise (HydrologyAPIError
             [Lit "Failed to parse JSON response: "; FExc JSONDecodeError])
  /\ fst (_make_request w self endpoint "csv" params s) = Ret (RText (text rc)).
Proof.
  intros Hstd Hj Hjok Hbad Hc Hcok. split.
  - rewrite (make_request_answered w self _ _ _ _ _ Hj Hjok). cbn.
    unfold try_except, bind, response_json. rewrite Hbad. cbn.
    rewrite Hstd. reflexivity.
  - rewrite (make_request_answered w self _ _ _ _ _ Hc Hcok). reflexivity.
Qed.

(** Where [simplejson] can be imported, [except json.JSONDecodeError]
    does not match the decode error of [requests]: with format "json"
    and a body that is not decodable JSON the call ends in that error
    itself, after its one GET. *)
Lemma make_request_json_malformed_with_simplejson
    (w : world) (self : HydrologyAPI) (endpoint : string)
    (params : option (gmap string pval)) (s : state) (r : response) :
  w_simplejson w = true ->
  w_get w (gets s) (request_url self endpoint "json") params = inr r ->
  error_status r = false ->
  resp_json r = None ->
  _make_request w self endpoint "json" params s
  = (Raise (Requests JSONDecodeError),
     after s 1 0 0 [EGet (request_url self endpoint "json") params
                      (self_timeout self)]).
Proof.
  intros Hsj Hget Hok Hbad.
  rewrite (make_request_answered w self _ _ _ _ _ Hget Hok). cbn.
  unfold try_except, bind, response_json. rewrite Hbad. cbn.
  rewrite Hsj. reflexivity.
Qed.

(** C6. The code does not keep this claim where [simplejson] can be
    imported. A readings request asked as "json" and answered, with
    status 200, by a body that is not JSON ends in
    [requests.exceptions.JSONDecodeError], not in the client's error:
    the handler of line 89 names [json.JSONDecodeError], which that
    exception is not an instance of there. Asked as "csv" the same
    answer is returned as its text. *)
Theorem make_request_decode_error_escapes_with_simplejson :
  _make_request
    (with_simplejson
       (scripted (inr accepted) (fun _ => inr csv_response) five_second_clock))
    new_client "/data/readings" "json" None initial
  = (Raise (Requests JSONDecodeError),
     after initial 1 0 0
       [EGet "http://environment.data.gov.uk/hydrology/data/readings.json"
          None 30])
  /\ fst (_make_request
            (with_simplejson
               (scripted (inr accepted) (fun _ => inr csv_response)
                  five_second_clock))
            new_client "/data/readings" "csv" None initial)
     = Ret (RText "dateTime,value").
Proof.
  split.
  - apply (make_request_json_malformed_with_simplejson
             (with_simplejson
                (scripted (inr accepted) (fun _ => inr csv_response)
                   five_second_clock))
             new_client "/data/readings" None initial csv_response);
      reflexivity.
  - reflexivity.
Qed.

(** ** States and effects in normal form *)

Lemma after_after s g p c evs g' p' c' evs' :
  after (after s g p c evs) g' p' c' evs'
  = after s (g + g') (p + p') (c + c') (evs ++ evs').
Proof. unfold after; cbn. f_equal; try lia. now rewrite app_assoc. Qed.

Lemma after_nothing s : after s 0 0 0 [] = s.
Proof.
  destruct s; unfold after; cbn. f_equal; try lia. apply app_nil_r.
Qed.

Section Effects.
Context (w : world) (self : HydrologyAPI).

Lemma time_time_run s :
  time_time w s = (Ret (w_time w (clock_reads s)), after s 0 0 1 [ETime]).
Proof. unfold time_time, after. repeat f_equal; lia. Qed.

Lemma emit_run e s : emit e s = (Ret tt, after s 0 0 0 [e]).
Proof. unfold emit, after. repeat f_equal; lia. Qed.

Lemma session_get_run url params t s :
  session_get w url params t s
  = (match w_get w (gets s) url params with
     | inl e => Raise (Requests e)
     | inr r => Ret r
     end, after s 1 0 0 [EGet url params t]).
Proof.
  unfold session_get, after.
  destruct (w_get w (gets s) url params); repeat f_equal; lia.
Qed.

Lemma session_post_run url data t s :
  session_post w url data t s
  = (match w_post w (posts s) url data with
     | inl e => Raise (Requests e)
     | inr r => Ret r
     end, after s 0 1 0 [EPost url data t]).
Proof.
  unfold session_post, after.
  destruct (w_post w (posts s) url data); repeat f_equal; lia.
Qed.

(** The [try] block of the poll loop, by the answer of the GET. *)
Lemma poll_try_reports url s k items :
  gets s = k ->
  poll_reports w k url items ->
  try_except
    (bind (session_get w url None (self_timeout self))
       (fun r => bind (raise_for_status r) (fun _ => response_json r)))
    (except_RequestException "Failed to check batch status: ") s
  = (Ret (JDict items), after s 1 0 0 [EGet url None (self_timeout self)]).
Proof.
  intros <- (r & Hget & Hok & Hjson).
  unfold try_except, bind. rewrite session_get_run, Hget.
  unfold raise_for_status, response_json. rewrite Hok, Hjson. reflexivity.
Qed.

Lemma poll_try_fails url s k e :
  gets s = k ->
  poll_fails w k url e ->
  try_except
    (bind (session_get w url None (self_timeout self))
       (fun r => bind (raise_for_status r) (fun _ => response_json r)))
    (except_RequestException "Failed to check batch status: ") s
  = (Raise (status_check_failed e),
     after s 1 0 0 [EGet url None (self_timeout self)]).
Proof.
  unfold poll_fails. intros <- H.
  unfold try_except, bind. rewrite session_get_run.
  destruct (w_get w (gets s) url None) as [e'|r].
  - subst e'. reflexivity.
  - unfold raise_for_status, response_json.
    destruct H as [[Herr ->] | (Hok & Hjson & ->)].
    + rewrite Herr. reflexivity.
    + rewrite Hok, Hjson. reflexivity.
Qed.

End Effects.

(** ** One iteration of the poll loop *)

Section PollStep.
Context (w : world) (self : HydrologyAPI).
Context (url : string) (start : Q) (poll_interval max_wait_time : Z).

Abbreviation loop fuel :=
  (poll_loop w self fuel url start poll_interval max_wait_time).
Abbreviation get_event := (EGet url None (self_timeout self)).

Lemma poll_step_timeout fuel s :
  (inject_Z max_wait_time < elapsed_at w start (clock_reads s))%Q ->
  loop (S fuel) s = (Raise (timed_out max_wait_time), after s 0 0 1 [ETime]).
Proof.
  intros Hlate. apply Qgtb_true in Hlate. unfold elapsed_at in Hlate.
  cbn [poll_loop]. unfold bind at 1. rewrite time_time_run, Hlate.
  reflexivity.
Qed.

Lemma poll_step_completed fuel s items :
  (elapsed_at w start (clock_reads s) <= inject_Z max_wait_time)%Q ->
  poll_reports w (gets s) url items ->
  status_is items "Completed" ->
  loop (S fuel) s = (Ret (JDict items), after s 1 0 1 [ETime; get_event]).
Proof.
  intros Hin Hrep Hst. apply Qgtb_false in Hin. unfold elapsed_at in Hin.
  cbn [poll_loop]. unfold bind at 1. rewrite time_time_run, Hin.
  unfold bind at 1. rewrite (poll_try_reports w self url _ (gets s) items).
  2: cbn; lia. 2: exact Hrep.
  cbn [json_get]. rewrite bind_ret, Hst. cbn [json_eq_str].
  rewrite String.eqb_refl. unfold ret. now rewrite after_after.
Qed.

Lemma poll_step_failed fuel s items :
  (elapsed_at w start (clock_reads s) <= inject_Z max_wait_time)%Q ->
  poll_reports w (gets s) url items ->
  status_is items "Failed" ->
  loop (S fuel) s
  = (Raise (batch_failed (JDict items)), after s 1 0 1 [ETime; get_event]).
Proof.
  intros Hin Hrep Hst. apply Qgtb_false in Hin. unfold elapsed_at in Hin.
  cbn [poll_loop]. unfold bind at 1. rewrite time_time_run, Hin.
  unfold bind at 1. rewrite (poll_try_reports w self url _ (gets s) items).
  2: cbn; lia. 2: exact Hrep.
  cbn [json_get]. rewrite bind_ret, Hst. cbn.
  unfold raise, batch_failed. now rewrite after_after.
Qed.

Lemma poll_step_get_fails fuel s e :
  (elapsed_at w start (clock_reads s) <= inject_Z max_wait_time)%Q ->
  poll_fails w (gets s) url e ->
  loop (S fuel) s
  = (Raise (status_check_failed e), after s 1 0 1 [ETime; get_event]).
Proof.
  intros Hin Hfail. apply Qgtb_false in Hin. unfold elapsed_at in Hin.
  cbn [poll_loop]. unfold bind at 1. rewrite time_time_run, Hin.
  unfold bind at 1. rewrite (poll_try_fails w self url _ (gets s) e).
  2: cbn; lia. 2: exact Hfail.
  now rewrite after_after.
Qed.

Lemma poll_step_pending fuel s items :
  (elapsed_at w start (clock_reads s) <= inject_Z max_wait_time)%Q ->
  poll_reports w (gets s) url items ->
  pending items ->
  0 <= poll_interval ->
  loop (S fuel) s
  = loop fuel (after s 1 0 1 (pending_events self url poll_interval items)).
Proof.
  intros Hin Hrep [Hnc Hnf] Hpi.
  apply Qgtb_false in Hin. unfold elapsed_at in Hin.
  cbn [poll_loop]. unfold bind at 1. rewrite time_time_run, Hin.
  unfold bind at 1. rewrite (poll_try_reports w self url _ (gets s) items).
  2: cbn; lia. 2: exact Hrep.
  cbn [json_get]. rewrite bind_ret.
  rewrite (json_eq_str_false _ _ Hnc), (json_eq_str_false _ _ Hnf).
  rewrite bind_ret. unfold logger_info, time_sleep.
  unfold bind at 1. rewrite emit_run.
  destruct (Z.ltb_spec poll_interval 0) as [?|_]; [lia|].
  unfold bind at 1. rewrite emit_run.
  rewrite !after_after. reflexivity.
Qed.

End PollStep.

(** ** The poll loop over several iterations *)

Lemma after_eq s g p c evs g' p' c' evs' :
  g = g' -> p = p' -> c = c' -> evs = evs' ->
  after s g p c evs = after s g' p' c' evs'.
Proof. now intros -> -> -> ->. Qed.

Lemma pending_run_weaken w url start mw g0 c0 pend n m :
  (m <= n)%nat ->
  pending_run w url start mw g0 c0 pend n ->
  pending_run w url start mw g0 c0 pend m.
Proof. intros Hle H i Hi. apply H. lia. Qed.

(** The least index at which a decidable property holds. *)
Lemma least_index (P : nat -> Prop) (dec : forall i, {P i} + {~ P i}) :
  forall k, P k ->
  exists n, (n <= k)%nat /\ P n /\ forall i, (i < n)%nat -> ~ P i.
Proof.
  intros k. revert P dec. induction k as [|k IH]; intros P dec Hk.
  - exists 0%nat. repeat split; [lia | assumption | intros i Hi; lia].
  - destruct (dec 0%nat) as [H0|H0].
    + exists 0%nat. repeat split; [lia | assumption | intros i Hi; lia].
    + destruct (IH (fun i => P (S i)) (fun i => dec (S i)) Hk)
        as (n & Hn & HPn & Hmin).
      exists (S n). repeat split; [lia | assumption |].
      intros [|i] Hi; [assumption | apply Hmin; lia].
Qed.

(** The difference of two readings on one grid is a float: the
    subtraction of the source returns it unrounded. *)
Lemma on_grid_difference e x y :
  on_grid e x -> on_grid e y -> binary64_exact (x - y).
Proof.
  intros [He (mx & Hmx & Hx)] [_ (my & Hmy & Hy)].
  exists (mx - my), e. split; [exact He|]. split; [lia|].
  replace (mx - my) with (mx + - my) by lia.
  rewrite inject_Z_plus, inject_Z_opp, <- Hx, <- Hy.
  ring.
Qed.

Section PollRun.
Context (w : world) (self : HydrologyAPI).
Context (url : string) (start : Q) (poll_interval max_wait_time : Z).

Abbreviation run fuel :=
  (poll_loop w self fuel url start poll_interval max_wait_time).

(** [n] pending iterations use up [n] units of fuel, [n] GETs and [n]
    clock readings. *)
Lemma poll_loop_pending pend n : forall fuel s,
  pending_run w url start max_wait_time (gets s) (clock_reads s) pend n ->
  ((0 < n)%nat -> 0 <= poll_interval) ->
  run (n + fuel)%nat s
  = run fuel (after s n 0 n (polling_trace self url poll_interval pend n)).
Proof.
  induction n as [|n IH]; intros fuel s Hrun Hpi.
  - cbn [polling_trace Nat.add]. now rewrite after_nothing.
  - replace (S n + fuel)%nat with (n + S fuel)%nat by lia.
    rewrite IH.
    2: { eapply pending_run_weaken; [|exact Hrun]. lia. }
    2: { intros _. apply Hpi. lia. }
    destruct (Hrun n) as (Hin & Hrep & Hpend); [lia|].
    rewrite (poll_step_pending w self url start _ _ fuel _ (pend n)).
    + rewrite after_after. cbn [polling_trace].
      f_equal. apply after_eq; try lia. reflexivity.
    + exact Hin.
    + exact Hrep.
    + exact Hpend.
    + apply Hpi. lia.
Qed.

End PollRun.

(** ** Submission *)

Section Submission.
Context (w : world) (self : HydrologyAPI) (a : Batch.args).

(** An accepted submission enters the loop with [start_time] read. *)
Lemma get_batch_readings_submitted fuel s url :
  submitted w self a s url ->
  get_batch_readings w self fuel a s
  = poll_loop w self fuel url (w_time w (clock_reads s))
      (Batch.poll_interval a) (Batch.max_wait_time a)
      (after s 0 1 1 (submit_events self a)).
Proof.
  intros (r & Hpost & Hok & Hloc & Hne).
  unfold get_batch_readings.
  erewrite bind_run; cycle 1.
  { unfold try_except, bind. rewrite session_post_run, Hpost.
    unfold raise_for_status. rewrite Hok. reflexivity. }
  rewrite Hloc. cbn [truthy_str default]. rewrite Hne. cbn [negb].
  unfold bind at 1. rewrite time_time_run, after_after.
  cbn [clock_reads after]. rewrite Nat.add_0_r. reflexivity.
Qed.

(** A submission that is not accepted raises at once, after the POST
    alone. *)
Lemma get_batch_readings_rejected fuel s :
  submission_fails w self a s ->
  exists msg,
    get_batch_readings w self fuel a s
    = (Raise (HydrologyAPIError msg),
       after s 0 1 0 [EPost (batch_url self) (batch_params a)
                        (self_timeout self)])
    /\ (msg = [Lit "No status URL provided in batch response"]
        \/ exists e, msg = [Lit "Failed to submit batch request: "; FExc e]).
Proof.
  unfold submission_fails. intros H.
  unfold get_batch_readings, bind at 1, try_except, bind at 1.
  rewrite session_post_run.
  destruct (w_post w (posts s) (batch_url self) (batch_params a)) as [e|r].
  - eexists. split; [reflexivity|]. right. eauto.
  - unfold raise_for_status.
    destruct (error_status r) eqn:Herr.
    + eexists. split; [reflexivity|]. right. eauto.
    + destruct H as [H|H]; [discriminate|].
      cbn. rewrite H. cbn. eexists. split; [reflexivity|]. now left.
Qed.

Lemma submitted_or_rejected s :
  (exists url, submitted w self a s url) \/ submission_fails w self a s.
Proof.
  unfold submitted, submission_fails.
  destruct (w_post w (posts s) (batch_url self) (batch_params a)) as [e|r].
  - now right.
  - destruct (error_status r) eqn:Herr; [right; now left|].
    destruct (headers_get (headers r) "Location") as [u|] eqn:Hloc.
    + destruct (nonempty u) eqn:Hne.
      * left. exists u, r. auto.
      * right. right. cbn. exact Hne.
    + right. now right.
Qed.

End Submission.

(** ** The batch workflow *)

(** Bring the index of a clock reading, met as a projection of a state
    built with [after], to the form the statements use. *)
Ltac clock_index s n :=
  cbn [gets clock_reads after];
  replace (clock_reads s + (n + 1))%nat with (clock_reads s + 1 + n)%nat by lia.

Section BatchWorkflow.
Context (w : world) (self : HydrologyAPI) (a : Batch.args) (s : state).

Abbreviation start_time := (w_time w (clock_reads s)).

(** An accepted submission followed by [n] pending polls. *)
Lemma get_batch_readings_pending fuel url pend n :
  submitted w self a s url ->
  pending_run w url start_time (Batch.max_wait_time a)
    (gets s) (clock_reads s + 1) pend n ->
  ((0 < n)%nat -> 0 <= Batch.poll_interval a) ->
  get_batch_readings w self (n + fuel) a s
  = poll_loop w self fuel url start_time
      (Batch.poll_interval a) (Batch.max_wait_time a)
      (after s n 1 (n + 1)
         (submit_events self a
          ++ polling_trace self url (Batch.poll_interval a) pend n)).
Proof.
  intros Hsub Hrun Hpi.
  rewrite (get_batch_readings_submitted w self a _ s url Hsub).
  rewrite (poll_loop_pending w self url _ _ _ pend n); [| |exact Hpi].
  - rewrite after_after. f_equal. apply after_eq; try lia. reflexivity.
  - cbn [gets clock_reads after]. now rewrite Nat.add_0_r.
Qed.

End BatchWorkflow.

(** C1. When the submission is accepted and the first poll of the status
    URL is made (the deadline check before it passes) and reports the
    status "Completed", [get_batch_readings] returns that status payload
    at once: its only effects are the POST, the two clock readings and
    the one GET, and none of them is a sleep. *)
Theorem completed_on_first_poll_returns_without_sleep
    (w : world) (self : HydrologyAPI) (a : Batch.args) (s : state)
    (url : string) (items : list (string * json)) (fuel : nat) :
  submitted w self a s url ->
  (elapsed_at w (w_time w (clock_reads s)) (clock_reads s + 1)
   <= inject_Z (Batch.max_wait_time a))%Q ->
  poll_reports w (gets s) url items ->
  status_is items "Completed" ->
  get_batch_readings w self (S fuel) a s
  = (Ret (JDict items),
     after s 1 1 2
       (submit_events self a ++ [ETime; EGet url None (self_timeout self)]))
  /\ existsb is_sleep
       (submit_events self a ++ [ETime; EGet url None (self_timeout self)])
     = false.
Proof.
  intros Hsub Hin Hrep Hst. split; [|reflexivity].
  rewrite (get_batch_readings_submitted w self a _ s url Hsub).
  rewrite (poll_step_completed w self url _ _ _ fuel _ items).
  - now rewrite after_after.
  - exact Hin.
  - cbn [gets after]. now rewrite Nat.add_0_r.
  - exact Hst.
Qed.

(** C2. When the submission is accepted, every poll finds a status that
    is neither "Completed" nor "Failed", and the elapsed time since
    [start_time] exceeds [max_wait_time] at some reading of the clock,
    [get_batch_readings] raises the client's error with the message
    "Batch request timed out after <max_wait_time> seconds" (the spec's
    BatchTimeoutError). It does so at the first reading past the
    deadline and at no other: [n] polls are made, the reading before
    each of them is within the deadline and the reading after them is
    past it, and no amount of fuel beyond [n + 1] iterations changes
    that. The readings of the clock are floats on one binary grid, so
    that every elapsed time the loop compares is the exact difference
    of two readings. *)
Theorem never_terminal_status_times_out
    (w : world) (self : HydrologyAPI) (a : Batch.args) (s : state)
    (url : string) (pend : nat -> list (string * json)) (k e : nat) :
  submitted w self a s url ->
  (forall i, poll_reports w (gets s + i) url (pend i) /\ pending (pend i)) ->
  0 <= Batch.poll_interval a ->
  (forall i, (i <= k + 1)%nat -> on_grid e (w_time w (clock_reads s + i))) ->
  (inject_Z (Batch.max_wait_time a)
   < elapsed_at w (w_time w (clock_reads s)) (clock_reads s + 1 + k))%Q ->
  exists n, (n <= k)%nat
    /\ (inject_Z (Batch.max_wait_time a)
        < elapsed_at w (w_time w (clock_reads s)) (clock_reads s + 1 + n))%Q
    /\ (forall i, (i < n)%nat ->
          (elapsed_at w (w_time w (clock_reads s)) (clock_reads s + 1 + i)
           <= inject_Z (Batch.max_wait_time a))%Q)
    /\ (forall i, (i <= n)%nat ->
          binary64_exact
            (elapsed_at w (w_time w (clock_reads s)) (clock_reads s + 1 + i)))
    /\ forall fuel,
      get_batch_readings w self (n + S fuel) a s
      = (Raise (timed_out (Batch.max_wait_time a)),
         after s n 1 (n + 2)
           (submit_events self a
            ++ polling_trace self url (Batch.poll_interval a) pend n
            ++ [ETime])).
Proof.
  intros Hsub Hpolls Hpi Hgrid Hlate.
  set (late := fun i =>
    (inject_Z (Batch.max_wait_time a)
     < elapsed_at w (w_time w (clock_reads s)) (clock_reads s + 1 + i))%Q).
  destruct (least_index late) with (k := k) as (n & Hn & Hlate_n & Hmin).
  { intros i. unfold late.
    destruct (Qlt_le_dec (inject_Z (Batch.max_wait_time a))
                (elapsed_at w (w_time w (clock_reads s)) (clock_reads s + 1 + i)))
      as [H|H]; [now left | right; now apply Qle_not_lt]. }
  { exact Hlate. }
  assert (Hwithin : forall i, (i < n)%nat ->
            (elapsed_at w (w_time w (clock_reads s)) (clock_reads s + 1 + i)
             <= inject_Z (Batch.max_wait_time a))%Q).
  { intros i Hi. apply Qnot_lt_le. exact (Hmin i Hi). }
  exists n. split; [exact Hn|]. split; [exact Hlate_n|].
  split; [exact Hwithin|]. split.
  { intros i Hi. unfold elapsed_at.
    apply (on_grid_difference e).
    - replace (clock_reads s + 1 + i)%nat with (clock_reads s + (1 + i))%nat
        by lia.
      apply Hgrid. lia.
    - rewrite <- (Nat.add_0_r (clock_reads s)). apply Hgrid. lia. }
  intros fuel.
  rewrite (get_batch_readings_pending w self a s _ url pend n Hsub).
  - rewrite (poll_step_timeout w self url _ _ _ fuel).
    + rewrite after_after. f_equal. apply after_eq; try lia.
      now rewrite <- app_assoc.
    + clock_index s n. exact Hlate_n.
  - intros i Hi. destruct (Hpolls i) as [Hrep Hpend].
    repeat split; try assumption; try apply Hpend.
    now apply Hwithin.
  - intros _. exact Hpi.
Qed.

(** C3. When the submission is not accepted (the POST fails in
    transport, or answers an error status, or its response has no
    [Location] header, or an empty one), [get_batch_readings] raises the
    client's error with one of the two submission messages (the spec's
    BatchSubmissionError), whatever the fuel, and its only effect is the
    POST: no GET of any URL is made. *)
Theorem rejected_submission_makes_no_poll
    (w : world) (self : HydrologyAPI) (a : Batch.args) (s : state) (fuel : nat) :
  submission_fails w self a s ->
  exists msg,
    get_batch_readings w self fuel a s
    = (Raise (HydrologyAPIError msg),
       after s 0 1 0 [EPost (batch_url self) (batch_params a) (self_timeout self)])
    /\ (msg = [Lit "No status URL provided in batch response"]
        \/ exists e, msg = [Lit "Failed to submit batch request: "; FExc e])
    /\ gets (snd (get_batch_readings w self fuel a s)) = gets s
    /\ existsb is_get
         [EPost (batch_url self) (batch_params a) (self_timeout self)] = false.
Proof.
  intros H.
  destruct (get_batch_readings_rejected w self a fuel s H) as (msg & Hrun & Hmsg).
  exists msg. rewrite Hrun. repeat split; try assumption.
  cbn. lia.
Qed.

(** C4. When the submission is accepted and, after [n] pending polls, a
    poll reports the status "Failed", [get_batch_readings] raises the
    client's error whose message is "Batch request failed: " followed by
    the status payload the server reported (the spec's
    BatchFailedError). *)
Theorem failed_status_raises_with_payload
    (w : world) (self : HydrologyAPI) (a : Batch.args) (s : state)
    (url : string) (pend : nat -> list (string * json)) (n : nat)
    (items : list (string * json)) (fuel : nat) :
  submitted w self a s url ->
  pending_run w url (w_time w (clock_reads s)) (Batch.max_wait_time a)
    (gets s) (clock_reads s + 1) pend n ->
  ((0 < n)%nat -> 0 <= Batch.poll_interval a) ->
  (elapsed_at w (w_time w (clock_reads s)) (clock_reads s + 1 + n)
   <= inject_Z (Batch.max_wait_time a))%Q ->
  poll_reports w (gets s + n) url items ->
  status_is items "Failed" ->
  get_batch_readings w self (n + S fuel) a s
  = (Raise (HydrologyAPIError [Lit "Batch request failed: "; FJson (JDict items)]),
     after s (n + 1) 1 (n + 2)
       (submit_events self a
        ++ polling_trace self url (Batch.poll_interval a) pend n
        ++ [ETime; EGet url None (self_timeout self)])).
Proof.
  intros Hsub Hrun Hpi Hin Hrep Hst.
  rewrite (get_batch_readings_pending w self a s _ url pend n Hsub Hrun Hpi).
  rewrite (poll_step_failed w self url _ _ _ fuel _ items).
  - rewrite after_after. f_equal. apply after_eq; try lia.
    now rewrite <- app_assoc.
  - clock_index s n. exact Hin.
  - exact Hrep.
  - exact Hst.
Qed.

(** C5. In any iteration of the poll loop (after [n] pending polls), when
    the GET of the status URL fails, in transport, by an error status or
    by a body that is not JSON, [get_batch_readings] raises the client's
    error with the message "Failed to check batch status: ..." (the
    spec's BatchStatusError) at once: the failing GET is the last effect,
    so the poll is not tried again. *)
Theorem poll_failure_surfaces_without_retry
    (w : world) (self : HydrologyAPI) (a : Batch.args) (s : state)
    (url : string) (pend : nat -> list (string * json)) (n : nat)
    (e : requests_exception) (fuel : nat) :
  submitted w self a s url ->
  pending_run w url (w_time w (clock_reads s)) (Batch.max_wait_time a)
    (gets s) (clock_reads s + 1) pend n ->
  ((0 < n)%nat -> 0 <= Batch.poll_interval a) ->
  (elapsed_at w (w_time w (clock_reads s)) (clock_reads s + 1 + n)
   <= inject_Z (Batch.max_wait_time a))%Q ->
  poll_fails w (gets s + n) url e ->
  get_batch_readings w self (n + S fuel) a s
  = (Raise (HydrologyAPIError [Lit "Failed to check batch status: "; FExc e]),
     after s (n + 1) 1 (n + 2)
       (submit_events self a
        ++ polling_trace self url (Batch.poll_interval a) pend n
        ++ [ETime; EGet url None (self_timeout self)])).
Proof.
  intros Hsub Hrun Hpi Hin Hfail.
  rewrite (get_batch_readings_pending w self a s _ url pend n Hsub Hrun Hpi).
  rewrite (poll_step_get_fails w self url _ _ _ fuel _ e).
  - rewrite after_after. f_equal. apply after_eq; try lia.
    now rewrite <- app_assoc.
  - clock_index s n. exact Hin.
  - exact Hfail.
Qed.

(** ** Example runs of the batch workflow *)

Ltac by_computation := vm_compute; first [reflexivity | discriminate].

Lemma accepted_is_submitted polls clock a :
  submitted (scripted (inr accepted) polls clock) new_client a initial
    example_status_url.
Proof. exists accepted. repeat split. Qed.

Lemma status_response_reports polls clock post k url st :
  polls k = inr (status_response st) ->
  poll_reports (scripted post polls clock) k url (status_items st).
Proof. intros H. exists (status_response st). cbn. rewrite H. repeat split. Qed.

Lemma queued_is_pending : pending (status_items "Queued").
Proof. split; intros H; discriminate H. Qed.

(** The first poll is answered "Completed". *)
Lemma completed_on_first_poll_witness :
  get_batch_readings
    (scripted (inr accepted) (fun _ => inr (status_response "Completed"))
       five_second_clock)
    new_client 1 Batch.defaults initial
  = (Ret (JDict (status_items "Completed")),
     after initial 1 1 2
       (submit_events new_client Batch.defaults
        ++ [ETime; EGet example_status_url None 30]))
  /\ existsb is_sleep
       (submit_events new_client Batch.defaults
        ++ [ETime; EGet example_status_url None 30]) = false.
Proof.
  apply (completed_on_first_poll_returns_without_sleep
           (scripted (inr accepted) (fun _ => inr (status_response "Completed"))
              five_second_clock)
           new_client Batch.defaults initial example_status_url
           (status_items "Completed") 0).
  - apply accepted_is_submitted.
  - by_computation.
  - now apply status_response_reports.
  - reflexivity.
Defined.

(** Clock readings five seconds apart are whole numbers of seconds. *)
Lemma five_second_clock_on_grid i :
  (i <= 6)%nat -> on_grid 0 (five_second_clock i).
Proof.
  intros Hi. split; [lia|]. exists (5 * Z.of_nat i). split.
  { change (2 ^ 53) with 9007199254740992. lia. }
  unfold five_second_clock. change (inject_Z (2 ^ Z.of_nat 0)) with 1%Q.
  ring.
Qed.

(** The batch stays queued; with readings five seconds apart and twelve
    seconds allowed, the wait ends in a timeout. *)
Lemma never_terminal_status_times_out_witness :
  exists n, (n <= 5)%nat
    /\ (inject_Z 12 < elapsed_at
          (scripted (inr accepted) (fun _ => inr (status_response "Queued"))
             five_second_clock)
          (five_second_clock 0) (0 + 1 + n))%Q
    /\ (forall i, (i < n)%nat ->
          (elapsed_at
             (scripted (inr accepted) (fun _ => inr (status_response "Queued"))
                five_second_clock)
             (five_second_clock 0) (0 + 1 + i)
           <= inject_Z 12)%Q)
    /\ (forall i, (i <= n)%nat ->
          binary64_exact
            (elapsed_at
               (scripted (inr accepted) (fun _ => inr (status_response "Queued"))
                  five_second_clock)
               (five_second_clock 0) (0 + 1 + i)))
    /\ forall fuel,
      get_batch_readings
        (scripted (inr accepted) (fun _ => inr (status_response "Queued"))
           five_second_clock)
        new_client (n + S fuel)
        two_measures_short_wait
        initial
      = (Raise (timed_out 12),
         after initial n 1 (n + 2)
           (submit_events new_client
              two_measures_short_wait
            ++ polling_trace new_client example_status_url 5
                 (fun _ => status_items "Queued") n
            ++ [ETime])).
Proof.
  apply (never_terminal_status_times_out
           (scripted (inr accepted) (fun _ => inr (status_response "Queued"))
              five_second_clock)
           new_client two_measures_short_wait initial example_status_url
           (fun _ => status_items "Queued") 5 0).
  - apply accepted_is_submitted.
  - intros i. split.
    + now apply status_response_reports.
    + apply queued_is_pending.
  - cbn. lia.
  - intros i Hi. apply (five_second_clock_on_grid i). lia.
  - by_computation.
Defined.

(** The submission is answered without a [Location] header. *)
Lemma rejected_submission_makes_no_poll_witness :
  exists msg,
    get_batch_readings
      (scripted (inr accepted_without_location)
         (fun _ => inr (status_response "Completed")) five_second_clock)
      new_client 10 Batch.defaults initial
    = (Raise (HydrologyAPIError msg),
       after initial 0 1 0
         [EPost (batch_url new_client) (batch_params Batch.defaults) 30])
    /\ (msg = [Lit "No status URL provided in batch response"]
        \/ exists e, msg = [Lit "Failed to submit batch request: "; FExc e])
    /\ gets (snd (get_batch_readings
                    (scripted (inr accepted_without_location)
                       (fun _ => inr (status_response "Completed"))
                       five_second_clock)
                    new_client 10 Batch.defaults initial)) = gets initial
    /\ existsb is_get
         [EPost (batch_url new_client) (batch_params Batch.defaults) 30] = false.
Proof.
  apply (rejected_submission_makes_no_poll
           (scripted (inr accepted_without_location)
              (fun _ => inr (status_response "Completed")) five_second_clock)
           new_client Batch.defaults initial 10).
  right. reflexivity.
Defined.

(** The batch is queued at the first poll and has failed at the second. *)
Lemma failed_status_raises_with_payload_witness :
  get_batch_readings
    (scripted (inr accepted)
       (fun k => match k with
                 | O => inr (status_response "Queued")
                 | _ => inr (status_response "Failed")
                 end)
       five_second_clock)
    new_client 2 Batch.defaults initial
  = (Raise (HydrologyAPIError
              [Lit "Batch request failed: "; FJson (JDict (status_items "Failed"))]),
     after initial 2 1 3
       (submit_events new_client Batch.defaults
        ++ polling_trace new_client example_status_url 5
             (fun _ => status_items "Queued") 1
        ++ [ETime; EGet example_status_url None 30])).
Proof.
  apply (failed_status_raises_with_payload
           (scripted (inr accepted)
              (fun k => match k with
                        | O => inr (status_response "Queued")
                        | _ => inr (status_response "Failed")
                        end)
              five_second_clock)
           new_client Batch.defaults initial example_status_url
           (fun _ => status_items "Queued") 1 (status_items "Failed") 0).
  - apply accepted_is_submitted.
  - intros i Hi. assert (i = 0)%nat as -> by lia. repeat split.
    + by_computation.
    + now apply status_response_reports.
    + intros H; discriminate H.
    + intros H; discriminate H.
  - intros _. cbn. lia.
  - by_computation.
  - now apply status_response_reports.
  - reflexivity.
Defined.

(** The batch is queued at the first poll; the second poll is answered
    with a body that is not JSON. *)
Lemma poll_failure_surfaces_without_retry_witness :
  get_batch_readings
    (scripted (inr accepted)
       (fun k => match k with
                 | O => inr (status_response "Queued")
                 | _ => inr csv_response
                 end)
       five_second_clock)
    new_client 2 Batch.defaults initial
  = (Raise (HydrologyAPIError
              [Lit "Failed to check batch status: "; FExc JSONDecodeError]),
     after initial 2 1 3
       (submit_events new_client Batch.defaults
        ++ polling_trace new_client example_status_url 5
             (fun _ => status_items "Queued") 1
        ++ [ETime; EGet example_status_url None 30])).
Proof.
  apply (poll_failure_surfaces_without_retry
           (scripted (inr accepted)
              (fun k => match k with
                        | O => inr (status_response "Queued")
                        | _ => inr csv_response
                        end)
              five_second_clock)
           new_client Batch.defaults initial example_status_url
           (fun _ => status_items "Queued") 1 JSONDecodeError 0).
  - apply accepted_is_submitted.
  - intros i Hi. assert (i = 0)%nat as -> by lia. repeat split.
    + by_computation.
    + now apply status_response_reports.
    + intros H; discriminate H.
    + intros H; discriminate H.
  - intros _. cbn. lia.
  - by_computation.
  - right. repeat split.
Defined.

(** A readings request answered with CSV, without [simplejson]: asked
    as JSON it raises the client's error, asked as CSV it returns the
    body. *)
Lemma make_request_json_malformed_csv_unchanged_example :
  fst (_make_request
         (scripted (inr accepted) (fun _ => inr csv_response) five_second_clock)
         new_client "/data/readings" "json" None initial)
  = Raise (HydrologyAPIError
             [Lit "Failed to parse JSON response: "; FExc JSONDecodeError])
  /\ fst (_make_request
            (scripted (inr accepted) (fun _ => inr csv_response) five_second_clock)
            new_client "/data/readings" "csv" None initial)
     = Ret (RText "dateTime,value").
Proof.
  apply (make_request_json_malformed_csv_unchanged
           (scripted (inr accepted) (fun _ => inr csv_response) five_second_clock)
           new_client "/data/readings" None initial csv_response csv_response);
    reflexivity.
Qed.

(** ** Effects only accumulate *)

Lemma extends_refl s : extends s s.
Proof. split; [lia | exists []; now rewrite app_nil_r]. Qed.

Lemma extends_trans s1 s2 s3 : extends s1 s2 -> extends s2 s3 -> extends s1 s3.
Proof.
  intros [H1 [e1 T1]] [H2 [e2 T2]]. split; [lia|].
  exists (e1 ++ e2)%list. now rewrite T2, T1, app_assoc.
Qed.

Lemma extends_after s g p c evs : extends s (after s g p c evs).
Proof. split; cbn; [lia | now exists evs]. Qed.

Create HintDb grows.

Lemma grows_ret {A} (a : A) : grows (ret a).
Proof. intros s. apply extends_refl. Qed.

Lemma grows_raise {A} e : grows (@raise A e).
Proof. intros s. apply extends_refl. Qed.

Lemma grows_out_of_fuel {A} : grows (@out_of_fuel A).
Proof. intros s. apply extends_refl. Qed.

Lemma grows_bind {A B} (m : M A) (k : A -> M B) :
  grows m -> (forall x, grows (k x)) -> grows (bind m k).
Proof.
  intros Hm Hk s. unfold bind. specialize (Hm s).
  destruct (m s) as [[x|e|] s1]; cbn in *; try exact Hm.
  eapply extends_trans; [exact Hm | apply Hk].
Qed.

Lemma grows_try_except {A} (m : M A) handler :
  grows m -> (forall e h, handler e = Some h -> grows h) ->
  grows (try_except m handler).
Proof.
  intros Hm Hh s. unfold try_except. specialize (Hm s).
  destruct (m s) as [[x|e|] s1]; cbn in *; try exact Hm.
  destruct (handler e) as [h|] eqn:E; cbn; [|exact Hm].
  eapply extends_trans; [exact Hm | exact (Hh e h E s1)].
Qed.

Lemma grows_if {A} (b : bool) (m1 m2 : M A) :
  grows m1 -> grows m2 -> grows (if b then m1 else m2).
Proof. now destruct b. Qed.

Lemma grows_except_RequestException {A} prefix e (h : M A) :
  except_RequestException prefix e = Some h -> grows h.
Proof. destruct e; cbn; intros [= <-]. apply grows_raise. Qed.

Lemma grows_emit e : grows (emit e).
Proof. intros s. rewrite emit_run. apply extends_after. Qed.

#[local] Hint Resolve grows_ret grows_raise grows_out_of_fuel grows_bind
  grows_try_except grows_if grows_except_RequestException grows_emit : grows.

Section Grows.
Context (w : world) (self : HydrologyAPI).

Lemma grows_time_time : grows (time_time w).
Proof. intros s. rewrite time_time_run. apply extends_after. Qed.

Lemma grows_session_get url params t : grows (session_get w url params t).
Proof. intros s. rewrite session_get_run. apply extends_after. Qed.

Lemma grows_raise_for_status r : grows (raise_for_status r).
Proof. unfold raise_for_status. auto with grows. Qed.

Lemma grows_response_json r : grows (response_json r).
Proof. unfold response_json. destruct (resp_json r); auto with grows. Qed.

Lemma grows_json_get j k : grows (json_get j k).
Proof. destruct j; cbn; auto with grows. Qed.

Lemma grows_time_sleep secs : grows (time_sleep secs).
Proof. unfold time_sleep. auto with grows. Qed.

Lemma grows_logger_info msg : grows (logger_info msg).
Proof. unfold logger_info. auto with grows. Qed.

Hint Resolve grows_time_time grows_session_get grows_raise_for_status
  grows_response_json grows_json_get grows_time_sleep grows_logger_info
  : grows.

Ltac show_grows :=
  repeat first
    [ progress intros
    | solve [eauto with grows]
    | apply grows_bind
    | apply grows_if
    | apply grows_try_except ].

Lemma grows_poll_loop url start poll_interval max_wait_time fuel :
  grows (poll_loop w self fuel url start poll_interval max_wait_time).
Proof.
  induction fuel as [|fuel IH]; cbn [poll_loop]; show_grows.
Qed.

(** Whatever the status URL answers, the [try] block of the loop makes
    exactly one GET. *)
Lemma poll_try_state url s :
  snd (try_except
         (bind (session_get w url None (self_timeout self))
            (fun r => bind (raise_for_status r) (fun _ => response_json r)))
         (except_RequestException "Failed to check batch status: ") s)
  = after s 1 0 0 [EGet url None (self_timeout self)].
Proof.
  unfold try_except, bind. rewrite session_get_run.
  destruct (w_get w (gets s) url None) as [e|r]; [reflexivity|].
  unfold raise_for_status, response_json.
  destruct (error_status r); [reflexivity|].
  destruct (resp_json r); reflexivity.
Qed.

Lemma bind_snd_extends {A B} (m : M A) (k : A -> M B) s s1 :
  snd (m s) = s1 -> (forall x, grows (k x)) ->
  extends s1 (snd (bind m k s)).
Proof.
  intros <- Hk. unfold bind.
  destruct (m s) as [[x|e|] s1]; cbn; try apply extends_refl. apply Hk.
Qed.

(** An iteration that is not past the deadline makes its GET, whatever
    comes after. *)
Lemma poll_loop_first_get url start poll_interval max_wait_time fuel s :
  (elapsed_at w start (clock_reads s) <= inject_Z max_wait_time)%Q ->
  extends (after s 1 0 1 [ETime; EGet url None (self_timeout self)])
    (snd (poll_loop w self (S fuel) url start poll_interval max_wait_time s)).
Proof.
  intros Hin. apply Qgtb_false in Hin. unfold elapsed_at in Hin.
  cbn [poll_loop]. unfold bind at 1. rewrite time_time_run, Hin.
  apply bind_snd_extends.
  - rewrite poll_try_state. now rewrite after_after.
  - intros sd. pose proof (grows_poll_loop url start poll_interval
                             max_wait_time fuel).
    show_grows.
Qed.

End Grows.

(** C10, as the code has it. The deadline check of the first iteration
    compares [max_wait_time] with the difference of two successive
    readings of the clock, which need not be zero. When that first
    elapsed time does not exceed [max_wait_time] (in particular when it
    is zero and [max_wait_time >= 0]), a call that ends in the timeout
    error has made at least one GET of the status URL first: its trace
    continues the submission with a clock reading and that GET. *)
Theorem timeout_only_after_first_poll
    (w : world) (self : HydrologyAPI) (a : Batch.args) (s s' : state)
    (fuel : nat) :
  (elapsed_at w (w_time w (clock_reads s)) (clock_reads s + 1)
   <= inject_Z (Batch.max_wait_time a))%Q ->
  get_batch_readings w self fuel a s
  = (Raise (timed_out (Batch.max_wait_time a)), s') ->
  (gets s < gets s')%nat /\
  exists url evs,
    trace s'
    = (trace s ++ submit_events self a
       ++ [ETime; EGet url None (self_timeout self)] ++ evs)%list.
Proof.
  intros Hin Hrun.
  destruct (submitted_or_rejected w self a s) as [[url Hsub]|Hrej].
  - rewrite (get_batch_readings_submitted w self a _ s url Hsub) in Hrun.
    destruct fuel as [|fuel]; [discriminate Hrun|].
    pose proof (poll_loop_first_get w self url (w_time w (clock_reads s))
                  (Batch.poll_interval a) (Batch.max_wait_time a) fuel
                  (after s 0 1 1 (submit_events self a)) Hin) as Hext.
    rewrite Hrun in Hext. cbn [snd] in Hext. rewrite after_after in Hext.
    destruct Hext as [Hgets [evs Htrace]]. cbn in Hgets, Htrace.
    split; [lia|]. exists url, evs. rewrite Htrace.
    now rewrite <- !app_assoc.
  - destruct (get_batch_readings_rejected w self a fuel s Hrej)
      as (msg & Hrun' & Hmsg).
    rewrite Hrun' in Hrun. unfold timed_out in Hrun.
    destruct Hmsg as [-> | [e ->]]; discriminate Hrun.
Qed.

(** With the same elapsed time at the first check, zero, and
    [max_wait_time >= 0], the premise of the theorem above holds. *)
Lemma no_time_passed_is_within_deadline w s max_wait_time :
  0 <= max_wait_time ->
  (w_time w (clock_reads s + 1) == w_time w (clock_reads s))%Q ->
  (elapsed_at w (w_time w (clock_reads s)) (clock_reads s + 1)
   <= inject_Z max_wait_time)%Q.
Proof.
  intros Hmw Heq. unfold elapsed_at.
  rewrite Zle_Qle in Hmw. change (inject_Z 0) with 0%Q in Hmw. lra.
Qed.

(** C10, as stated, fails: with [max_wait_time = 0] and a clock that
    advances a millisecond between the reading of [start_time] and the
    first check, the call times out after the POST and two clock
    readings, with no GET at all, though the status URL would have
    answered "Completed". *)
Lemma timeout_before_any_poll :
  0 <= Batch.max_wait_time no_wait
  /\ get_batch_readings
       (scripted (inr accepted) (fun _ => inr (status_response "Completed"))
          millisecond_clock)
       new_client 10 no_wait initial
     = (Raise (timed_out 0),
        {| gets := 0; posts := 1; clock_reads := 2;
           trace := [EPost (batch_url new_client) (batch_params no_wait) 30;
                     ETime; ETime] |})
  /\ existsb is_get
       [EPost (batch_url new_client) (batch_params no_wait) 30; ETime; ETime]
     = false.
Proof.
  split; [cbn; lia|]. split; [|reflexivity]. vm_compute. reflexivity.
Qed.

(** Twelve seconds allowed, readings five seconds apart: the timeout
    comes at the third check, after two polls. *)
Lemma timeout_only_after_first_poll_witness :
  (gets initial < 2)%nat /\
  exists url evs,
    (submit_events new_client two_measures_short_wait
     ++ polling_trace new_client example_status_url 5
          (fun _ => status_items "Queued") 2
     ++ [ETime])%list
    = (trace initial ++ submit_events new_client two_measures_short_wait
       ++ [ETime; EGet url None (self_timeout new_client)] ++ evs)%list.
Proof.
  apply (timeout_only_after_first_poll
           (scripted (inr accepted) (fun _ => inr (status_response "Queued"))
              five_second_clock)
           new_client two_measures_short_wait initial
           (after initial 2 1 4
              (submit_events new_client two_measures_short_wait
               ++ polling_trace new_client example_status_url 5
                    (fun _ => status_items "Queued") 2
               ++ [ETime]))
           5).
  - by_computation.
  - vm_compute. reflexivity.
Defined.

(** ** Parameter assembly *)

Section Lookups.
Context (params : gmap string pval).

Lemma lookup_set_str_ne k k' x :
  k <> k' -> set_str k x params !! k' = params !! k'.
Proof.
  intros Hne. unfold set_str. destruct x as [v|]; [|reflexivity].
  destruct (nonempty v); [|reflexivity]. now apply lookup_insert_ne.
Qed.

Lemma lookup_set_str_eq k v :
  nonempty v = true -> set_str k (Some v) params !! k = Some (PStr v).
Proof. intros H. unfold set_str. rewrite H. apply lookup_insert_eq. Qed.

Lemma lookup_set_date_ne k k' x :
  k <> k' -> set_date k x params !! k' = params !! k'.
Proof.
  intros Hne. unfold set_date. destruct x as [d|]; [|reflexivity].
  destruct (truthy_date (Some d)); [|reflexivity]. now apply lookup_insert_ne.
Qed.

Lemma lookup_set_date_eq k x :
  params !! k = None -> set_date k x params !! k = date_param x.
Proof.
  intros Hnone. unfold set_date, date_param. destruct x as [d|]; [|assumption].
  destruct (truthy_date (Some d)); [apply lookup_insert_eq | assumption].
Qed.

Lemma lookup_set_float_ne k k' x :
  k <> k' -> set_float k x params !! k' = params !! k'.
Proof.
  intros Hne. unfold set_float. destruct x as [q|]; [|reflexivity].
  destruct (truthy_float (Some q)); [|reflexivity]. now apply lookup_insert_ne.
Qed.

Lemma lookup_set_int_ne k k' x :
  k <> k' -> set_int k x params !! k' = params !! k'.
Proof.
  intros Hne. unfold set_int. destruct x as [z|]; [|reflexivity].
  destruct (truthy_int (Some z)); [|reflexivity]. now apply lookup_insert_ne.
Qed.

End Lookups.

Lemma lookup_set_point_ne (params : gmap string pval) ka kb a b distance k' :
  ka <> k' -> kb <> k' -> "dist" <> k' ->
  set_point ka kb a b distance params !! k' = params !! k'.
Proof.
  intros Ha Hb Hd. unfold set_point.
  destruct a as [qa|]; [|reflexivity]. destruct b as [qb|]; [|reflexivity].
  rewrite lookup_set_float_ne by assumption.
  now rewrite !lookup_insert_ne by assumption.
Qed.

(** Look a key up through the assignments made after its own. *)
Ltac skip_assignments :=
  repeat first
    [ rewrite lookup_set_str_ne by discriminate
    | rewrite lookup_set_date_ne by discriminate
    | rewrite lookup_set_int_ne by discriminate
    | rewrite lookup_set_float_ne by discriminate
    | rewrite lookup_set_point_ne by discriminate
    | rewrite lookup_insert_ne by discriminate ].

(** ** Dates *)

Lemma digit_is_digit n : is_digit (digit n) = true.
Proof.
  unfold digit. pose proof (Z.mod_pos_bound n 10 eq_refl) as H.
  assert (n mod 10 = 0 \/ n mod 10 = 1 \/ n mod 10 = 2 \/ n mod 10 = 3 \/
          n mod 10 = 4 \/ n mod 10 = 5 \/ n mod 10 = 6 \/ n mod 10 = 7 \/
          n mod 10 = 8 \/ n mod 10 = 9) as Hc by lia.
  repeat destruct Hc as [-> | Hc]; try rewrite Hc; reflexivity.
Qed.

Lemma digit_value_digit n : digit_value (digit n) = n mod 10.
Proof.
  unfold digit. pose proof (Z.mod_pos_bound n 10 eq_refl) as H.
  assert (n mod 10 = 0 \/ n mod 10 = 1 \/ n mod 10 = 2 \/ n mod 10 = 3 \/
          n mod 10 = 4 \/ n mod 10 = 5 \/ n mod 10 = 6 \/ n mod 10 = 7 \/
          n mod 10 = 8 \/ n mod 10 = 9) as Hc by lia.
  repeat destruct Hc as [-> | Hc]; try rewrite Hc; reflexivity.
Qed.

Lemma strftime_Y_m_d dt :
  strftime dt "%Y-%m-%d"
  = decimal (year dt) +:+ "-" +:+ pad2 (month dt) +:+ "-" +:+ pad2 (day dt).
Proof. reflexivity. Qed.

(** A year of four digits is written as those four digits. *)
Lemma decimal_four_digits y :
  1000 <= y <= 9999 -> decimal y = pad4 y.
Proof.
  intros Hy. unfold decimal, pad4. cbn [decimal_from].
  destruct (Z.ltb_spec y 10) as [?|_]; [lia|].
  destruct (Z.ltb_spec (y / 10) 10) as [H|_];
    [exfalso; revert H; Z.div_mod_to_equations; lia|].
  destruct (Z.ltb_spec (y / 10 / 10) 10) as [H|_];
    [exfalso; revert H; Z.div_mod_to_equations; lia|].
  destruct (Z.ltb_spec (y / 10 / 10 / 10) 10) as [_|H];
    [|exfalso; revert H; Z.div_mod_to_equations; lia].
  replace (y / 10 / 10 / 10) with (y / 1000)
    by (Z.div_mod_to_equations; lia).
  replace (y / 10 / 10) with (y / 100) by (Z.div_mod_to_equations; lia).
  reflexivity.
Qed.

(** A [datetime] in a year of four digits is written in the layout
    YYYY-MM-DD. *)
Lemma format_date_layout dt :
  four_digit_year dt ->
  is_YYYY_MM_DD (_format_date (inr dt)) = true.
Proof.
  intros Hy. cbn [_format_date].
  rewrite strftime_Y_m_d, (decimal_four_digits _ Hy). unfold pad4, pad2.
  cbv [String.append is_YYYY_MM_DD Ascii.eqb Bool.eqb].
  now rewrite !digit_is_digit.
Qed.

(** What is written then denotes the year, month and day of the
    [datetime]. *)
Lemma format_date_denotes dt :
  valid_datetime dt ->
  four_digit_year dt ->
  ymd_of (_format_date (inr dt)) = Some (year dt, month dt, day dt).
Proof.
  intros (_ & Hm & Hd & _) Hy.
  cbn [_format_date].
  rewrite strftime_Y_m_d, (decimal_four_digits _ Hy). unfold pad4, pad2.
  cbv [String.append ymd_of]. rewrite !digit_value_digit.
  unfold four_digit_year in Hy.
  assert (1000 * ((year dt / 1000) mod 10) + 100 * ((year dt / 100) mod 10)
          + 10 * ((year dt / 10) mod 10) + year dt mod 10 = year dt) as ->
    by (Z.div_mod_to_equations; lia).
  assert (10 * ((month dt / 10) mod 10) + month dt mod 10 = month dt) as ->
    by (Z.div_mod_to_equations; lia).
  assert (10 * ((day dt / 10) mod 10) + day dt mod 10 = day dt) as ->
    by (Z.div_mod_to_equations; lia).
  reflexivity.
Qed.

(** ** The read accessors *)

Section Accessors.
Context (w : world) (self : HydrologyAPI).

(** The request executor makes one GET, whatever comes of it. *)
Lemma make_request_trace endpoint format params s :
  trace (snd (_make_request w self endpoint format params s))
  = (trace s ++ [EGet (request_url self endpoint format) params
                   (self_timeout self)])%list.
Proof.
  unfold _make_request, bind at 1, try_except at 1, bind at 1.
  rewrite session_get_run.
  destruct (w_get w (gets s) (request_url self endpoint format) params)
    as [e|r]; [reflexivity|].
  unfold raise_for_status. destruct (error_status r); [reflexivity|].
  cbn [bind ret]. cbv beta iota.
  destruct (String.eqb format "json").
  - unfold try_except, bind, response_json.
    destruct (resp_json r); [reflexivity|]. cbn.
    destruct (w_simplejson w); reflexivity.
  - destruct (String.eqb format "csv"); reflexivity.
Qed.

Lemma set_checked_run k x known label params s :
  set_checked k x known label params s
  = (Ret (set_str k x params),
     after s 0 0 0 (unknown_warning x known label)).
Proof.
  unfold set_checked, set_str, unknown_warning.
  destruct x as [v|]; [|unfold ret; now rewrite after_nothing].
  destruct (nonempty v); cbn [andb]; [|unfold ret; now rewrite after_nothing].
  destruct (py_in v known); cbn [negb].
  - rewrite bind_ret. unfold ret. now rewrite after_nothing.
  - unfold logger_warning, bind. rewrite emit_run. reflexivity.
Qed.

(** With a station identifier, [get_stations] is the request executor
    on the single-station endpoint, with no query parameters. *)
Lemma get_stations_single a s :
  truthy_str (Stations.station_id a) = true ->
  get_stations w self a s
  = _make_request w self
      ("/id/stations/" +:+ default "" (Stations.station_id a))
      (Stations.format a) None s.
Proof.
  intros Hid. unfold get_stations. rewrite Hid, bind_ret. reflexivity.
Qed.

(** Without one, it is the request executor on the list endpoint, with
    the assembled parameters, after the warnings. *)
Lemma get_stations_list a s :
  truthy_str (Stations.station_id a) = false ->
  get_stations w self a s
  = _make_request w self "/id/stations" (Stations.format a)
      (Some (stations_params a)) (after s 0 0 0 (stations_warnings a)).
Proof.
  intros Hid. unfold get_stations. rewrite Hid.
  unfold bind at 1. unfold bind at 1. rewrite set_checked_run.
  unfold bind at 1. rewrite set_checked_run.
  unfold ret. cbn [fst snd]. rewrite after_after. reflexivity.
Qed.

End Accessors.

(** ** The date filters of [get_readings] *)





(** ** [get_stations] and the other filters *)

(** C9. With a station identifier that is not empty, [get_stations]
    is the request executor on /id/stations/{id} with [None] for the
    query parameters: its one GET carries none, and the call is the same
    whatever the other filter arguments and the limit, offset and view
    are. *)
Theorem get_stations_single_station_sends_no_params
    (w : world) (self : HydrologyAPI) (a : Stations.args) (s : state)
    (id : string) :
  Stations.station_id a = Some id ->
  nonempty id = true ->
  get_stations w self a s
  = _make_request w self ("/id/stations/" +:+ id) (Stations.format a) None s
  /\ trace (snd (get_stations w self a s))
     = (trace s ++ [EGet (base_url self +:+ "/id/stations/" +:+ id +:+ "."
                          +:+ Stations.format a)
                      None (self_timeout self)])%list
  /\ forall a',
       Stations.station_id a' = Some id ->
       Stations.format a' = Stations.format a ->
       get_stations w self a' s = get_stations w self a s.
Proof.
  intros Hid Hne.
  assert (Hsingle : forall b, Stations.station_id b = Some id ->
            get_stations w self b s
            = _make_request w self ("/id/stations/" +:+ id)
                (Stations.format b) None s).
  { intros b Hb. rewrite get_stations_single; rewrite Hb; [reflexivity|exact Hne]. }
  split; [|split].
  - now apply Hsingle.
  - rewrite (Hsingle a Hid), make_request_trace. reflexivity.
  - intros a' Hid' Hfmt. rewrite (Hsingle a' Hid'), (Hsingle a Hid).
    now rewrite Hfmt.
Qed.

(** C8, as the code has it. For a value [v] that is not empty:
    [get_stations] on the list endpoint (no station identifier) puts an
    observed property or a status outside the known lists in the query
    parameters of its request and logs a warning first; [get_open_stations],
    [get_measures] on the list endpoint, [get_station_measures] and
    [get_readings] put the observed property (and [get_open_stations] the
    status) in the query parameters of their request whatever it is. In
    every case the call is the request executor run on those parameters:
    the request is made. *)
Theorem unknown_filter_values_pass_through
    (w : world) (self : HydrologyAPI) (s : state) (v : string) :
  nonempty v = true ->
  (forall a,
     truthy_str (Stations.station_id a) = false ->
     Stations.observed_property a = Some v ->
     py_in v OBSERVED_PROPERTIES = false ->
     exists p evs,
       get_stations w self a s
       = _make_request w self "/id/stations" (Stations.format a) (Some p)
           (after s 0 0 0 evs)
       /\ p !! "observedProperty" = Some (PStr v)
       /\ In (EWarning [Lit "Unknown observed property: "; FStr v]) evs)
  /\ (forall a,
     truthy_str (Stations.station_id a) = false ->
     Stations.status a = Some v ->
     py_in v STATION_STATUSES = false ->
     exists p evs,
       get_stations w self a s
       = _make_request w self "/id/stations" (Stations.format a) (Some p)
           (after s 0 0 0 evs)
       /\ p !! "status.label" = Some (PStr v)
       /\ In (EWarning [Lit "Unknown status: "; FStr v]) evs)
  /\ (forall a,
     OpenStations.observed_property a = Some v ->
     exists p,
       get_open_stations w self a s
       = _make_request w self "/id/open/stations" (OpenStations.format a)
           (Some p) s
       /\ p !! "observedProperty" = Some (PStr v))
  /\ (forall a,
     OpenStations.status a = Some v ->
     exists p,
       get_open_stations w self a s
       = _make_request w self "/id/open/stations" (OpenStations.format a)
           (Some p) s
       /\ p !! "status.label" = Some (PStr v))
  /\ (forall a,
     truthy_str (Measures.measure_id a) = false ->
     Measures.observed_property a = Some v ->
     exists p,
       get_measures w self a s
       = _make_request w self "/id/measures" (Measures.format a) (Some p) s
       /\ p !! "observedProperty" = Some (PStr v))
  /\ (forall a,
     StationMeasures.observed_property a = Some v ->
     exists p,
       get_station_measures w self a s
       = _make_request w self
           ("/id/stations/" +:+ StationMeasures.station_guid a +:+ "/measures")
           (StationMeasures.format a) (Some p) s
       /\ p !! "observedProperty" = Some (PStr v))
  /\ (forall a,
     Readings.observed_property a = Some v ->
     exists p,
       get_readings w self a s
       = _make_request w self "/data/readings" (Readings.format a) (Some p) s
       /\ p !! "observedProperty" = Some (PStr v)).
Proof.
  intros Hne. repeat split.
  - intros a Hid Hop Hunknown.
    exists (stations_params a), (stations_warnings a).
    split; [now apply get_stations_list|]. split.
    + unfold stations_params. skip_assignments. rewrite Hop.
      now apply lookup_set_str_eq.
    + unfold stations_warnings, unknown_warning. rewrite Hop, Hne, Hunknown.
      apply in_or_app. left. now left.
  - intros a Hid Hst Hunknown.
    exists (stations_params a), (stations_warnings a).
    split; [now apply get_stations_list|]. split.
    + unfold stations_params. skip_assignments. rewrite Hst.
      now apply lookup_set_str_eq.
    + unfold stations_warnings, unknown_warning. rewrite Hst, Hne, Hunknown.
      apply in_or_app. right. now left.
  - intros a Hop. unfold get_open_stations. eexists. split; [reflexivity|].
    skip_assignments. rewrite Hop. now apply lookup_set_str_eq.
  - intros a Hst. unfold get_open_stations. eexists. split; [reflexivity|].
    skip_assignments. rewrite Hst. now apply lookup_set_str_eq.
  - intros a Hid Hop. unfold get_measures. rewrite Hid.
    eexists. split; [reflexivity|].
    skip_assignments. rewrite Hop. now apply lookup_set_str_eq.
  - intros a Hop. unfold get_station_measures. eexists. split; [reflexivity|].
    skip_assignments. rewrite Hop. now apply lookup_set_str_eq.
  - intros a Hop. unfold get_readings. eexists. split; [reflexivity|].
    unfold readings_params.
    destruct (Readings.earliest a), (Readings.latest a);
      skip_assignments; rewrite Hop; now apply lookup_set_str_eq.
Qed.

(** ** Example calls of the accessors *)


(** The parameters of that request, as they go out. *)
Example example_readings_on_the_wire :
  readings_params example_readings
  = list_to_map
      [ ("_limit", PInt 100); ("_view", PStr "default");
        ("measure", PStr "measure-1"); ("date", PStr "2024-03-09");
        ("mineq-date", PStr "2024-01-01"); ("latest", PStr "");
        ("period", PInt 900) ].
Proof. vm_compute. reflexivity. Qed.

(** A lookup of station SS92F014 that also passes filters. *)
Lemma get_stations_single_station_sends_no_params_witness :
  get_stations quiet_world new_client single_station_with_filters initial
  = _make_request quiet_world new_client ("/id/stations/" +:+ "SS92F014")
      (Stations.format single_station_with_filters) None initial
  /\ trace (snd (get_stations quiet_world new_client
                   single_station_with_filters initial))
     = (trace initial
        ++ [EGet (base_url new_client +:+ "/id/stations/" +:+ "SS92F014" +:+ "."
                  +:+ Stations.format single_station_with_filters)
              None (self_timeout new_client)])%list
  /\ forall a',
       Stations.station_id a' = Some "SS92F014" ->
       Stations.format a' = Stations.format single_station_with_filters ->
       get_stations quiet_world new_client a' initial
       = get_stations quiet_world new_client single_station_with_filters initial.
Proof.
  apply (get_stations_single_station_sends_no_params quiet_world new_client
           single_station_with_filters initial "SS92F014");
    reflexivity.
Defined.

(** C8, as stated, fails: a lookup of one station that passes the
    observed property "snowfall", which is outside [OBSERVED_PROPERTIES],
    makes its request without any query parameter and logs no warning. *)
Lemma unknown_property_dropped_on_single_station :
  Stations.observed_property single_station_with_filters = Some "snowfall"
  /\ py_in "snowfall" OBSERVED_PROPERTIES = false
  /\ trace (snd (get_stations quiet_world new_client
                   single_station_with_filters initial))
     = [EGet "http://environment.data.gov.uk/hydrology/id/stations/SS92F014.json"
          None 30]
  /\ existsb is_warning
       (trace (snd (get_stations quiet_world new_client
                      single_station_with_filters initial)))
     = false.
Proof. repeat split; vm_compute; reflexivity. Qed.

(** The list endpoint with the unknown observed property "snowfall". *)
Lemma unknown_filter_values_pass_through_witness :
  exists p evs,
    get_stations quiet_world new_client stations_with_unknown_filters initial
    = _make_request quiet_world new_client "/id/stations"
        (Stations.format stations_with_unknown_filters) (Some p)
        (after initial 0 0 0 evs)
    /\ p !! "observedProperty" = Some (PStr "snowfall")
    /\ In (EWarning [Lit "Unknown observed property: "; FStr "snowfall"]) evs.
Proof.
  apply (proj1 (unknown_filter_values_pass_through quiet_world new_client
                  initial "snowfall" eq_refl));
    reflexivity.
Defined.

(** ** Further properties of the request executor *)

Section RequestOutcomes.
Context (w : world) (self : HydrologyAPI).

Lemma make_request_failed endpoint format params s e :
  request_fails w (gets s) (request_url self endpoint format) params e ->
  _make_request w self endpoint format params s
  = (Raise (HydrologyAPIError [Lit "API request failed: "; FExc e]),
     after s 1 0 0 [EGet (request_url self endpoint format) params
                      (self_timeout self)]).
Proof.
  unfold request_fails. intros H.
  unfold _make_request, bind at 1, try_except at 1, bind at 1.
  rewrite session_get_run.
  destruct (w_get w (gets s) (request_url self endpoint format) params)
    as [e'|r].
  - now subst e'.
  - destruct H as [Herr ->]. unfold raise_for_status. now rewrite Herr.
Qed.

(** The request executor makes one GET and ends in a value, in the
    client's own error or, with [simplejson], in the decode error. *)
Lemma make_request_one_request endpoint format params :
  one_request w (_make_request w self endpoint format params).
Proof.
  assert (H : forall s,
    match fst (_make_request w self endpoint format params s) with
    | Ret _ => True
    | Raise e =>
        (exists msg, e = HydrologyAPIError msg)
        \/ (w_simplejson w = true /\ e = Requests JSONDecodeError)
    | OutOfFuel => False
    end
    /\ gets (snd (_make_request w self endpoint format params s))
       = (gets s + 1)%nat).
  { intros s.
    destruct (w_get w (gets s) (request_url self endpoint format) params)
      as [e|r] eqn:Hget.
    - rewrite (make_request_failed _ _ _ _ e); [cbn; eauto|].
      unfold request_fails. now rewrite Hget.
    - destruct (error_status r) eqn:Herr.
      + rewrite (make_request_failed _ _ _ _ (HTTPError (status_code r)));
          [cbn; eauto|].
        unfold request_fails. now rewrite Hget.
      + rewrite (make_request_answered w self _ _ _ _ r Hget Herr).
        destruct (String.eqb format "json"); [|cbn; auto].
        unfold try_except, bind, response_json.
        destruct (resp_json r); cbn; [auto|].
        destruct (w_simplejson w); cbn; eauto. }
  split; intros s; apply H.
Qed.

End RequestOutcomes.

(** X1. When the GET of the request executor fails, in transport or by a
    4xx/5xx status, the call raises the client's error with the message
    "API request failed: ..." whatever the format asked for, and the
    failed GET is its only effect: the request is not tried again and
    the body is not read. *)
Theorem make_request_failure_is_wrapped
    (w : world) (self : HydrologyAPI) (endpoint format : string)
    (params : option (gmap string pval)) (s : state)
    (e : requests_exception) :
  request_fails w (gets s) (request_url self endpoint format) params e ->
  _make_request w self endpoint format params s
  = (Raise (HydrologyAPIError [Lit "API request failed: "; FExc e]),
     after s 1 0 0 [EGet (request_url self endpoint format) params
                      (self_timeout self)]).
Proof. apply make_request_failed. Qed.

Lemma make_request_failure_is_wrapped_witness :
  _make_request
    (scripted (inr accepted) (fun _ => inl (Timeout "read timed out"))
       five_second_clock)
    new_client "/id/stations" "geojson" None initial
  = (Raise (HydrologyAPIError
              [Lit "API request failed: "; FExc (Timeout "read timed out")]),
     after initial 1 0 0
       [EGet (request_url new_client "/id/stations" "geojson") None
          (self_timeout new_client)]).
Proof.
  apply (make_request_failure_is_wrapped
           (scripted (inr accepted) (fun _ => inl (Timeout "read timed out"))
              five_second_clock)
           new_client "/id/stations" "geojson" None initial
           (Timeout "read timed out")).
  reflexivity.
Defined.

(** X2. When the GET is answered: asked for "json", a decodable body is
    returned as the decoded document; asked for any other format
    ("csv", "geojson", anything else) the text of the body is returned
    as it is, without decoding. *)
Theorem make_request_returns_document_or_text
    (w : world) (self : HydrologyAPI) (endpoint format : string)
    (params : option (gmap string pval)) (s : state)
    (rj r : response) (j : json) :
  request_answered w (gets s) (request_url self endpoint "json") params rj ->
  resp_json rj = Some j ->
  String.eqb format "json" = false ->
  request_answered w (gets s) (request_url self endpoint format) params r ->
  _make_request w self endpoint "json" params s
  = (Ret (RJson j),
     after s 1 0 0 [EGet (request_url self endpoint "json") params
                      (self_timeout self)])
  /\ _make_request w self endpoint format params s
     = (Ret (RText (text r)),
        after s 1 0 0 [EGet (request_url self endpoint format) params
                         (self_timeout self)]).
Proof.
  intros [Hj Hjok] Hdoc Hfmt [Hr Hrok]. split.
  - rewrite (make_request_answered w self _ _ _ _ _ Hj Hjok). cbn.
    unfold try_except, bind, response_json. now rewrite Hdoc.
  - rewrite (make_request_answered w self _ _ _ _ _ Hr Hrok).
    now rewrite Hfmt.
Qed.

Lemma make_request_returns_document_or_text_witness :
  _make_request
    (scripted (inr accepted) (fun _ => inr (status_response "Queued"))
       five_second_clock)
    new_client "/id/stations" "json" None initial
  = (Ret (RJson (JDict (status_items "Queued"))),
     after initial 1 0 0
       [EGet (request_url new_client "/id/stations" "json") None
          (self_timeout new_client)])
  /\ _make_request
       (scripted (inr accepted) (fun _ => inr (status_response "Queued"))
          five_second_clock)
       new_client "/id/stations" "geojson" None initial
     = (Ret (RText (text (status_response "Queued"))),
        after initial 1 0 0
          [EGet (request_url new_client "/id/stations" "geojson") None
             (self_timeout new_client)]).
Proof.
  apply (make_request_returns_document_or_text
           (scripted (inr accepted) (fun _ => inr (status_response "Queued"))
              five_second_clock)
           new_client "/id/stations" "geojson" None initial
           (status_response "Queued") (status_response "Queued")
           (JDict (status_items "Queued")));
    repeat split.
Defined.

(** ** Further properties of the read accessors *)

Section AccessorRequests.
Context (w : world) (self : HydrologyAPI).

Lemma get_measures_single a s :
  truthy_str (Measures.measure_id a) = true ->
  get_measures w self a s
  = _make_request w self
      ("/id/measures/" +:+ default "" (Measures.measure_id a))
      (Measures.format a) None s.
Proof. intros Hid. unfold get_measures. now rewrite Hid. Qed.

Lemma get_measures_list a s :
  truthy_str (Measures.measure_id a) = false ->
  get_measures w self a s
  = _make_request w self "/id/measures" (Measures.format a)
      (Some (measures_params a)) s.
Proof. intros Hid. unfold get_measures. now rewrite Hid. Qed.

Lemma one_request_after {A} (m : M A) evs :
  one_request w m -> one_request w (fun s => m (after s 0 0 0 evs)).
Proof.
  intros [Hout Hgets]. split; intros s.
  - apply Hout.
  - rewrite Hgets. cbn. lia.
Qed.

Lemma get_stations_one_request a : one_request w (get_stations w self a).
Proof.
  destruct (truthy_str (Stations.station_id a)) eqn:Hid.
  - destruct (make_request_one_request w self
                ("/id/stations/" +:+ default "" (Stations.station_id a))
                (Stations.format a) None) as [Hout Hgets].
    split; intros s; rewrite get_stations_single by exact Hid;
      [apply Hout | apply Hgets].
  - destruct (one_request_after _ (stations_warnings a)
                (make_request_one_request w self "/id/stations"
                   (Stations.format a) (Some (stations_params a))))
      as [Hout Hgets].
    split; intros s; rewrite get_stations_list by exact Hid;
      [apply Hout | apply Hgets].
Qed.

Lemma get_measures_one_request a : one_request w (get_measures w self a).
Proof.
  unfold get_measures.
  destruct (truthy_str (Measures.measure_id a));
    apply make_request_one_request.
Qed.

End AccessorRequests.

(** X3. Each of the five read accessors makes exactly one GET, whatever
    its arguments, and ends in a value, in the client's own error or,
    only where [simplejson] can be imported, in the decode error of
    [requests] that the handler of [_make_request] then misses. The
    GET answers a response or raises one of the exceptions of
    [requests], as the world has it: an exception from outside
    [requests] is not modelled and would pass through. *)
Theorem read_accessors_make_one_request (w : world) (self : HydrologyAPI) :
  (forall a, one_request w (get_stations w self a))
  /\ (forall a, one_request w (get_open_stations w self a))
  /\ (forall a, one_request w (get_measures w self a))
  /\ (forall a, one_request w (get_station_measures w self a))
  /\ (forall a, one_request w (get_readings w self a)).
Proof.
  split; [|split; [|split; [|split]]]; intros a.
  - apply get_stations_one_request.
  - apply (make_request_one_request w self).
  - apply get_measures_one_request.
  - apply (make_request_one_request w self).
  - apply (make_request_one_request w self).
Qed.

(** X4. With a measure identifier that is not empty, [get_measures] is
    the request executor on /id/measures/{id} with no query parameters:
    the station, observed-property and observation-type filters, the
    view and the limit are not sent, and the call is the same whatever
    they are. *)
Theorem get_measures_single_measure_sends_no_params
    (w : world) (self : HydrologyAPI) (a : Measures.args) (s : state)
    (id : string) :
  Measures.measure_id a = Some id ->
  nonempty id = true ->
  get_measures w self a s
  = _make_request w self ("/id/measures/" +:+ id) (Measures.format a) None s
  /\ trace (snd (get_measures w self a s))
     = (trace s ++ [EGet (base_url self +:+ "/id/measures/" +:+ id +:+ "."
                          +:+ Measures.format a)
                      None (self_timeout self)])%list
  /\ forall a',
       Measures.measure_id a' = Some id ->
       Measures.format a' = Measures.format a ->
       get_measures w self a' s = get_measures w self a s.
Proof.
  intros Hid Hne.
  assert (Hsingle : forall b, Measures.measure_id b = Some id ->
            get_measures w self b s
            = _make_request w self ("/id/measures/" +:+ id)
                (Measures.format b) None s).
  { intros b Hb. rewrite get_measures_single; rewrite Hb; [reflexivity|exact Hne]. }
  split; [|split].
  - now apply Hsingle.
  - rewrite (Hsingle a Hid), make_request_trace. reflexivity.
  - intros a' Hid' Hfmt. rewrite (Hsingle a' Hid'), (Hsingle a Hid).
    now rewrite Hfmt.
Qed.

Lemma get_measures_single_measure_sends_no_params_witness :
  get_measures quiet_world new_client single_measure_with_filters initial
  = _make_request quiet_world new_client ("/id/measures/" +:+ "measure-1")
      (Measures.format single_measure_with_filters) None initial
  /\ trace (snd (get_measures quiet_world new_client
                   single_measure_with_filters initial))
     = (trace initial
        ++ [EGet (base_url new_client +:+ "/id/measures/" +:+ "measure-1" +:+ "."
                  +:+ Measures.format single_measure_with_filters)
              None (self_timeout new_client)])%list
  /\ forall a',
       Measures.measure_id a' = Some "measure-1" ->
       Measures.format a' = Measures.format single_measure_with_filters ->
       get_measures quiet_world new_client a' initial
       = get_measures quiet_world new_client single_measure_with_filters initial.
Proof.
  apply (get_measures_single_measure_sends_no_params quiet_world new_client
           single_measure_with_filters initial "measure-1");
    reflexivity.
Defined.

Lemma recognised_no_warning x known label :
  recognised x known = true -> unknown_warning x known label = [].
Proof.
  unfold recognised, unknown_warning. destruct x as [v|]; [|reflexivity].
  destruct (nonempty v), (py_in v known); cbn; congruence.
Qed.

(** X5. Without a station identifier ([None] or the empty string),
    [get_stations] asks the list endpoint /id/stations with the
    parameters it assembled; when the observed property and the status
    are absent, empty or among the known values, that GET is its only
    effect: nothing is logged. *)
Theorem get_stations_known_values_log_nothing
    (w : world) (self : HydrologyAPI) (a : Stations.args) (s : state) :
  truthy_str (Stations.station_id a) = false ->
  recognised (Stations.observed_property a) OBSERVED_PROPERTIES = true ->
  recognised (Stations.status a) STATION_STATUSES = true ->
  get_stations w self a s
  = _make_request w self "/id/stations" (Stations.format a)
      (Some (stations_params a)) s
  /\ trace (snd (get_stations w self a s))
     = (trace s ++ [EGet (base_url self +:+ "/id/stations" +:+ "."
                          +:+ Stations.format a)
                      (Some (stations_params a)) (self_timeout self)])%list.
Proof.
  intros Hid Hop Hst.
  assert (Hrun : get_stations w self a s
                 = _make_request w self "/id/stations" (Stations.format a)
                     (Some (stations_params a)) s).
  { rewrite get_stations_list by exact Hid. unfold stations_warnings.
    rewrite (recognised_no_warning _ _ _ Hop), (recognised_no_warning _ _ _ Hst).
    cbn [app]. now rewrite after_nothing. }
  split; [exact Hrun|]. rewrite Hrun, make_request_trace. reflexivity.
Qed.

Lemma get_stations_known_values_log_nothing_witness :
  get_stations quiet_world new_client
    {| Stations.station_id := Some "";
       Stations.rloi_id := None; Stations.wiski_id := None;
       Stations.station_guid := None;
       Stations.observed_property := Some "rainfall";
       Stations.status := Some "Active";
       Stations.search := None; Stations.latitude := None;
       Stations.longitude := None; Stations.distance := None;
       Stations.easting := None; Stations.northing := None;
       Stations.view := "default"; Stations.limit := 100;
       Stations.offset := 0; Stations.format := "json" |} initial
  = _make_request quiet_world new_client "/id/stations" "json"
      (Some (list_to_map
               [("_limit", PInt 100); ("_offset", PInt 0);
                ("_view", PStr "default");
                ("observedProperty", PStr "rainfall");
                ("status.label", PStr "Active")])) initial
  /\ trace (snd (get_stations quiet_world new_client
       {| Stations.station_id := Some "";
          Stations.rloi_id := None; Stations.wiski_id := None;
          Stations.station_guid := None;
          Stations.observed_property := Some "rainfall";
          Stations.status := Some "Active";
          Stations.search := None; Stations.latitude := None;
          Stations.longitude := None; Stations.distance := None;
          Stations.easting := None; Stations.northing := None;
          Stations.view := "default"; Stations.limit := 100;
          Stations.offset := 0; Stations.format := "json" |} initial))
     = [EGet "http://environment.data.gov.uk/hydrology/id/stations.json"
          (Some (list_to_map
                   [("_limit", PInt 100); ("_offset", PInt 0);
                    ("_view", PStr "default");
                    ("observedProperty", PStr "rainfall");
                    ("status.label", PStr "Active")])) 30].
Proof.
  apply (get_stations_known_values_log_nothing quiet_world new_client
           {| Stations.station_id := Some "";
              Stations.rloi_id := None; Stations.wiski_id := None;
              Stations.station_guid := None;
              Stations.observed_property := Some "rainfall";
              Stations.status := Some "Active";
              Stations.search := None; Stations.latitude := None;
              Stations.longitude := None; Stations.distance := None;
              Stations.easting := None; Stations.northing := None;
              Stations.view := "default"; Stations.limit := 100;
              Stations.offset := 0; Stations.format := "json" |} initial);
    reflexivity.
Defined.

(** ** Further properties of the parameter assembly *)

Section OwnKeys.
Context (params : gmap string pval).

Lemma lookup_set_str_own k x :
  params !! k = None -> set_str k x params !! k = str_param x.
Proof.
  intros Hnone. unfold set_str, str_param. destruct x as [v|]; [|assumption].
  destruct (nonempty v); [apply lookup_insert_eq | assumption].
Qed.

Lemma lookup_set_int_own k x :
  params !! k = None -> set_int k x params !! k = int_param x.
Proof.
  intros Hnone. unfold set_int, int_param. destruct x as [z|]; [|assumption].
  destruct (truthy_int (Some z)); [apply lookup_insert_eq | assumption].
Qed.

Lemma lookup_set_float_eq k x :
  set_float k x params !! k
  = match float_param x with Some v => Some v | None => params !! k end.
Proof.
  unfold set_float, float_param. destruct x as [q|]; [|reflexivity].
  destruct (truthy_float (Some q)); [apply lookup_insert_eq | reflexivity].
Qed.

End OwnKeys.

Lemma lookup_append_measure_ne (params : gmap string pval) mid k :
  k <> "measure" -> append_measure params mid !! k = params !! k.
Proof.
  intros Hne. unfold append_measure.
  rewrite lookup_alter_ne by congruence.
  destruct (params !! "measure"); [reflexivity|].
  apply lookup_insert_ne. congruence.
Qed.

Lemma lookup_fold_append_measure_ne mids : forall (params : gmap string pval) k,
  k <> "measure" ->
  fold_left append_measure mids params !! k = params !! k.
Proof.
  induction mids as [|mid mids IH]; intros params k Hne; [reflexivity|].
  cbn [fold_left]. rewrite IH by assumption.
  now apply lookup_append_measure_ne.
Qed.

(** One turn of the loop over [measure_ids] extends the list under
    "measure" by one identifier, at its end. *)
Lemma lookup_append_measure (params : gmap string pval) mid :
  (forall v, params !! "measure" = Some v -> exists l, v = PList l) ->
  append_measure params mid !! "measure"
  = Some (PList (match params !! "measure" with
                 | Some (PList l) => l
                 | _ => []
                 end ++ [mid])).
Proof.
  intros Hlist. unfold append_measure.
  destruct (params !! "measure") as [v|] eqn:Hm.
  - destruct (Hlist v eq_refl) as [l ->].
    rewrite lookup_alter_eq, Hm. reflexivity.
  - rewrite lookup_alter_eq, lookup_insert_eq. reflexivity.
Qed.

Lemma lookup_fold_append_measure mids : forall (params : gmap string pval) l0,
  params !! "measure" = Some (PList l0) ->
  fold_left append_measure mids params !! "measure" = Some (PList (l0 ++ mids)).
Proof.
  induction mids as [|mid mids IH]; intros params l0 Hm.
  - cbn. now rewrite app_nil_r.
  - cbn [fold_left]. rewrite (IH _ (l0 ++ [mid])%list).
    + now rewrite <- app_assoc.
    + rewrite lookup_append_measure, Hm; [reflexivity|].
      intros v Hv. rewrite Hm in Hv. injection Hv as <-. eauto.
Qed.

(** Look a key up through the loop over [measure_ids]. *)
Lemma lookup_measures_ne (ids : option (list string)) k :
  k <> "measure" ->
  match ids with
  | Some (mid :: mids) => fold_left append_measure (mid :: mids) (∅ : gmap string pval)
  | _ => ∅
  end !! k = None.
Proof.
  intros Hne. destruct ids as [[|mid mids]|]; try apply lookup_empty.
  rewrite lookup_fold_append_measure_ne by assumption. apply lookup_empty.
Qed.

Ltac own_str_filter :=
  rewrite lookup_set_str_own;
  [ reflexivity
  | skip_assignments;
    first [ apply lookup_empty | apply lookup_measures_ne; discriminate ] ].

(** In the parameters each accessor assembles, an optional string filter
    sits under its own key exactly when it is given and not empty. *)
Lemma string_filters_in_params :
  (forall a, Forall (fun kx => stations_params a !! kx.1 = str_param kx.2)
               (stations_filters a))
  /\ (forall a, Forall (fun kx => open_stations_params a !! kx.1 = str_param kx.2)
                  (open_stations_filters a))
  /\ (forall a, Forall (fun kx => measures_params a !! kx.1 = str_param kx.2)
                  (measures_filters a))
  /\ (forall a, Forall (fun kx => station_measures_params a !! kx.1
                                  = str_param kx.2)
                  (station_measures_filters a))
  /\ (forall a, Forall (fun kx => readings_params a !! kx.1 = str_param kx.2)
                  (readings_filters a))
  /\ (forall a, Forall (fun kx => batch_params a !! kx.1 = str_param kx.2)
                  (batch_filters a)).
Proof.
  split; [|split; [|split; [|split; [|split]]]]; intros a.
  - unfold stations_filters, stations_params.
    repeat constructor; cbn [fst snd]; skip_assignments; own_str_filter.
  - unfold open_stations_filters, open_stations_params.
    repeat constructor; cbn [fst snd]; skip_assignments; own_str_filter.
  - unfold measures_filters, measures_params.
    repeat constructor; cbn [fst snd]; skip_assignments; own_str_filter.
  - unfold station_measures_filters, station_measures_params.
    repeat constructor; cbn [fst snd]; skip_assignments; own_str_filter.
  - unfold readings_filters, readings_params.
    destruct (Readings.earliest a), (Readings.latest a);
      repeat constructor; cbn [fst snd]; skip_assignments; own_str_filter.
  - unfold batch_filters, batch_params.
    repeat constructor; cbn [fst snd]; skip_assignments; own_str_filter.
Qed.

(** The paging and view parameters stay in the parameters each accessor
    assembles. *)
Lemma required_parameters_in_params :
  (forall a,
     stations_params a !! "_limit" = Some (PInt (Stations.limit a))
     /\ stations_params a !! "_offset" = Some (PInt (Stations.offset a))
     /\ stations_params a !! "_view" = Some (PStr (Stations.view a)))
  /\ (forall a,
     open_stations_params a !! "_limit" = Some (PInt (OpenStations.limit a))
     /\ open_stations_params a !! "_offset" = Some (PInt (OpenStations.offset a)))
  /\ (forall a,
     measures_params a !! "_limit" = Some (PInt (Measures.limit a))
     /\ measures_params a !! "_view" = Some (PStr (Measures.view a)))
  /\ (forall a,
     station_measures_params a !! "_view" = Some (PStr (StationMeasures.view a)))
  /\ (forall a,
     readings_params a !! "_limit" = Some (PInt (Readings.limit a))
     /\ readings_params a !! "_view" = Some (PStr (Readings.view a))).
Proof.
  split; [|split; [|split; [|split]]]; intros a.
  - unfold stations_params.
    repeat split; skip_assignments; apply lookup_insert_eq.
  - unfold open_stations_params.
    repeat split; skip_assignments; apply lookup_insert_eq.
  - unfold measures_params.
    repeat split; skip_assignments; apply lookup_insert_eq.
  - unfold station_measures_params. skip_assignments. apply lookup_insert_eq.
  - unfold readings_params.
    destruct (Readings.earliest a), (Readings.latest a);
      repeat split; skip_assignments; apply lookup_insert_eq.
Qed.

(** ** The keys an accessor can send *)

Lemma keys_within_empty keys : keys_within ∅ keys.
Proof. intros k [v Hv]. rewrite lookup_empty in Hv. discriminate. Qed.

Lemma keys_within_insert params keys k v :
  In k keys -> keys_within params keys -> keys_within (<[k := v]> params) keys.
Proof.
  intros Hk Hin k' Hsome. destruct (decide (k = k')) as [<-|Hne]; [assumption|].
  apply Hin. now rewrite lookup_insert_ne in Hsome.
Qed.

Lemma keys_within_set_str params keys k x :
  In k keys -> keys_within params keys -> keys_within (set_str k x params) keys.
Proof.
  intros Hk Hin. unfold set_str. destruct x as [v|]; [|assumption].
  destruct (nonempty v); [now apply keys_within_insert | assumption].
Qed.

Lemma keys_within_set_date params keys k x :
  In k keys -> keys_within params keys -> keys_within (set_date k x params) keys.
Proof.
  intros Hk Hin. unfold set_date. destruct x as [d|]; [|assumption].
  destruct (truthy_date (Some d)); [now apply keys_within_insert | assumption].
Qed.

Lemma keys_within_set_int params keys k x :
  In k keys -> keys_within params keys -> keys_within (set_int k x params) keys.
Proof.
  intros Hk Hin. unfold set_int. destruct x as [z|]; [|assumption].
  destruct (truthy_int (Some z)); [now apply keys_within_insert | assumption].
Qed.

Lemma keys_within_set_float params keys k x :
  In k keys -> keys_within params keys -> keys_within (set_float k x params) keys.
Proof.
  intros Hk Hin. unfold set_float. destruct x as [q|]; [|assumption].
  destruct (truthy_float (Some q)); [now apply keys_within_insert | assumption].
Qed.

Lemma keys_within_set_point params keys ka kb a b distance :
  In ka keys -> In kb keys -> In "dist" keys ->
  keys_within params keys ->
  keys_within (set_point ka kb a b distance params) keys.
Proof.
  intros Ha Hb Hd Hin. unfold set_point.
  destruct a as [qa|]; [|assumption]. destruct b as [qb|]; [|assumption].
  apply keys_within_set_float; [assumption|].
  now repeat apply keys_within_insert.
Qed.

Lemma keys_within_if params1 params2 keys (b : bool) :
  keys_within params1 keys -> keys_within params2 keys ->
  keys_within (if b then params1 else params2) keys.
Proof. now destruct b. Qed.

Lemma keys_within_measures (ids : option (list string)) keys :
  In "measure" keys ->
  keys_within
    match ids with
    | Some (mid :: mids) => fold_left append_measure (mid :: mids) ∅
    | _ => ∅
    end keys.
Proof.
  intros Hm k [v Hv]. destruct (decide (k = "measure")) as [->|Hne]; [assumption|].
  rewrite lookup_measures_ne in Hv by assumption. discriminate.
Qed.

Ltac in_keys := cbn; repeat first [left; reflexivity | right].

Ltac within_keys :=
  repeat first
    [ apply keys_within_empty
    | apply keys_within_measures; in_keys
    | apply keys_within_set_str; [in_keys|]
    | apply keys_within_set_date; [in_keys|]
    | apply keys_within_set_int; [in_keys|]
    | apply keys_within_set_point; [in_keys|in_keys|in_keys|]
    | apply keys_within_insert; [in_keys|] ].

(** X8. No accessor sends a parameter outside its own fixed list of
    keys, whatever its arguments: in particular [get_open_stations] never
    sends a view or a grid reference, [get_measures] never an offset, and
    the batch submission never an exact date, a limit or a view. *)
Theorem parameters_stay_within_known_keys :
  (forall a, keys_within (stations_params a) stations_keys)
  /\ (forall a, keys_within (open_stations_params a) open_stations_keys)
  /\ (forall a, keys_within (measures_params a) measures_keys)
  /\ (forall a, keys_within (station_measures_params a) station_measures_keys)
  /\ (forall a, keys_within (readings_params a) readings_keys)
  /\ (forall a, keys_within (batch_params a) batch_keys).
Proof.
  split; [|split; [|split; [|split; [|split]]]]; intros a.
  - unfold stations_params, stations_keys. within_keys.
  - unfold open_stations_params, open_stations_keys. within_keys.
  - unfold measures_params, measures_keys. within_keys.
  - unfold station_measures_params, station_measures_keys. within_keys.
  - unfold readings_params, readings_keys.
    destruct (Readings.earliest a), (Readings.latest a); within_keys.
  - unfold batch_params, batch_keys. within_keys.
Qed.

(** The keys of the example readings request are among the sixteen. *)
Lemma parameters_stay_within_known_keys_witness :
  keys_within (readings_params example_readings) readings_keys.
Proof.
  apply (proj1 (proj2 (proj2 (proj2 (proj2
           parameters_stay_within_known_keys))))).
Defined.

(** The coordinates in the parameters [get_stations] and
    [get_open_stations] assemble. *)
Lemma complete_point_in_params :
  (forall a,
     stations_params a !! "lat"
       = (if both (Stations.latitude a) (Stations.longitude a)
          then PFloat <$> Stations.latitude a else None)
     /\ stations_params a !! "long"
       = (if both (Stations.latitude a) (Stations.longitude a)
          then PFloat <$> Stations.longitude a else None)
     /\ stations_params a !! "easting"
       = (if both (Stations.easting a) (Stations.northing a)
          then PFloat <$> Stations.easting a else None)
     /\ stations_params a !! "northing"
       = (if both (Stations.easting a) (Stations.northing a)
          then PFloat <$> Stations.northing a else None)
     /\ stations_params a !! "dist"
       = (if both (Stations.latitude a) (Stations.longitude a)
             || both (Stations.easting a) (Stations.northing a)
          then float_param (Stations.distance a) else None))
  /\ (forall a,
     open_stations_params a !! "lat"
       = (if both (OpenStations.latitude a) (OpenStations.longitude a)
          then PFloat <$> OpenStations.latitude a else None)
     /\ open_stations_params a !! "long"
       = (if both (OpenStations.latitude a) (OpenStations.longitude a)
          then PFloat <$> OpenStations.longitude a else None)
     /\ open_stations_params a !! "dist"
       = (if both (OpenStations.latitude a) (OpenStations.longitude a)
          then float_param (OpenStations.distance a) else None)).
Proof.
  split; intros a.
  - unfold stations_params, set_point.
    destruct (Stations.latitude a) as [la|], (Stations.longitude a) as [lo|],
      (Stations.easting a) as [ea|], (Stations.northing a) as [no|];
      cbn [both orb fmap option_fmap option_map];
      repeat split; skip_assignments;
      rewrite ?lookup_set_float_eq; skip_assignments;
      rewrite ?lookup_set_float_eq; skip_assignments;
      rewrite ?lookup_insert_eq, ?lookup_empty;
      try reflexivity;
      destruct (float_param (Stations.distance a)); reflexivity.
  - unfold open_stations_params, set_point.
    destruct (OpenStations.latitude a) as [la|],
      (OpenStations.longitude a) as [lo|];
      cbn [both fmap option_fmap option_map];
      repeat split; skip_assignments;
      rewrite ?lookup_set_float_eq; skip_assignments;
      rewrite ?lookup_insert_eq, ?lookup_empty;
      try reflexivity;
      destruct (float_param (OpenStations.distance a)); reflexivity.
Qed.

(** X10. In [get_readings] the flags "earliest" and "latest" are sent,
    with an empty value, exactly when the flag is set, and "period" is
    sent exactly when a period is given and is not zero. *)
Theorem readings_flags_and_period (a : Readings.args) :
  readings_params a !! "earliest"
    = (if Readings.earliest a then Some (PStr "") else None)
  /\ readings_params a !! "latest"
    = (if Readings.latest a then Some (PStr "") else None)
  /\ readings_params a !! "period" = int_param (Readings.period a).
Proof.
  unfold readings_params.
  destruct (Readings.earliest a), (Readings.latest a);
    repeat split; skip_assignments;
    try (rewrite lookup_set_int_own;
         [reflexivity | skip_assignments; apply lookup_empty]);
    rewrite ?lookup_insert_eq; skip_assignments;
    rewrite ?lookup_insert_eq; try reflexivity;
    skip_assignments; apply lookup_empty.
Qed.


(** ** What each accessor sends *)

Lemma unknown_warning_is_warning x known label :
  forallb is_warning (unknown_warning x known label) = true.
Proof.
  unfold unknown_warning. destruct x as [v|]; [|reflexivity].
  destruct (nonempty v && negb (py_in v known)); reflexivity.
Qed.

Lemma stations_warnings_are_warnings a :
  forallb is_warning (stations_warnings a) = true.
Proof.
  unfold stations_warnings.
  rewrite forallb_app, !unknown_warning_is_warning. reflexivity.
Qed.

Section SentParameters.
Context (w : world) (self : HydrologyAPI).

Lemma requests_with_intro (m : M result) endpoint format p evs :
  forallb is_warning evs = true ->
  (forall s, m s = _make_request w self endpoint format (Some p)
                     (after s 0 0 0 evs)) ->
  requests_with w self m endpoint format p.
Proof.
  intros Hw H s. exists evs. split; [exact Hw|]. split; [apply H|].
  rewrite H, make_request_trace. cbn [trace after].
  now rewrite <- app_assoc.
Qed.

Lemma get_stations_sends a :
  truthy_str (Stations.station_id a) = false ->
  requests_with w self (get_stations w self a) "/id/stations"
    (Stations.format a) (stations_params a).
Proof.
  intros Hid.
  apply (requests_with_intro _ _ _ _ (stations_warnings a));
    [apply stations_warnings_are_warnings|].
  intros s. now apply get_stations_list.
Qed.

Lemma get_open_stations_sends a :
  requests_with w self (get_open_stations w self a) "/id/open/stations"
    (OpenStations.format a) (open_stations_params a).
Proof.
  apply (requests_with_intro _ _ _ _ []); [reflexivity|].
  intros s. now rewrite after_nothing.
Qed.

Lemma get_measures_sends a :
  truthy_str (Measures.measure_id a) = false ->
  requests_with w self (get_measures w self a) "/id/measures"
    (Measures.format a) (measures_params a).
Proof.
  intros Hid. apply (requests_with_intro _ _ _ _ []); [reflexivity|].
  intros s. rewrite after_nothing. now apply get_measures_list.
Qed.

Lemma get_station_measures_sends a :
  requests_with w self (get_station_measures w self a)
    ("/id/stations/" +:+ StationMeasures.station_guid a +:+ "/measures")
    (StationMeasures.format a) (station_measures_params a).
Proof.
  apply (requests_with_intro _ _ _ _ []); [reflexivity|].
  intros s. now rewrite after_nothing.
Qed.

Lemma get_readings_sends a :
  requests_with w self (get_readings w self a) "/data/readings"
    (Readings.format a) (readings_params a).
Proof.
  apply (requests_with_intro _ _ _ _ []); [reflexivity|].
  intros s. now rewrite after_nothing.
Qed.

Lemma get_batch_readings_submits a : submits_form w self a (batch_params a).
Proof.
  intros fuel s.
  destruct (submitted_or_rejected w self a s) as [[url Hsub]|Hrej].
  - rewrite (get_batch_readings_submitted w self a fuel s url Hsub).
    destruct (grows_poll_loop w self url (w_time w (clock_reads s))
                (Batch.poll_interval a) (Batch.max_wait_time a) fuel
                (after s 0 1 1 (submit_events self a))) as [_ [evs Hevs]].
    exists (ETime :: evs). rewrite Hevs. cbn. now rewrite <- app_assoc.
  - destruct (get_batch_readings_rejected w self a fuel s Hrej)
      as (msg & Hrun & _).
    exists []. rewrite Hrun. reflexivity.
Qed.

End SentParameters.

(** X6. Each optional string filter is sent under its own query
    parameter exactly when it is given and not empty, with its text
    unchanged, whatever the other arguments are. This holds of the
    parameters that go out with the request: of the one GET of
    [get_stations] and [get_measures] on their list endpoints (no
    identifier given; with one they send no parameters at all), of the
    one GET of [get_open_stations], [get_station_measures] and
    [get_readings], and of the form data [get_batch_readings] posts. *)
Theorem string_filters_go_out_under_their_own_keys
    (w : world) (self : HydrologyAPI) :
  (forall a,
     truthy_str (Stations.station_id a) = false ->
     exists p,
       requests_with w self (get_stations w self a) "/id/stations"
         (Stations.format a) p
       /\ Forall (fun kx => p !! kx.1 = str_param kx.2) (stations_filters a))
  /\ (forall a,
     exists p,
       requests_with w self (get_open_stations w self a) "/id/open/stations"
         (OpenStations.format a) p
       /\ Forall (fun kx => p !! kx.1 = str_param kx.2)
            (open_stations_filters a))
  /\ (forall a,
     truthy_str (Measures.measure_id a) = false ->
     exists p,
       requests_with w self (get_measures w self a) "/id/measures"
         (Measures.format a) p
       /\ Forall (fun kx => p !! kx.1 = str_param kx.2) (measures_filters a))
  /\ (forall a,
     exists p,
       requests_with w self (get_station_measures w self a)
         ("/id/stations/" +:+ StationMeasures.station_guid a +:+ "/measures")
         (StationMeasures.format a) p
       /\ Forall (fun kx => p !! kx.1 = str_param kx.2)
            (station_measures_filters a))
  /\ (forall a,
     exists p,
       requests_with w self (get_readings w self a) "/data/readings"
         (Readings.format a) p
       /\ Forall (fun kx => p !! kx.1 = str_param kx.2) (readings_filters a))
  /\ (forall a,
     exists p,
       submits_form w self a p
       /\ Forall (fun kx => p !! kx.1 = str_param kx.2) (batch_filters a)).
Proof.
  destruct string_filters_in_params as (H1 & H2 & H3 & H4 & H5 & H6).
  split; [|split; [|split; [|split; [|split]]]]; intros a.
  - intros Hid. exists (stations_params a).
    split; [now apply get_stations_sends | apply H1].
  - exists (open_stations_params a).
    split; [apply get_open_stations_sends | apply H2].
  - intros Hid. exists (measures_params a).
    split; [now apply get_measures_sends | apply H3].
  - exists (station_measures_params a).
    split; [apply get_station_measures_sends | apply H4].
  - exists (readings_params a).
    split; [apply get_readings_sends | apply H5].
  - exists (batch_params a).
    split; [apply get_batch_readings_submits | apply H6].
Qed.

(** A list of stations filtered by a property and a status. *)
Lemma string_filters_go_out_under_their_own_keys_witness :
  exists p,
    requests_with quiet_world new_client
      (get_stations quiet_world new_client stations_with_unknown_filters)
      "/id/stations" "json" p
    /\ Forall (fun kx => p !! kx.1 = str_param kx.2)
         (stations_filters stations_with_unknown_filters).
Proof.
  apply (proj1 (string_filters_go_out_under_their_own_keys
                  quiet_world new_client)).
  reflexivity.
Defined.

(** X7. The paging and view parameters an accessor takes are part of
    every request of it that carries query parameters, with the values
    of the arguments: no filter overwrites or removes them. This is so
    for [get_stations] and [get_measures] on their list endpoints (no
    identifier given; with one they send no parameters at all), and
    for every call of [get_open_stations], [get_station_measures] and
    [get_readings]. *)
Theorem required_parameters_are_always_sent
    (w : world) (self : HydrologyAPI) :
  (forall a,
     truthy_str (Stations.station_id a) = false ->
     exists p,
       requests_with w self (get_stations w self a) "/id/stations"
         (Stations.format a) p
       /\ p !! "_limit" = Some (PInt (Stations.limit a))
       /\ p !! "_offset" = Some (PInt (Stations.offset a))
       /\ p !! "_view" = Some (PStr (Stations.view a)))
  /\ (forall a,
     exists p,
       requests_with w self (get_open_stations w self a) "/id/open/stations"
         (OpenStations.format a) p
       /\ p !! "_limit" = Some (PInt (OpenStations.limit a))
       /\ p !! "_offset" = Some (PInt (OpenStations.offset a)))
  /\ (forall a,
     truthy_str (Measures.measure_id a) = false ->
     exists p,
       requests_with w self (get_measures w self a) "/id/measures"
         (Measures.format a) p
       /\ p !! "_limit" = Some (PInt (Measures.limit a))
       /\ p !! "_view" = Some (PStr (Measures.view a)))
  /\ (forall a,
     exists p,
       requests_with w self (get_station_measures w self a)
         ("/id/stations/" +:+ StationMeasures.station_guid a +:+ "/measures")
         (StationMeasures.format a) p
       /\ p !! "_view" = Some (PStr (StationMeasures.view a)))
  /\ (forall a,
     exists p,
       requests_with w self (get_readings w self a) "/data/readings"
         (Readings.format a) p
       /\ p !! "_limit" = Some (PInt (Readings.limit a))
       /\ p !! "_view" = Some (PStr (Readings.view a))).
Proof.
  destruct required_parameters_in_params as (H1 & H2 & H3 & H4 & H5).
  split; [|split; [|split; [|split]]]; intros a.
  - intros Hid. exists (stations_params a).
    split; [now apply get_stations_sends | apply H1].
  - exists (open_stations_params a).
    split; [apply get_open_stations_sends | apply H2].
  - intros Hid. exists (measures_params a).
    split; [now apply get_measures_sends | apply H3].
  - exists (station_measures_params a).
    split; [apply get_station_measures_sends | apply H4].
  - exists (readings_params a).
    split; [apply get_readings_sends | apply H5].
Qed.

(** A list of stations with a page size of five. *)
Lemma required_parameters_are_always_sent_witness :
  exists p,
    requests_with quiet_world new_client
      (get_stations quiet_world new_client stations_with_unknown_filters)
      "/id/stations" "json" p
    /\ p !! "_limit" = Some (PInt 5)
    /\ p !! "_offset" = Some (PInt 0)
    /\ p !! "_view" = Some (PStr "default").
Proof.
  apply (proj1 (required_parameters_are_always_sent quiet_world new_client)
           stations_with_unknown_filters).
  reflexivity.
Defined.

(** X9. A geographic search is sent only as a complete point: in the
    request of [get_stations] on the list endpoint (no identifier given)
    and in every request of [get_open_stations], "lat" and "long" go out
    when both latitude and longitude are given (zero included),
    "easting" and "northing" when both of those are; "dist" goes out
    only next to a complete point and only when the distance is not
    zero. A lone coordinate, or a distance without a point, is dropped
    without notice. *)
Theorem geographic_search_needs_a_complete_point
    (w : world) (self : HydrologyAPI) :
  (forall a,
     truthy_str (Stations.station_id a) = false ->
     exists p,
       requests_with w self (get_stations w self a) "/id/stations"
         (Stations.format a) p
       /\ p !! "lat"
         = (if both (Stations.latitude a) (Stations.longitude a)
            then PFloat <$> Stations.latitude a else None)
       /\ p !! "long"
         = (if both (Stations.latitude a) (Stations.longitude a)
            then PFloat <$> Stations.longitude a else None)
       /\ p !! "easting"
         = (if both (Stations.easting a) (Stations.northing a)
            then PFloat <$> Stations.easting a else None)
       /\ p !! "northing"
         = (if both (Stations.easting a) (Stations.northing a)
            then PFloat <$> Stations.northing a else None)
       /\ p !! "dist"
         = (if both (Stations.latitude a) (Stations.longitude a)
               || both (Stations.easting a) (Stations.northing a)
            then float_param (Stations.distance a) else None))
  /\ (forall a,
     exists p,
       requests_with w self (get_open_stations w self a) "/id/open/stations"
         (OpenStations.format a) p
       /\ p !! "lat"
         = (if both (OpenStations.latitude a) (OpenStations.longitude a)
            then PFloat <$> OpenStations.latitude a else None)
       /\ p !! "long"
         = (if both (OpenStations.latitude a) (OpenStations.longitude a)
            then PFloat <$> OpenStations.longitude a else None)
       /\ p !! "dist"
         = (if both (OpenStations.latitude a) (OpenStations.longitude a)
            then float_param (OpenStations.distance a) else None)).
Proof.
  destruct complete_point_in_params as (H1 & H2).
  split; intros a.
  - intros Hid. exists (stations_params a).
    split; [now apply get_stations_sends | apply H1].
  - exists (open_stations_params a).
    split; [apply get_open_stations_sends | apply H2].
Qed.

(** A search around a point that also gives a lone easting: the point
    and the distance go out, the easting does not. *)
Lemma geographic_search_needs_a_complete_point_witness :
  exists p,
    requests_with quiet_world new_client
      (get_stations quiet_world new_client stations_near_point)
      "/id/stations" "json" p
    /\ p !! "lat" = Some (PFloat (515 # 10))
    /\ p !! "long" = Some (PFloat (- 1 # 10))
    /\ p !! "easting" = None
    /\ p !! "northing" = None
    /\ p !! "dist" = Some (PFloat 10%Q).
Proof.
  apply (proj1 (geographic_search_needs_a_complete_point
                  quiet_world new_client) stations_near_point).
  reflexivity.
Defined.



(** ** Further properties of the batch workflow *)

(** X12. The form data of a batch submission carries the measure
    identifiers under the one key "measure", as a list in the order
    given; with no identifiers ([None] or the empty list) the key is
    absent. *)
Theorem batch_measures_are_sent_in_order (a : Batch.args) :
  batch_params a !! "measure"
  = match Batch.measure_ids a with
    | Some (mid :: mids) => Some (PList (mid :: mids))
    | _ => None
    end.
Proof.
  unfold batch_params. skip_assignments.
  destruct (Batch.measure_ids a) as [[|mid mids]|]; try apply lookup_empty.
  cbn [fold_left].
  rewrite (lookup_fold_append_measure mids _ [mid]); [reflexivity|].
  rewrite lookup_append_measure, lookup_empty; [reflexivity|].
  intros v Hv. rewrite lookup_empty in Hv. discriminate.
Qed.

Ltac own_batch_date :=
  rewrite lookup_set_date_eq;
  [ reflexivity | skip_assignments; apply lookup_measures_ne; discriminate ].

Lemma batch_params_date_filter a k x :
  In (k, x) (batch_date_filters a) -> batch_params a !! k = date_param x.
Proof.
  intros Hin. unfold batch_params. cbn in Hin.
  destruct Hin as [[= <- <-]|[[= <- <-]|[[= <- <-]|[[= <- <-]|[]]]]];
    skip_assignments; own_batch_date.
Qed.

(** X13. In the form data of a batch submission each of the four date
    parameters (min-date, max-date, mineq-date, maxeq-date) is decided by
    its own argument alone: present exactly when that argument is a
    [datetime] or a string that is not empty. A [datetime] with a year
    of four digits is sent as ten characters in the layout YYYY-MM-DD
    that denote its year, month and day; a string is sent as it is. *)
Theorem batch_date_filters_are_normalised (a : Batch.args) :
  (forall k dt, In (k, Some (inr dt)) (batch_date_filters a) ->
                valid_datetime dt /\ four_digit_year dt) ->
  forall k x, In (k, x) (batch_date_filters a) ->
    batch_params a !! k = date_param x
    /\ (forall text, x = Some (inl text) -> nonempty text = true ->
          batch_params a !! k = Some (PStr text))
    /\ forall dt, x = Some (inr dt) ->
         exists str,
           batch_params a !! k = Some (PStr str)
           /\ is_YYYY_MM_DD str = true
           /\ ymd_of str = Some (year dt, month dt, day dt).
Proof.
  intros Hvalid k x Hin. rewrite (batch_params_date_filter a k x Hin).
  repeat split.
  - intros text -> Hne. cbn. now rewrite Hne.
  - intros dt ->. exists (_format_date (inr dt)).
    destruct (Hvalid k dt Hin) as [Hv Hy]. repeat split.
    + now apply format_date_layout.
    + now apply format_date_denotes.
Qed.

Lemma batch_date_filters_are_normalised_witness :
  batch_params batch_with_dates !! "min-date"
    = date_param (Batch.min_date batch_with_dates)
  /\ (forall text, Batch.min_date batch_with_dates = Some (inl text) ->
        nonempty text = true ->
        batch_params batch_with_dates !! "min-date" = Some (PStr text))
  /\ forall dt, Batch.min_date batch_with_dates = Some (inr dt) ->
       exists str,
         batch_params batch_with_dates !! "min-date" = Some (PStr str)
         /\ is_YYYY_MM_DD str = true
         /\ ymd_of str = Some (year dt, month dt, day dt).
Proof.
  apply (batch_date_filters_are_normalised batch_with_dates).
  - intros k dt Hin. cbn in Hin.
    destruct Hin as [H|[H|[H|[H|[]]]]]; inversion H; subst; clear H.
    unfold valid_datetime, four_digit_year. cbn. lia.
  - left. reflexivity.
Defined.

(** *** What a run adds to the trace *)

Lemma emits_ret {A} P (a : A) : emits P (ret a).
Proof. intros s. exists []. split; [now rewrite app_nil_r | constructor]. Qed.

Lemma emits_raise {A} P e : emits P (@raise A e).
Proof. intros s. exists []. split; [now rewrite app_nil_r | constructor]. Qed.

Lemma emits_out_of_fuel {A} P : emits P (@out_of_fuel A).
Proof. intros s. exists []. split; [now rewrite app_nil_r | constructor]. Qed.

Lemma emits_bind {A B} P (m : M A) (k : A -> M B) :
  emits P m -> (forall x, emits P (k x)) -> emits P (bind m k).
Proof.
  intros Hm Hk s. unfold bind. destruct (Hm s) as (e1 & T1 & F1).
  destruct (m s) as [[x|e|] s1]; cbn in *; eauto.
  destruct (Hk x s1) as (e2 & T2 & F2). exists (e1 ++ e2)%list.
  split; [now rewrite T2, T1, app_assoc | now apply Forall_app].
Qed.

Lemma emits_try_except {A} P (m : M A) handler :
  emits P m -> (forall e h, handler e = Some h -> emits P h) ->
  emits P (try_except m handler).
Proof.
  intros Hm Hh s. unfold try_except. destruct (Hm s) as (e1 & T1 & F1).
  destruct (m s) as [[x|e|] s1]; cbn in *; eauto.
  destruct (handler e) as [h|] eqn:E; cbn; eauto.
  destruct (Hh e h E s1) as (e2 & T2 & F2). exists (e1 ++ e2)%list.
  split; [now rewrite T2, T1, app_assoc | now apply Forall_app].
Qed.

Lemma emits_if {A} P (b : bool) (m1 m2 : M A) :
  emits P m1 -> emits P m2 -> emits P (if b then m1 else m2).
Proof. now destruct b. Qed.

Lemma emits_except_RequestException {A} P prefix e (h : M A) :
  except_RequestException prefix e = Some h -> emits P h.
Proof. destruct e; cbn; intros [= <-]. apply emits_raise. Qed.

Lemma emits_emit (P : event -> Prop) e : P e -> emits P (emit e).
Proof.
  intros He s. exists [e]. split; [reflexivity | now repeat constructor].
Qed.

Section PollEvents.
Context (w : world) (self : HydrologyAPI) (url : string) (poll_interval : Z).

Abbreviation allowed := (poll_event self url poll_interval).

Lemma emits_time_time : emits allowed (time_time w).
Proof.
  intros s. exists [ETime]. split; [reflexivity | now repeat constructor].
Qed.

Lemma emits_status_get : emits allowed (session_get w url None (self_timeout self)).
Proof.
  intros s. rewrite session_get_run. eexists. split; [reflexivity|].
  now repeat constructor.
Qed.

Lemma emits_raise_for_status r : emits allowed (raise_for_status r).
Proof.
  unfold raise_for_status.
  destruct (error_status r); [apply emits_raise | apply emits_ret].
Qed.

Lemma emits_response_json r : emits allowed (response_json r).
Proof.
  unfold response_json.
  destruct (resp_json r); [apply emits_ret | apply emits_raise].
Qed.

Lemma emits_json_get j k : emits allowed (json_get j k).
Proof. destruct j; cbn; first [apply emits_ret | apply emits_raise]. Qed.

Lemma emits_poll_sleep : emits allowed (time_sleep poll_interval).
Proof.
  unfold time_sleep. apply emits_if; [apply emits_raise|].
  now apply emits_emit.
Qed.

Lemma emits_logger_info msg : emits allowed (logger_info msg).
Proof. now apply emits_emit. Qed.

Ltac show_emits :=
  repeat first
    [ progress intros
    | assumption
    | apply emits_ret | apply emits_raise | apply emits_out_of_fuel
    | apply emits_time_time | apply emits_status_get
    | apply emits_raise_for_status | apply emits_response_json
    | apply emits_json_get | apply emits_poll_sleep | apply emits_logger_info
    | eapply emits_except_RequestException; eassumption
    | apply emits_bind
    | apply emits_if
    | apply emits_try_except ].

(** The loop reads the clock, GETs the status URL, logs progress and
    sleeps the poll interval; it has no other effect. *)
Lemma emits_poll_loop start max_wait_time fuel :
  emits allowed (poll_loop w self fuel url start poll_interval max_wait_time).
Proof. induction fuel as [|fuel IH]; cbn [poll_loop]; show_emits. Qed.

End PollEvents.

Lemma poll_event_is_no_post self url poll_interval e :
  poll_event self url poll_interval e -> is_post e = false.
Proof. destruct e; cbn; intros H; try reflexivity; contradiction. Qed.

(** X14. Once the submission is accepted, everything [get_batch_readings]
    does afterwards is to read the clock, GET the status URL named by
    the [Location] header (that URL alone, without parameters, with the
    client's timeout), log progress and sleep the poll interval: whatever
    the server answers and however long the loop runs. *)
Theorem batch_polls_only_the_status_url
    (w : world) (self : HydrologyAPI) (a : Batch.args) (s : state)
    (url : string) (fuel : nat) :
  submitted w self a s url ->
  exists evs : list event,
    trace (snd (get_batch_readings w self fuel a s))
    = (trace s ++ EPost (batch_url self) (batch_params a) (self_timeout self)
                  :: evs)%list
    /\ Forall (poll_event self url (Batch.poll_interval a)) evs.
Proof.
  intros Hsub.
  rewrite (get_batch_readings_submitted w self a fuel s url Hsub).
  destruct (emits_poll_loop w self url (Batch.poll_interval a)
              (w_time w (clock_reads s)) (Batch.max_wait_time a) fuel
              (after s 0 1 1 (submit_events self a))) as (evs & Htrace & Hall).
  exists (ETime :: evs). split.
  - rewrite Htrace. cbn. now rewrite <- app_assoc.
  - constructor; [exact I | exact Hall].
Qed.

Lemma batch_polls_only_the_status_url_witness :
  exists evs : list event,
    trace (snd (get_batch_readings quiet_world new_client 7
                  two_measures_short_wait initial))
    = (trace initial
       ++ EPost (batch_url new_client) (batch_params two_measures_short_wait)
            (self_timeout new_client) :: evs)%list
    /\ Forall (poll_event new_client example_status_url
                 (Batch.poll_interval two_measures_short_wait)) evs.
Proof.
  apply (batch_polls_only_the_status_url quiet_world new_client
           two_measures_short_wait initial example_status_url 7).
  apply accepted_is_submitted.
Defined.

(** X15. Every run of [get_batch_readings] begins with one POST of the
    form data to /data/batch.json, and makes no other POST: the job is
    never submitted twice, whether the submission is accepted or not and
    whatever happens while polling. *)
Theorem batch_is_submitted_exactly_once
    (w : world) (self : HydrologyAPI) (a : Batch.args) (s : state)
    (fuel : nat) :
  exists evs : list event,
    trace (snd (get_batch_readings w self fuel a s))
    = (trace s ++ EPost (base_url self +:+ "/data/batch.json")
                    (batch_params a) (self_timeout self) :: evs)%list
    /\ forallb (fun e => negb (is_post e)) evs = true.
Proof.
  destruct (submitted_or_rejected w self a s) as [[url Hsub]|Hrej].
  - rewrite (get_batch_readings_submitted w self a fuel s url Hsub).
    destruct (emits_poll_loop w self url (Batch.poll_interval a)
                (w_time w (clock_reads s)) (Batch.max_wait_time a) fuel
                (after s 0 1 1 (submit_events self a))) as (evs & Htrace & Hall).
    exists (ETime :: evs). split.
    + rewrite Htrace. cbn. now rewrite <- app_assoc.
    + cbn. apply forallb_forall. intros e He.
      rewrite Forall_forall in Hall.
      rewrite (poll_event_is_no_post self url (Batch.poll_interval a) e);
        [reflexivity|].
      apply Hall. now apply list_elem_of_In.
  - destruct (get_batch_readings_rejected w self a fuel s Hrej)
      as (msg & Hrun & _).
    exists []. rewrite Hrun. split; reflexivity.
Qed.

(** *** Other ways out of the loop, and none *)

Lemma sleeps_app evs1 evs2 : sleeps (evs1 ++ evs2) = (sleeps evs1 + sleeps evs2)%nat.
Proof. unfold sleeps. now rewrite List.filter_app, List.length_app. Qed.

Lemma sleeps_polling_trace self url poll_interval pend n :
  sleeps (polling_trace self url poll_interval pend n) = n.
Proof.
  induction n as [|n IH]; [reflexivity|].
  cbn [polling_trace]. rewrite sleeps_app, IH. cbn. lia.
Qed.

(** X16. When the submission is accepted and, after [n] polls that find
    the batch pending, a poll reports "Completed", [get_batch_readings]
    returns that last status payload; it has then made [n + 1] GETs and
    slept exactly [n] times, once after each pending poll. *)
Theorem completed_after_pending_polls
    (w : world) (self : HydrologyAPI) (a : Batch.args) (s : state)
    (url : string) (pend : nat -> list (string * json)) (n : nat)
    (items : list (string * json)) (fuel : nat) :
  submitted w self a s url ->
  pending_run w url (w_time w (clock_reads s)) (Batch.max_wait_time a)
    (gets s) (clock_reads s + 1) pend n ->
  ((0 < n)%nat -> 0 <= Batch.poll_interval a) ->
  (elapsed_at w (w_time w (clock_reads s)) (clock_reads s + 1 + n)
   <= inject_Z (Batch.max_wait_time a))%Q ->
  poll_reports w (gets s + n) url items ->
  status_is items "Completed" ->
  get_batch_readings w self (n + S fuel) a s
  = (Ret (JDict items),
     after s (n + 1) 1 (n + 2)
       (submit_events self a
        ++ polling_trace self url (Batch.poll_interval a) pend n
        ++ [ETime; EGet url None (self_timeout self)]))
  /\ sleeps (submit_events self a
             ++ polling_trace self url (Batch.poll_interval a) pend n
             ++ [ETime; EGet url None (self_timeout self)]) = n.
Proof.
  intros Hsub Hrun Hpi Hin Hrep Hst. split.
  - rewrite (get_batch_readings_pending w self a s _ url pend n Hsub Hrun Hpi).
    rewrite (poll_step_completed w self url _ _ _ fuel _ items).
    + rewrite after_after. f_equal. apply after_eq; try lia.
      now rewrite <- app_assoc.
    + clock_index s n. exact Hin.
    + exact Hrep.
    + exact Hst.
  - rewrite !sleeps_app, sleeps_polling_trace. cbn. lia.
Qed.

Lemma completed_after_pending_polls_witness :
  get_batch_readings
    (scripted (inr accepted)
       (fun k => if (k <? 2)%nat then inr (status_response "Running")
                 else inr (status_response "Completed"))
       five_second_clock)
    new_client 3 Batch.defaults initial
  = (Ret (JDict (status_items "Completed")),
     after initial 3 1 4
       (submit_events new_client Batch.defaults
        ++ polling_trace new_client example_status_url 5
             (fun _ => status_items "Running") 2
        ++ [ETime; EGet example_status_url None 30]))
  /\ sleeps (submit_events new_client Batch.defaults
             ++ polling_trace new_client example_status_url 5
                  (fun _ => status_items "Running") 2
             ++ [ETime; EGet example_status_url None 30]) = 2%nat.
Proof.
  apply (completed_after_pending_polls
           (scripted (inr accepted)
              (fun k => if (k <? 2)%nat then inr (status_response "Running")
                        else inr (status_response "Completed"))
              five_second_clock)
           new_client Batch.defaults initial example_status_url
           (fun _ => status_items "Running") 2 (status_items "Completed") 0).
  - apply accepted_is_submitted.
  - intros i Hi. repeat split.
    + assert (i = 0 \/ i = 1)%nat as [-> | ->] by lia; by_computation.
    + apply status_response_reports.
      assert (i = 0 \/ i = 1)%nat as [-> | ->] by lia; reflexivity.
    + intros H; discriminate H.
    + intros H; discriminate H.
  - intros _. cbn. lia.
  - by_computation.
  - now apply status_response_reports.
  - reflexivity.
Defined.

Section OtherExits.
Context (w : world) (self : HydrologyAPI).
Context (url : string) (start : Q) (poll_interval max_wait_time : Z).

Lemma poll_step_no_object fuel s j :
  (elapsed_at w start (clock_reads s) <= inject_Z max_wait_time)%Q ->
  poll_reports_no_object w (gets s) url j ->
  poll_loop w self (S fuel) url start poll_interval max_wait_time s
  = (Raise (AttributeError "object has no attribute 'get'"),
     after s 1 0 1 [ETime; EGet url None (self_timeout self)]).
Proof.
  intros Hin [(r & Hget & Hok & Hjson) Hshape].
  apply Qgtb_false in Hin. unfold elapsed_at in Hin.
  cbn [poll_loop]. unfold bind at 1. rewrite time_time_run, Hin.
  unfold bind at 1, try_except, bind at 1. rewrite session_get_run.
  cbn [gets after]. rewrite Nat.add_0_r, Hget.
  unfold bind, raise_for_status, response_json. rewrite Hok, Hjson.
  cbn [ret]. rewrite after_after.
  destruct j; try contradiction; reflexivity.
Qed.

Lemma poll_step_negative_interval fuel s items :
  (elapsed_at w start (clock_reads s) <= inject_Z max_wait_time)%Q ->
  poll_reports w (gets s) url items ->
  pending items ->
  poll_interval < 0 ->
  poll_loop w self (S fuel) url start poll_interval max_wait_time s
  = (Raise (ValueError "sleep length must be non-negative"),
     after s 1 0 1
       [ETime; EGet url None (self_timeout self);
        EInfo [Lit "Batch request status: "; FJson (items_get items "status");
               Lit " (position: "; FJson (items_get items "positionInQueue");
               Lit ")"]]).
Proof.
  intros Hin Hrep [Hnc Hnf] Hpi.
  apply Qgtb_false in Hin. unfold elapsed_at in Hin.
  cbn [poll_loop]. unfold bind at 1. rewrite time_time_run, Hin.
  unfold bind at 1. rewrite (poll_try_reports w self url _ (gets s) items).
  2: cbn; lia. 2: exact Hrep.
  cbn [json_get]. rewrite bind_ret.
  rewrite (json_eq_str_false _ _ Hnc), (json_eq_str_false _ _ Hnf).
  rewrite bind_ret. unfold logger_info, time_sleep.
  unfold bind at 1. rewrite emit_run.
  destruct (Z.ltb_spec poll_interval 0) as [_|?]; [|lia].
  unfold bind, raise. rewrite !after_after. reflexivity.
Qed.

End OtherExits.

(** X17. When a poll of the status URL is answered with decodable JSON
    that is not an object (a list, a string, a number, null), the call
    ends in an [AttributeError], from [status_data.get]: this is not the
    client's own error, and no handler of the loop catches it. *)
Theorem status_that_is_no_object_escapes
    (w : world) (self : HydrologyAPI) (a : Batch.args) (s : state)
    (url : string) (pend : nat -> list (string * json)) (n : nat)
    (j : json) (fuel : nat) :
  submitted w self a s url ->
  pending_run w url (w_time w (clock_reads s)) (Batch.max_wait_time a)
    (gets s) (clock_reads s + 1) pend n ->
  ((0 < n)%nat -> 0 <= Batch.poll_interval a) ->
  (elapsed_at w (w_time w (clock_reads s)) (clock_reads s + 1 + n)
   <= inject_Z (Batch.max_wait_time a))%Q ->
  poll_reports_no_object w (gets s + n) url j ->
  exists detail,
    get_batch_readings w self (n + S fuel) a s
    = (Raise (AttributeError detail),
       after s (n + 1) 1 (n + 2)
         (submit_events self a
          ++ polling_trace self url (Batch.poll_interval a) pend n
          ++ [ETime; EGet url None (self_timeout self)])).
Proof.
  intros Hsub Hrun Hpi Hin Hrep. eexists.
  rewrite (get_batch_readings_pending w self a s _ url pend n Hsub Hrun Hpi).
  rewrite (poll_step_no_object w self url _ _ _ fuel _ j).
  - rewrite after_after. f_equal. apply after_eq; try lia.
    now rewrite <- app_assoc.
  - clock_index s n. exact Hin.
  - exact Hrep.
Qed.

Lemma status_that_is_no_object_escapes_witness :
  exists detail,
    get_batch_readings
      (scripted (inr accepted) (fun _ => inr status_list_response)
         five_second_clock)
      new_client 1 Batch.defaults initial
    = (Raise (AttributeError detail),
       after initial 1 1 2
         (submit_events new_client Batch.defaults
          ++ polling_trace new_client example_status_url 5
               (fun _ => status_items "Queued") 0
          ++ [ETime; EGet example_status_url None 30])).
Proof.
  apply (status_that_is_no_object_escapes
           (scripted (inr accepted) (fun _ => inr status_list_response)
              five_second_clock)
           new_client Batch.defaults initial example_status_url
           (fun _ => status_items "Queued") 0 (JList [JStr "Queued"]) 0).
  - apply accepted_is_submitted.
  - intros i Hi. lia.
  - intros Hn. lia.
  - by_computation.
  - split; [|exact I]. exists status_list_response. repeat split.
Defined.

(** X18. With a negative poll interval, a first poll that finds the
    batch pending is followed by a [ValueError] from [time.sleep]: the
    call ends there, after one GET and one progress message, and polls
    no further. *)
Theorem negative_poll_interval_fails_at_first_sleep
    (w : world) (self : HydrologyAPI) (a : Batch.args) (s : state)
    (url : string) (items : list (string * json)) (fuel : nat) :
  submitted w self a s url ->
  (elapsed_at w (w_time w (clock_reads s)) (clock_reads s + 1)
   <= inject_Z (Batch.max_wait_time a))%Q ->
  poll_reports w (gets s) url items ->
  pending items ->
  Batch.poll_interval a < 0 ->
  get_batch_readings w self (S fuel) a s
  = (Raise (ValueError "sleep length must be non-negative"),
     after s 1 1 2
       (submit_events self a
        ++ [ETime; EGet url None (self_timeout self);
            EInfo [Lit "Batch request status: ";
                   FJson (items_get items "status");
                   Lit " (position: ";
                   FJson (items_get items "positionInQueue"); Lit ")"]])).
Proof.
  intros Hsub Hin Hrep Hpend Hneg.
  rewrite (get_batch_readings_submitted w self a _ s url Hsub).
  rewrite (poll_step_negative_interval w self url _ _ _ fuel _ items).
  - now rewrite after_after.
  - exact Hin.
  - cbn [gets after]. now rewrite Nat.add_0_r.
  - exact Hpend.
  - exact Hneg.
Qed.

Lemma negative_poll_interval_fails_at_first_sleep_witness :
  get_batch_readings quiet_world new_client 4 negative_interval initial
  = (Raise (ValueError "sleep length must be non-negative"),
     after initial 1 1 2
       (submit_events new_client negative_interval
        ++ [ETime; EGet example_status_url None (self_timeout new_client);
            EInfo [Lit "Batch request status: ";
                   FJson (items_get (status_items "Queued") "status");
                   Lit " (position: ";
                   FJson (items_get (status_items "Queued") "positionInQueue");
                   Lit ")"]])).
Proof.
  apply (negative_poll_interval_fails_at_first_sleep quiet_world new_client
           negative_interval initial example_status_url
           (status_items "Queued") 3).
  - apply accepted_is_submitted.
  - by_computation.
  - now apply status_response_reports.
  - apply queued_is_pending.
  - cbn. lia.
Defined.

(** X19. The loop has no bound on the number of polls: when the
    submission is accepted, every poll finds the batch pending and no
    reading of the clock is past the deadline, the call is still polling
    after any number of iterations, having made one GET and one sleep in
    each. *)
Theorem pending_within_deadline_polls_without_end
    (w : world) (self : HydrologyAPI) (a : Batch.args) (s : state)
    (url : string) (pend : nat -> list (string * json)) (fuel : nat) :
  submitted w self a s url ->
  (forall n,
     pending_run w url (w_time w (clock_reads s)) (Batch.max_wait_time a)
       (gets s) (clock_reads s + 1) pend n) ->
  0 <= Batch.poll_interval a ->
  get_batch_readings w self fuel a s
  = (OutOfFuel,
     after s fuel 1 (fuel + 1)
       (submit_events self a
        ++ polling_trace self url (Batch.poll_interval a) pend fuel))
  /\ sleeps (submit_events self a
             ++ polling_trace self url (Batch.poll_interval a) pend fuel)
     = fuel.
Proof.
  intros Hsub Hrun Hpi. split.
  - replace fuel with (fuel + 0)%nat at 1 by lia.
    rewrite (get_batch_readings_pending w self a s 0 url pend fuel Hsub
               (Hrun fuel) (fun _ => Hpi)).
    reflexivity.
  - rewrite sleeps_app, sleeps_polling_trace. cbn. lia.
Qed.

Lemma pending_within_deadline_polls_without_end_witness :
  get_batch_readings
    (scripted (inr accepted) (fun _ => inr (status_response "Queued"))
       frozen_clock)
    new_client 50 Batch.defaults initial
  = (OutOfFuel,
     after initial 50 1 (50 + 1)
       (submit_events new_client Batch.defaults
        ++ polling_trace new_client example_status_url 5
             (fun _ => status_items "Queued") 50))
  /\ sleeps (submit_events new_client Batch.defaults
             ++ polling_trace new_client example_status_url 5
                  (fun _ => status_items "Queued") 50)
     = 50%nat.
Proof.
  apply (pending_within_deadline_polls_without_end
           (scripted (inr accepted) (fun _ => inr (status_response "Queued"))
              frozen_clock)
           new_client Batch.defaults initial example_status_url
           (fun _ => status_items "Queued") 50).
  - apply accepted_is_submitted.
  - intros n i Hi. repeat split.
    + by_computation.
    + now apply status_response_reports.
    + intros H; discriminate H.
    + intros H; discriminate H.
  - cbn. lia.
Defined.

(** *** What a run can end in *)

Lemma raises_ret {A} P (a : A) : raises P (ret a).
Proof. intros s. exact I. Qed.

Lemma raises_out_of_fuel {A} P : raises P (@out_of_fuel A).
Proof. intros s. exact I. Qed.

Lemma raises_raise {A} (P : exn -> Prop) e : P e -> raises P (@raise A e).
Proof. intros He s. exact He. Qed.

Lemma raises_bind {A B} P (m : M A) (k : A -> M B) :
  raises P m -> (forall x, raises P (k x)) -> raises P (bind m k).
Proof.
  intros Hm Hk s. unfold bind. specialize (Hm s).
  destruct (m s) as [[x|e|] s1]; cbn in *; auto. apply Hk.
Qed.

Lemma raises_if {A} P (b : bool) (m1 m2 : M A) :
  raises P m1 -> raises P m2 -> raises P (if b then m1 else m2).
Proof. now destruct b. Qed.

(** Whatever the [try] block does, [except RequestException] lets no
    exception of [requests] through. *)
Lemma raises_try_RequestException {A} (m : M A) prefix :
  raises not_requests_exception
    (try_except m (except_RequestException prefix)).
Proof.
  intros s. unfold try_except.
  destruct (m s) as [[x|e|] s1]; cbn; auto. destruct e; cbn; auto.
Qed.

Section Exits.
Context (w : world) (self : HydrologyAPI).

Lemma raises_time_time : raises not_requests_exception (time_time w).
Proof. intros s. exact I. Qed.

Lemma raises_emit e : raises not_requests_exception (emit e).
Proof. intros s. exact I. Qed.

Lemma raises_json_get j k : raises not_requests_exception (json_get j k).
Proof. intros s. destruct j; exact I. Qed.

Lemma raises_time_sleep secs : raises not_requests_exception (time_sleep secs).
Proof. intros s. unfold time_sleep. destruct (secs <? 0)%Z; exact I. Qed.

Ltac show_raises :=
  repeat first
    [ progress intros
    | assumption
    | apply raises_ret | apply raises_out_of_fuel
    | apply raises_raise; exact I
    | apply raises_time_time | apply raises_emit
    | apply raises_json_get | apply raises_time_sleep
    | apply raises_try_RequestException
    | apply raises_bind
    | apply raises_if ].

Lemma raises_poll_loop url start poll_interval max_wait_time fuel :
  raises not_requests_exception
    (poll_loop w self fuel url start poll_interval max_wait_time).
Proof.
  induction fuel as [|fuel IH]; cbn [poll_loop];
    unfold logger_info; show_raises.
Qed.

Lemma raises_get_batch_readings fuel a :
  raises not_requests_exception (get_batch_readings w self fuel a).
Proof.
  unfold get_batch_readings.
  apply raises_bind; [apply raises_try_RequestException|]. intros response.
  apply raises_if; [apply raises_raise; exact I|]. cbv zeta.
  apply raises_bind; [apply raises_time_time|]. intros start_time.
  apply raises_poll_loop.
Qed.

End Exits.

(** X20. No exception of [requests] leaves [get_batch_readings]: whatever
    the server answers and however long the loop runs, a failed POST or
    GET reaches the caller as the client's own error. *)
Theorem batch_lets_no_requests_exception_through
    (w : world) (self : HydrologyAPI) (fuel : nat) (a : Batch.args)
    (s : state) :
  match fst (get_batch_readings w self fuel a s) with
  | Raise e => not_requests_exception e
  | _ => True
  end.
Proof. apply (raises_get_batch_readings w self fuel a s). Qed.

(** ** [download_batch_results] *)

(** X21. When the GET of the download URL is answered,
    [download_batch_results] returns the text of the body as it is: it
    makes that one GET, of the URL as given, without parameters, and does
    not decode the body. *)
Theorem download_returns_the_body
    (w : world) (self : HydrologyAPI) (download_url : string) (s : state)
    (r : response) :
  request_answered w (gets s) download_url None r ->
  download_batch_results w self download_url s
  = (Ret (text r), after s 1 0 0 [EGet download_url None (self_timeout self)]).
Proof.
  intros [Hget Hok].
  unfold download_batch_results, try_except, bind.
  rewrite session_get_run, Hget. unfold raise_for_status. now rewrite Hok.
Qed.

Lemma download_returns_the_body_witness :
  download_batch_results
    (scripted (inr accepted) (fun _ => inr csv_response) five_second_clock)
    new_client "http://environment.data.gov.uk/hydrology/data/batch-response/1.csv"
    initial
  = (Ret "dateTime,value",
     after initial 1 0 0
       [EGet "http://environment.data.gov.uk/hydrology/data/batch-response/1.csv"
          None (self_timeout new_client)]).
Proof.
  apply (download_returns_the_body
           (scripted (inr accepted) (fun _ => inr csv_response) five_second_clock)
           new_client
           "http://environment.data.gov.uk/hydrology/data/batch-response/1.csv"
           initial csv_response).
  split; reflexivity.
Defined.

(** X22. When the GET of the download URL fails, in transport or by a
    4xx/5xx status, [download_batch_results] raises the client's error
    with the message "Failed to download batch results: ...", after that
    one GET. *)
Theorem download_failure_is_wrapped
    (w : world) (self : HydrologyAPI) (download_url : string) (s : state)
    (e : requests_exception) :
  request_fails w (gets s) download_url None e ->
  download_batch_results w self download_url s
  = (Raise (HydrologyAPIError
              [Lit "Failed to download batch results: "; FExc e]),
     after s 1 0 0 [EGet download_url None (self_timeout self)]).
Proof.
  unfold request_fails. intros H.
  unfold download_batch_results, try_except, bind.
  rewrite session_get_run.
  destruct (w_get w (gets s) download_url None) as [e'|r].
  - now subst e'.
  - destruct H as [Herr ->]. unfold raise_for_status. now rewrite Herr.
Qed.

Lemma download_failure_is_wrapped_witness :
  download_batch_results
    (scripted (inr accepted)
       (fun _ => inr {| status_code := 404; headers := []; text := "";
                        resp_json := None |})
       five_second_clock)
    new_client "http://environment.data.gov.uk/hydrology/data/batch-response/1.csv"
    initial
  = (Raise (HydrologyAPIError
              [Lit "Failed to download batch results: "; FExc (HTTPError 404)]),
     after initial 1 0 0
       [EGet "http://environment.data.gov.uk/hydrology/data/batch-response/1.csv"
          None (self_timeout new_client)]).
Proof.
  apply (download_failure_is_wrapped
           (scripted (inr accepted)
              (fun _ => inr {| status_code := 404; headers := []; text := "";
                               resp_json := None |})
              five_second_clock)
           new_client
           "http://environment.data.gov.uk/hydrology/data/batch-response/1.csv"
           initial (HTTPError 404)).
  split; reflexivity.
Defined.

(** ** What each accessor asks of the request executor *)

(** Each read accessor is one call of the request executor:
    [get_stations] and [get_measures] on the single-entity endpoint with
    no parameters when an identifier is given and not empty, and on the
    list endpoint with the assembled parameters otherwise ([get_stations]
    after its warnings); [get_open_stations], [get_station_measures] and
    [get_readings] always on their one endpoint with the assembled
    parameters. *)
Lemma read_accessors_requests
    (w : world) (self : HydrologyAPI) (s : state) :
  (forall a,
     get_stations w self a s
     = if truthy_str (Stations.station_id a)
       then _make_request w self
              ("/id/stations/" +:+ default "" (Stations.station_id a))
              (Stations.format a) None s
       else _make_request w self "/id/stations" (Stations.format a)
              (Some (stations_params a))
              (after s 0 0 0 (stations_warnings a)))
  /\ (forall a,
     get_open_stations w self a s
     = _make_request w self "/id/open/stations" (OpenStations.format a)
         (Some (open_stations_params a)) s)
  /\ (forall a,
     get_measures w self a s
     = if truthy_str (Measures.measure_id a)
       then _make_request w self
              ("/id/measures/" +:+ default "" (Measures.measure_id a))
              (Measures.format a) None s
       else _make_request w self "/id/measures" (Measures.format a)
              (Some (measures_params a)) s)
  /\ (forall a,
     get_station_measures w self a s
     = _make_request w self
         ("/id/stations/" +:+ StationMeasures.station_guid a +:+ "/measures")
         (StationMeasures.format a) (Some (station_measures_params a)) s)
  /\ (forall a,
     get_readings w self a s
     = _make_request w self "/data/readings" (Readings.format a)
         (Some (readings_params a)) s).
Proof.
  split; [|split; [|split; [|split]]]; intros a; try reflexivity.
  - destruct (truthy_str (Stations.station_id a)) eqn:Hid.
    + now apply get_stations_single.
    + now apply get_stations_list.
  - destruct (truthy_str (Measures.measure_id a)) eqn:Hid.
    + now apply get_measures_single.
    + now apply get_measures_list.
Qed.
